(** * The orchestrator of the AI software engineering team (server.py)

    A shallow embedding of the workflow engine of [server.py]: the shared
    [project_state] dictionary, the eight specialist tools, the
    [orchestrator] tool and [reset_project], followed by the properties of
    the orchestration run.

    Modelling conventions.

    - Text is a [string] holding the UTF-8 encoding of a Python [str];
      [py_len] and [py_take] count and slice by code point, as [len] and
      [s[:n]] do.
    - [project_state] is a module-level dict with eight fixed keys whose
      values are [None] or a [str] (and a dict of [str] for
      ["code_modules"]); it is the record [ProjectState], threaded through
      every function that reads or writes the global.
    - Everything outside the process is read from an explicit environment:
      the reply of [gemini_model.generate_content] (its [.text], or the
      message of the exception it raises), the reading of [datetime.now()],
      the outcome of each [tavily_client.search].  A prompt is only ever
      handed to [generate_content], whose reply is an input of the model, so
      prompts are not built; the operations inside a prompt expression that
      can raise (slicing a [None] state field) are kept.
    - An exception is modelled by [Raised e], [e] being [str(e)].
    - The plan is the dict decoded from the planner's JSON reply.  The model
      takes plans whose entries have the types the planner prompt prescribes:
      text fields are strings, ["step"] is an integer, ["depends_on"] a list
      of integers, ["parameters"] a dict of strings plus the list of strings
      ["focus_areas"].  A key that may be absent is an [option]; its default
      is the one given at each [.get].  A decoded object with an entry of
      another type is not a [Plan]: the plan display (server.py:1204-1239)
      stands outside any [try], so that, for one, a step whose ["agent"] is
      [null] raises at [agent.upper()] before any step is run.  Every
      statement about plans below is about the plans of type [Plan].
    - [print] calls write to the console only and are left out. *)

From Stdlib Require Import String Ascii List ZArith Lia Bool Arith DecimalString.
Import ListNotations.
Local Open Scope string_scope.

(** ** Python text primitives *)

(** ["\n"], [chr(10)]. *)
Definition nl : string := String (ascii_of_nat 10) "".

(** [c * n] for a text [c]. *)
Definition py_repeat (c : string) (n : nat) : string :=
  String.concat "" (repeat c n).

(** [sep.join(l)]. *)
Definition py_join (sep : string) (l : list string) : string :=
  String.concat sep l.

(** [str(n)] for an [int]. *)
Definition str_int (z : Z) : string := NilZero.string_of_int (Z.to_int z).

Definition str_nat (n : nat) : string := str_int (Z.of_nat n).

(** A byte [10xxxxxx] continues the code point started before it. *)
Definition is_continuation (c : ascii) : bool :=
  ((128 <=? nat_of_ascii c) && (nat_of_ascii c <? 192))%nat.

(** [len(s)]: the number of code points. *)
Fixpoint py_len (s : string) : nat :=
  match s with
  | EmptyString => 0
  | String c rest =>
      if is_continuation c then py_len rest else S (py_len rest)
  end.

(** [s[:n]]: the first [n] code points. *)
Fixpoint py_take (n : nat) (s : string) : string :=
  match s with
  | EmptyString => EmptyString
  | String c rest =>
      if is_continuation c then String c (py_take n rest)
      else match n with
           | O => EmptyString
           | S n' => String c (py_take n' rest)
           end
  end.

(** [s.upper()].  Python replaces every code point by its uppercase
    mapping, which can be up to three code points long and does not depend
    on the neighbouring characters.  [upper_ascii] is the mapping on ASCII.
    [upper_table] lists, by their UTF-8 encodings, the code points outside
    ASCII that the mapping changes, each with its image, as version 14.0 of
    the Unicode Character Database has them (the version CPython 3.11
    carries); a code point that is not listed is its own image. *)
Definition upper_ascii (c : ascii) : ascii :=
  let n := nat_of_ascii c in
  if ((97 <=? n) && (n <=? 122))%nat then ascii_of_nat (n - 32) else c.

Definition upper_table : list (string * string) :=
  [
    ("µ", "Μ"); ("ß", "SS"); ("à", "À"); ("á", "Á"); ("â", "Â"); ("ã", "Ã"); ("ä", "Ä"); ("å", "Å");
    ("æ", "Æ"); ("ç", "Ç"); ("è", "È"); ("é", "É"); ("ê", "Ê"); ("ë", "Ë"); ("ì", "Ì"); ("í", "Í");
    ("î", "Î"); ("ï", "Ï"); ("ð", "Ð"); ("ñ", "Ñ"); ("ò", "Ò"); ("ó", "Ó"); ("ô", "Ô"); ("õ", "Õ");
    ("ö", "Ö"); ("ø", "Ø"); ("ù", "Ù"); ("ú", "Ú"); ("û", "Û"); ("ü", "Ü"); ("ý", "Ý"); ("þ", "Þ");
    ("ÿ", "Ÿ"); ("ā", "Ā"); ("ă", "Ă"); ("ą", "Ą"); ("ć", "Ć"); ("ĉ", "Ĉ"); ("ċ", "Ċ"); ("č", "Č");
    ("ď", "Ď"); ("đ", "Đ"); ("ē", "Ē"); ("ĕ", "Ĕ"); ("ė", "Ė"); ("ę", "Ę"); ("ě", "Ě"); ("ĝ", "Ĝ");
    ("ğ", "Ğ"); ("ġ", "Ġ"); ("ģ", "Ģ"); ("ĥ", "Ĥ"); ("ħ", "Ħ"); ("ĩ", "Ĩ"); ("ī", "Ī"); ("ĭ", "Ĭ");
    ("į", "Į"); ("ı", "I"); ("ĳ", "Ĳ"); ("ĵ", "Ĵ"); ("ķ", "Ķ"); ("ĺ", "Ĺ"); ("ļ", "Ļ"); ("ľ", "Ľ");
    ("ŀ", "Ŀ"); ("ł", "Ł"); ("ń", "Ń"); ("ņ", "Ņ"); ("ň", "Ň"); ("ŉ", "ʼN"); ("ŋ", "Ŋ"); ("ō", "Ō");
    ("ŏ", "Ŏ"); ("ő", "Ő"); ("œ", "Œ"); ("ŕ", "Ŕ"); ("ŗ", "Ŗ"); ("ř", "Ř"); ("ś", "Ś"); ("ŝ", "Ŝ");
    ("ş", "Ş"); ("š", "Š"); ("ţ", "Ţ"); ("ť", "Ť"); ("ŧ", "Ŧ"); ("ũ", "Ũ"); ("ū", "Ū"); ("ŭ", "Ŭ");
    ("ů", "Ů"); ("ű", "Ű"); ("ų", "Ų"); ("ŵ", "Ŵ"); ("ŷ", "Ŷ"); ("ź", "Ź"); ("ż", "Ż"); ("ž", "Ž");
    ("ſ", "S"); ("ƀ", "Ƀ"); ("ƃ", "Ƃ"); ("ƅ", "Ƅ"); ("ƈ", "Ƈ"); ("ƌ", "Ƌ"); ("ƒ", "Ƒ"); ("ƕ", "Ƕ");
    ("ƙ", "Ƙ"); ("ƚ", "Ƚ"); ("ƞ", "Ƞ"); ("ơ", "Ơ"); ("ƣ", "Ƣ"); ("ƥ", "Ƥ"); ("ƨ", "Ƨ"); ("ƭ", "Ƭ");
    ("ư", "Ư"); ("ƴ", "Ƴ"); ("ƶ", "Ƶ"); ("ƹ", "Ƹ"); ("ƽ", "Ƽ"); ("ƿ", "Ƿ"); ("ǅ", "Ǆ"); ("ǆ", "Ǆ");
    ("ǈ", "Ǉ"); ("ǉ", "Ǉ"); ("ǋ", "Ǌ"); ("ǌ", "Ǌ"); ("ǎ", "Ǎ"); ("ǐ", "Ǐ"); ("ǒ", "Ǒ"); ("ǔ", "Ǔ");
    ("ǖ", "Ǖ"); ("ǘ", "Ǘ"); ("ǚ", "Ǚ"); ("ǜ", "Ǜ"); ("ǝ", "Ǝ"); ("ǟ", "Ǟ"); ("ǡ", "Ǡ"); ("ǣ", "Ǣ");
    ("ǥ", "Ǥ"); ("ǧ", "Ǧ"); ("ǩ", "Ǩ"); ("ǫ", "Ǫ"); ("ǭ", "Ǭ"); ("ǯ", "Ǯ"); ("ǰ", "J̌"); ("ǲ", "Ǳ");
    ("ǳ", "Ǳ"); ("ǵ", "Ǵ"); ("ǹ", "Ǹ"); ("ǻ", "Ǻ"); ("ǽ", "Ǽ"); ("ǿ", "Ǿ"); ("ȁ", "Ȁ"); ("ȃ", "Ȃ");
    ("ȅ", "Ȅ"); ("ȇ", "Ȇ"); ("ȉ", "Ȉ"); ("ȋ", "Ȋ"); ("ȍ", "Ȍ"); ("ȏ", "Ȏ"); ("ȑ", "Ȑ"); ("ȓ", "Ȓ");
    ("ȕ", "Ȕ"); ("ȗ", "Ȗ"); ("ș", "Ș"); ("ț", "Ț"); ("ȝ", "Ȝ"); ("ȟ", "Ȟ"); ("ȣ", "Ȣ"); ("ȥ", "Ȥ");
    ("ȧ", "Ȧ"); ("ȩ", "Ȩ"); ("ȫ", "Ȫ"); ("ȭ", "Ȭ"); ("ȯ", "Ȯ"); ("ȱ", "Ȱ"); ("ȳ", "Ȳ"); ("ȼ", "Ȼ");
    ("ȿ", "Ȿ"); ("ɀ", "Ɀ"); ("ɂ", "Ɂ"); ("ɇ", "Ɇ"); ("ɉ", "Ɉ"); ("ɋ", "Ɋ"); ("ɍ", "Ɍ"); ("ɏ", "Ɏ");
    ("ɐ", "Ɐ"); ("ɑ", "Ɑ"); ("ɒ", "Ɒ"); ("ɓ", "Ɓ"); ("ɔ", "Ɔ"); ("ɖ", "Ɖ"); ("ɗ", "Ɗ"); ("ə", "Ə");
    ("ɛ", "Ɛ"); ("ɜ", "Ɜ"); ("ɠ", "Ɠ"); ("ɡ", "Ɡ"); ("ɣ", "Ɣ"); ("ɥ", "Ɥ"); ("ɦ", "Ɦ"); ("ɨ", "Ɨ");
    ("ɩ", "Ɩ"); ("ɪ", "Ɪ"); ("ɫ", "Ɫ"); ("ɬ", "Ɬ"); ("ɯ", "Ɯ"); ("ɱ", "Ɱ"); ("ɲ", "Ɲ"); ("ɵ", "Ɵ");
    ("ɽ", "Ɽ"); ("ʀ", "Ʀ"); ("ʂ", "Ʂ"); ("ʃ", "Ʃ"); ("ʇ", "Ʇ"); ("ʈ", "Ʈ"); ("ʉ", "Ʉ"); ("ʊ", "Ʊ");
    ("ʋ", "Ʋ"); ("ʌ", "Ʌ"); ("ʒ", "Ʒ"); ("ʝ", "Ʝ"); ("ʞ", "Ʞ"); ("ͅ", "Ι"); ("ͱ", "Ͱ"); ("ͳ", "Ͳ");
    ("ͷ", "Ͷ"); ("ͻ", "Ͻ"); ("ͼ", "Ͼ"); ("ͽ", "Ͽ"); ("ΐ", "Ϊ́"); ("ά", "Ά"); ("έ", "Έ"); ("ή", "Ή");
    ("ί", "Ί"); ("ΰ", "Ϋ́"); ("α", "Α"); ("β", "Β"); ("γ", "Γ"); ("δ", "Δ"); ("ε", "Ε"); ("ζ", "Ζ");
    ("η", "Η"); ("θ", "Θ"); ("ι", "Ι"); ("κ", "Κ"); ("λ", "Λ"); ("μ", "Μ"); ("ν", "Ν"); ("ξ", "Ξ");
    ("ο", "Ο"); ("π", "Π"); ("ρ", "Ρ"); ("ς", "Σ"); ("σ", "Σ"); ("τ", "Τ"); ("υ", "Υ"); ("φ", "Φ");
    ("χ", "Χ"); ("ψ", "Ψ"); ("ω", "Ω"); ("ϊ", "Ϊ"); ("ϋ", "Ϋ"); ("ό", "Ό"); ("ύ", "Ύ"); ("ώ", "Ώ");
    ("ϐ", "Β"); ("ϑ", "Θ"); ("ϕ", "Φ"); ("ϖ", "Π"); ("ϗ", "Ϗ"); ("ϙ", "Ϙ"); ("ϛ", "Ϛ"); ("ϝ", "Ϝ");
    ("ϟ", "Ϟ"); ("ϡ", "Ϡ"); ("ϣ", "Ϣ"); ("ϥ", "Ϥ"); ("ϧ", "Ϧ"); ("ϩ", "Ϩ"); ("ϫ", "Ϫ"); ("ϭ", "Ϭ");
    ("ϯ", "Ϯ"); ("ϰ", "Κ"); ("ϱ", "Ρ"); ("ϲ", "Ϲ"); ("ϳ", "Ϳ"); ("ϵ", "Ε"); ("ϸ", "Ϸ"); ("ϻ", "Ϻ");
    ("а", "А"); ("б", "Б"); ("в", "В"); ("г", "Г"); ("д", "Д"); ("е", "Е"); ("ж", "Ж"); ("з", "З");
    ("и", "И"); ("й", "Й"); ("к", "К"); ("л", "Л"); ("м", "М"); ("н", "Н"); ("о", "О"); ("п", "П");
    ("р", "Р"); ("с", "С"); ("т", "Т"); ("у", "У"); ("ф", "Ф"); ("х", "Х"); ("ц", "Ц"); ("ч", "Ч");
    ("ш", "Ш"); ("щ", "Щ"); ("ъ", "Ъ"); ("ы", "Ы"); ("ь", "Ь"); ("э", "Э"); ("ю", "Ю"); ("я", "Я");
    ("ѐ", "Ѐ"); ("ё", "Ё"); ("ђ", "Ђ"); ("ѓ", "Ѓ"); ("є", "Є"); ("ѕ", "Ѕ"); ("і", "І"); ("ї", "Ї");
    ("ј", "Ј"); ("љ", "Љ"); ("њ", "Њ"); ("ћ", "Ћ"); ("ќ", "Ќ"); ("ѝ", "Ѝ"); ("ў", "Ў"); ("џ", "Џ");
    ("ѡ", "Ѡ"); ("ѣ", "Ѣ"); ("ѥ", "Ѥ"); ("ѧ", "Ѧ"); ("ѩ", "Ѩ"); ("ѫ", "Ѫ"); ("ѭ", "Ѭ"); ("ѯ", "Ѯ");
    ("ѱ", "Ѱ"); ("ѳ", "Ѳ"); ("ѵ", "Ѵ"); ("ѷ", "Ѷ"); ("ѹ", "Ѹ"); ("ѻ", "Ѻ"); ("ѽ", "Ѽ"); ("ѿ", "Ѿ");
    ("ҁ", "Ҁ"); ("ҋ", "Ҋ"); ("ҍ", "Ҍ"); ("ҏ", "Ҏ"); ("ґ", "Ґ"); ("ғ", "Ғ"); ("ҕ", "Ҕ"); ("җ", "Җ");
    ("ҙ", "Ҙ"); ("қ", "Қ"); ("ҝ", "Ҝ"); ("ҟ", "Ҟ"); ("ҡ", "Ҡ"); ("ң", "Ң"); ("ҥ", "Ҥ"); ("ҧ", "Ҧ");
    ("ҩ", "Ҩ"); ("ҫ", "Ҫ"); ("ҭ", "Ҭ"); ("ү", "Ү"); ("ұ", "Ұ"); ("ҳ", "Ҳ"); ("ҵ", "Ҵ"); ("ҷ", "Ҷ");
    ("ҹ", "Ҹ"); ("һ", "Һ"); ("ҽ", "Ҽ"); ("ҿ", "Ҿ"); ("ӂ", "Ӂ"); ("ӄ", "Ӄ"); ("ӆ", "Ӆ"); ("ӈ", "Ӈ");
    ("ӊ", "Ӊ"); ("ӌ", "Ӌ"); ("ӎ", "Ӎ"); ("ӏ", "Ӏ"); ("ӑ", "Ӑ"); ("ӓ", "Ӓ"); ("ӕ", "Ӕ"); ("ӗ", "Ӗ");
    ("ә", "Ә"); ("ӛ", "Ӛ"); ("ӝ", "Ӝ"); ("ӟ", "Ӟ"); ("ӡ", "Ӡ"); ("ӣ", "Ӣ"); ("ӥ", "Ӥ"); ("ӧ", "Ӧ");
    ("ө", "Ө"); ("ӫ", "Ӫ"); ("ӭ", "Ӭ"); ("ӯ", "Ӯ"); ("ӱ", "Ӱ"); ("ӳ", "Ӳ"); ("ӵ", "Ӵ"); ("ӷ", "Ӷ");
    ("ӹ", "Ӹ"); ("ӻ", "Ӻ"); ("ӽ", "Ӽ"); ("ӿ", "Ӿ"); ("ԁ", "Ԁ"); ("ԃ", "Ԃ"); ("ԅ", "Ԅ"); ("ԇ", "Ԇ");
    ("ԉ", "Ԉ"); ("ԋ", "Ԋ"); ("ԍ", "Ԍ"); ("ԏ", "Ԏ"); ("ԑ", "Ԑ"); ("ԓ", "Ԓ"); ("ԕ", "Ԕ"); ("ԗ", "Ԗ");
    ("ԙ", "Ԙ"); ("ԛ", "Ԛ"); ("ԝ", "Ԝ"); ("ԟ", "Ԟ"); ("ԡ", "Ԡ"); ("ԣ", "Ԣ"); ("ԥ", "Ԥ"); ("ԧ", "Ԧ");
    ("ԩ", "Ԩ"); ("ԫ", "Ԫ"); ("ԭ", "Ԭ"); ("ԯ", "Ԯ"); ("ա", "Ա"); ("բ", "Բ"); ("գ", "Գ"); ("դ", "Դ");
    ("ե", "Ե"); ("զ", "Զ"); ("է", "Է"); ("ը", "Ը"); ("թ", "Թ"); ("ժ", "Ժ"); ("ի", "Ի"); ("լ", "Լ");
    ("խ", "Խ"); ("ծ", "Ծ"); ("կ", "Կ"); ("հ", "Հ"); ("ձ", "Ձ"); ("ղ", "Ղ"); ("ճ", "Ճ"); ("մ", "Մ");
    ("յ", "Յ"); ("ն", "Ն"); ("շ", "Շ"); ("ո", "Ո"); ("չ", "Չ"); ("պ", "Պ"); ("ջ", "Ջ"); ("ռ", "Ռ");
    ("ս", "Ս"); ("վ", "Վ"); ("տ", "Տ"); ("ր", "Ր"); ("ց", "Ց"); ("ւ", "Ւ"); ("փ", "Փ"); ("ք", "Ք");
    ("օ", "Օ"); ("ֆ", "Ֆ"); ("և", "ԵՒ"); ("ა", "Ა"); ("ბ", "Ბ"); ("გ", "Გ"); ("დ", "Დ"); ("ე", "Ე");
    ("ვ", "Ვ"); ("ზ", "Ზ"); ("თ", "Თ"); ("ი", "Ი"); ("კ", "Კ"); ("ლ", "Ლ"); ("მ", "Მ"); ("ნ", "Ნ");
    ("ო", "Ო"); ("პ", "Პ"); ("ჟ", "Ჟ"); ("რ", "Რ"); ("ს", "Ს"); ("ტ", "Ტ"); ("უ", "Უ"); ("ფ", "Ფ");
    ("ქ", "Ქ"); ("ღ", "Ღ"); ("ყ", "Ყ"); ("შ", "Შ"); ("ჩ", "Ჩ"); ("ც", "Ც"); ("ძ", "Ძ"); ("წ", "Წ");
    ("ჭ", "Ჭ"); ("ხ", "Ხ"); ("ჯ", "Ჯ"); ("ჰ", "Ჰ"); ("ჱ", "Ჱ"); ("ჲ", "Ჲ"); ("ჳ", "Ჳ"); ("ჴ", "Ჴ");
    ("ჵ", "Ჵ"); ("ჶ", "Ჶ"); ("ჷ", "Ჷ"); ("ჸ", "Ჸ"); ("ჹ", "Ჹ"); ("ჺ", "Ჺ"); ("ჽ", "Ჽ"); ("ჾ", "Ჾ");
    ("ჿ", "Ჿ"); ("ᏸ", "Ᏸ"); ("ᏹ", "Ᏹ"); ("ᏺ", "Ᏺ"); ("ᏻ", "Ᏻ"); ("ᏼ", "Ᏼ"); ("ᏽ", "Ᏽ"); ("ᲀ", "В");
    ("ᲁ", "Д"); ("ᲂ", "О"); ("ᲃ", "С"); ("ᲄ", "Т"); ("ᲅ", "Т"); ("ᲆ", "Ъ"); ("ᲇ", "Ѣ"); ("ᲈ", "Ꙋ");
    ("ᵹ", "Ᵹ"); ("ᵽ", "Ᵽ"); ("ᶎ", "Ᶎ"); ("ḁ", "Ḁ"); ("ḃ", "Ḃ"); ("ḅ", "Ḅ"); ("ḇ", "Ḇ"); ("ḉ", "Ḉ");
    ("ḋ", "Ḋ"); ("ḍ", "Ḍ"); ("ḏ", "Ḏ"); ("ḑ", "Ḑ"); ("ḓ", "Ḓ"); ("ḕ", "Ḕ"); ("ḗ", "Ḗ"); ("ḙ", "Ḙ");
    ("ḛ", "Ḛ"); ("ḝ", "Ḝ"); ("ḟ", "Ḟ"); ("ḡ", "Ḡ"); ("ḣ", "Ḣ"); ("ḥ", "Ḥ"); ("ḧ", "Ḧ"); ("ḩ", "Ḩ");
    ("ḫ", "Ḫ"); ("ḭ", "Ḭ"); ("ḯ", "Ḯ"); ("ḱ", "Ḱ"); ("ḳ", "Ḳ"); ("ḵ", "Ḵ"); ("ḷ", "Ḷ"); ("ḹ", "Ḹ");
    ("ḻ", "Ḻ"); ("ḽ", "Ḽ"); ("ḿ", "Ḿ"); ("ṁ", "Ṁ"); ("ṃ", "Ṃ"); ("ṅ", "Ṅ"); ("ṇ", "Ṇ"); ("ṉ", "Ṉ");
    ("ṋ", "Ṋ"); ("ṍ", "Ṍ"); ("ṏ", "Ṏ"); ("ṑ", "Ṑ"); ("ṓ", "Ṓ"); ("ṕ", "Ṕ"); ("ṗ", "Ṗ"); ("ṙ", "Ṙ");
    ("ṛ", "Ṛ"); ("ṝ", "Ṝ"); ("ṟ", "Ṟ"); ("ṡ", "Ṡ"); ("ṣ", "Ṣ"); ("ṥ", "Ṥ"); ("ṧ", "Ṧ"); ("ṩ", "Ṩ");
    ("ṫ", "Ṫ"); ("ṭ", "Ṭ"); ("ṯ", "Ṯ"); ("ṱ", "Ṱ"); ("ṳ", "Ṳ"); ("ṵ", "Ṵ"); ("ṷ", "Ṷ"); ("ṹ", "Ṹ");
    ("ṻ", "Ṻ"); ("ṽ", "Ṽ"); ("ṿ", "Ṿ"); ("ẁ", "Ẁ"); ("ẃ", "Ẃ"); ("ẅ", "Ẅ"); ("ẇ", "Ẇ"); ("ẉ", "Ẉ");
    ("ẋ", "Ẋ"); ("ẍ", "Ẍ"); ("ẏ", "Ẏ"); ("ẑ", "Ẑ"); ("ẓ", "Ẓ"); ("ẕ", "Ẕ"); ("ẖ", "H̱"); ("ẗ", "T̈");
    ("ẘ", "W̊"); ("ẙ", "Y̊"); ("ẚ", "Aʾ"); ("ẛ", "Ṡ"); ("ạ", "Ạ"); ("ả", "Ả"); ("ấ", "Ấ"); ("ầ", "Ầ");
    ("ẩ", "Ẩ"); ("ẫ", "Ẫ"); ("ậ", "Ậ"); ("ắ", "Ắ"); ("ằ", "Ằ"); ("ẳ", "Ẳ"); ("ẵ", "Ẵ"); ("ặ", "Ặ");
    ("ẹ", "Ẹ"); ("ẻ", "Ẻ"); ("ẽ", "Ẽ"); ("ế", "Ế"); ("ề", "Ề"); ("ể", "Ể"); ("ễ", "Ễ"); ("ệ", "Ệ");
    ("ỉ", "Ỉ"); ("ị", "Ị"); ("ọ", "Ọ"); ("ỏ", "Ỏ"); ("ố", "Ố"); ("ồ", "Ồ"); ("ổ", "Ổ"); ("ỗ", "Ỗ");
    ("ộ", "Ộ"); ("ớ", "Ớ"); ("ờ", "Ờ"); ("ở", "Ở"); ("ỡ", "Ỡ"); ("ợ", "Ợ"); ("ụ", "Ụ"); ("ủ", "Ủ");
    ("ứ", "Ứ"); ("ừ", "Ừ"); ("ử", "Ử"); ("ữ", "Ữ"); ("ự", "Ự"); ("ỳ", "Ỳ"); ("ỵ", "Ỵ"); ("ỷ", "Ỷ");
    ("ỹ", "Ỹ"); ("ỻ", "Ỻ"); ("ỽ", "Ỽ"); ("ỿ", "Ỿ"); ("ἀ", "Ἀ"); ("ἁ", "Ἁ"); ("ἂ", "Ἂ"); ("ἃ", "Ἃ");
    ("ἄ", "Ἄ"); ("ἅ", "Ἅ"); ("ἆ", "Ἆ"); ("ἇ", "Ἇ"); ("ἐ", "Ἐ"); ("ἑ", "Ἑ"); ("ἒ", "Ἒ"); ("ἓ", "Ἓ");
    ("ἔ", "Ἔ"); ("ἕ", "Ἕ"); ("ἠ", "Ἠ"); ("ἡ", "Ἡ"); ("ἢ", "Ἢ"); ("ἣ", "Ἣ"); ("ἤ", "Ἤ"); ("ἥ", "Ἥ");
    ("ἦ", "Ἦ"); ("ἧ", "Ἧ"); ("ἰ", "Ἰ"); ("ἱ", "Ἱ"); ("ἲ", "Ἲ"); ("ἳ", "Ἳ"); ("ἴ", "Ἴ"); ("ἵ", "Ἵ");
    ("ἶ", "Ἶ"); ("ἷ", "Ἷ"); ("ὀ", "Ὀ"); ("ὁ", "Ὁ"); ("ὂ", "Ὂ"); ("ὃ", "Ὃ"); ("ὄ", "Ὄ"); ("ὅ", "Ὅ");
    ("ὐ", "Υ̓"); ("ὑ", "Ὑ"); ("ὒ", "Υ̓̀"); ("ὓ", "Ὓ"); ("ὔ", "Υ̓́"); ("ὕ", "Ὕ"); ("ὖ", "Υ̓͂"); ("ὗ", "Ὗ");
    ("ὠ", "Ὠ"); ("ὡ", "Ὡ"); ("ὢ", "Ὢ"); ("ὣ", "Ὣ"); ("ὤ", "Ὤ"); ("ὥ", "Ὥ"); ("ὦ", "Ὦ"); ("ὧ", "Ὧ");
    ("ὰ", "Ὰ"); ("ά", "Ά"); ("ὲ", "Ὲ"); ("έ", "Έ"); ("ὴ", "Ὴ"); ("ή", "Ή"); ("ὶ", "Ὶ"); ("ί", "Ί");
    ("ὸ", "Ὸ"); ("ό", "Ό"); ("ὺ", "Ὺ"); ("ύ", "Ύ"); ("ὼ", "Ὼ"); ("ώ", "Ώ"); ("ᾀ", "ἈΙ"); ("ᾁ", "ἉΙ");
    ("ᾂ", "ἊΙ"); ("ᾃ", "ἋΙ"); ("ᾄ", "ἌΙ"); ("ᾅ", "ἍΙ"); ("ᾆ", "ἎΙ"); ("ᾇ", "ἏΙ"); ("ᾈ", "ἈΙ"); ("ᾉ", "ἉΙ");
    ("ᾊ", "ἊΙ"); ("ᾋ", "ἋΙ"); ("ᾌ", "ἌΙ"); ("ᾍ", "ἍΙ"); ("ᾎ", "ἎΙ"); ("ᾏ", "ἏΙ"); ("ᾐ", "ἨΙ"); ("ᾑ", "ἩΙ");
    ("ᾒ", "ἪΙ"); ("ᾓ", "ἫΙ"); ("ᾔ", "ἬΙ"); ("ᾕ", "ἭΙ"); ("ᾖ", "ἮΙ"); ("ᾗ", "ἯΙ"); ("ᾘ", "ἨΙ"); ("ᾙ", "ἩΙ");
    ("ᾚ", "ἪΙ"); ("ᾛ", "ἫΙ"); ("ᾜ", "ἬΙ"); ("ᾝ", "ἭΙ"); ("ᾞ", "ἮΙ"); ("ᾟ", "ἯΙ"); ("ᾠ", "ὨΙ"); ("ᾡ", "ὩΙ");
    ("ᾢ", "ὪΙ"); ("ᾣ", "ὫΙ"); ("ᾤ", "ὬΙ"); ("ᾥ", "ὭΙ"); ("ᾦ", "ὮΙ"); ("ᾧ", "ὯΙ"); ("ᾨ", "ὨΙ"); ("ᾩ", "ὩΙ");
    ("ᾪ", "ὪΙ"); ("ᾫ", "ὫΙ"); ("ᾬ", "ὬΙ"); ("ᾭ", "ὭΙ"); ("ᾮ", "ὮΙ"); ("ᾯ", "ὯΙ"); ("ᾰ", "Ᾰ"); ("ᾱ", "Ᾱ");
    ("ᾲ", "ᾺΙ"); ("ᾳ", "ΑΙ"); ("ᾴ", "ΆΙ"); ("ᾶ", "Α͂"); ("ᾷ", "Α͂Ι"); ("ᾼ", "ΑΙ"); ("ι", "Ι"); ("ῂ", "ῊΙ");
    ("ῃ", "ΗΙ"); ("ῄ", "ΉΙ"); ("ῆ", "Η͂"); ("ῇ", "Η͂Ι"); ("ῌ", "ΗΙ"); ("ῐ", "Ῐ"); ("ῑ", "Ῑ"); ("ῒ", "Ϊ̀");
    ("ΐ", "Ϊ́"); ("ῖ", "Ι͂"); ("ῗ", "Ϊ͂"); ("ῠ", "Ῠ"); ("ῡ", "Ῡ"); ("ῢ", "Ϋ̀"); ("ΰ", "Ϋ́"); ("ῤ", "Ρ̓");
    ("ῥ", "Ῥ"); ("ῦ", "Υ͂"); ("ῧ", "Ϋ͂"); ("ῲ", "ῺΙ"); ("ῳ", "ΩΙ"); ("ῴ", "ΏΙ"); ("ῶ", "Ω͂"); ("ῷ", "Ω͂Ι");
    ("ῼ", "ΩΙ"); ("ⅎ", "Ⅎ"); ("ⅰ", "Ⅰ"); ("ⅱ", "Ⅱ"); ("ⅲ", "Ⅲ"); ("ⅳ", "Ⅳ"); ("ⅴ", "Ⅴ"); ("ⅵ", "Ⅵ");
    ("ⅶ", "Ⅶ"); ("ⅷ", "Ⅷ"); ("ⅸ", "Ⅸ"); ("ⅹ", "Ⅹ"); ("ⅺ", "Ⅺ"); ("ⅻ", "Ⅻ"); ("ⅼ", "Ⅼ"); ("ⅽ", "Ⅽ");
    ("ⅾ", "Ⅾ"); ("ⅿ", "Ⅿ"); ("ↄ", "Ↄ"); ("ⓐ", "Ⓐ"); ("ⓑ", "Ⓑ"); ("ⓒ", "Ⓒ"); ("ⓓ", "Ⓓ"); ("ⓔ", "Ⓔ");
    ("ⓕ", "Ⓕ"); ("ⓖ", "Ⓖ"); ("ⓗ", "Ⓗ"); ("ⓘ", "Ⓘ"); ("ⓙ", "Ⓙ"); ("ⓚ", "Ⓚ"); ("ⓛ", "Ⓛ"); ("ⓜ", "Ⓜ");
    ("ⓝ", "Ⓝ"); ("ⓞ", "Ⓞ"); ("ⓟ", "Ⓟ"); ("ⓠ", "Ⓠ"); ("ⓡ", "Ⓡ"); ("ⓢ", "Ⓢ"); ("ⓣ", "Ⓣ"); ("ⓤ", "Ⓤ");
    ("ⓥ", "Ⓥ"); ("ⓦ", "Ⓦ"); ("ⓧ", "Ⓧ"); ("ⓨ", "Ⓨ"); ("ⓩ", "Ⓩ"); ("ⰰ", "Ⰰ"); ("ⰱ", "Ⰱ"); ("ⰲ", "Ⰲ");
    ("ⰳ", "Ⰳ"); ("ⰴ", "Ⰴ"); ("ⰵ", "Ⰵ"); ("ⰶ", "Ⰶ"); ("ⰷ", "Ⰷ"); ("ⰸ", "Ⰸ"); ("ⰹ", "Ⰹ"); ("ⰺ", "Ⰺ");
    ("ⰻ", "Ⰻ"); ("ⰼ", "Ⰼ"); ("ⰽ", "Ⰽ"); ("ⰾ", "Ⰾ"); ("ⰿ", "Ⰿ"); ("ⱀ", "Ⱀ"); ("ⱁ", "Ⱁ"); ("ⱂ", "Ⱂ");
    ("ⱃ", "Ⱃ"); ("ⱄ", "Ⱄ"); ("ⱅ", "Ⱅ"); ("ⱆ", "Ⱆ"); ("ⱇ", "Ⱇ"); ("ⱈ", "Ⱈ"); ("ⱉ", "Ⱉ"); ("ⱊ", "Ⱊ");
    ("ⱋ", "Ⱋ"); ("ⱌ", "Ⱌ"); ("ⱍ", "Ⱍ"); ("ⱎ", "Ⱎ"); ("ⱏ", "Ⱏ"); ("ⱐ", "Ⱐ"); ("ⱑ", "Ⱑ"); ("ⱒ", "Ⱒ");
    ("ⱓ", "Ⱓ"); ("ⱔ", "Ⱔ"); ("ⱕ", "Ⱕ"); ("ⱖ", "Ⱖ"); ("ⱗ", "Ⱗ"); ("ⱘ", "Ⱘ"); ("ⱙ", "Ⱙ"); ("ⱚ", "Ⱚ");
    ("ⱛ", "Ⱛ"); ("ⱜ", "Ⱜ"); ("ⱝ", "Ⱝ"); ("ⱞ", "Ⱞ"); ("ⱟ", "Ⱟ"); ("ⱡ", "Ⱡ"); ("ⱥ", "Ⱥ"); ("ⱦ", "Ⱦ");
    ("ⱨ", "Ⱨ"); ("ⱪ", "Ⱪ"); ("ⱬ", "Ⱬ"); ("ⱳ", "Ⱳ"); ("ⱶ", "Ⱶ"); ("ⲁ", "Ⲁ"); ("ⲃ", "Ⲃ"); ("ⲅ", "Ⲅ");
    ("ⲇ", "Ⲇ"); ("ⲉ", "Ⲉ"); ("ⲋ", "Ⲋ"); ("ⲍ", "Ⲍ"); ("ⲏ", "Ⲏ"); ("ⲑ", "Ⲑ"); ("ⲓ", "Ⲓ"); ("ⲕ", "Ⲕ");
    ("ⲗ", "Ⲗ"); ("ⲙ", "Ⲙ"); ("ⲛ", "Ⲛ"); ("ⲝ", "Ⲝ"); ("ⲟ", "Ⲟ"); ("ⲡ", "Ⲡ"); ("ⲣ", "Ⲣ"); ("ⲥ", "Ⲥ");
    ("ⲧ", "Ⲧ"); ("ⲩ", "Ⲩ"); ("ⲫ", "Ⲫ"); ("ⲭ", "Ⲭ"); ("ⲯ", "Ⲯ"); ("ⲱ", "Ⲱ"); ("ⲳ", "Ⲳ"); ("ⲵ", "Ⲵ");
    ("ⲷ", "Ⲷ"); ("ⲹ", "Ⲹ"); ("ⲻ", "Ⲻ"); ("ⲽ", "Ⲽ"); ("ⲿ", "Ⲿ"); ("ⳁ", "Ⳁ"); ("ⳃ", "Ⳃ"); ("ⳅ", "Ⳅ");
    ("ⳇ", "Ⳇ"); ("ⳉ", "Ⳉ"); ("ⳋ", "Ⳋ"); ("ⳍ", "Ⳍ"); ("ⳏ", "Ⳏ"); ("ⳑ", "Ⳑ"); ("ⳓ", "Ⳓ"); ("ⳕ", "Ⳕ");
    ("ⳗ", "Ⳗ"); ("ⳙ", "Ⳙ"); ("ⳛ", "Ⳛ"); ("ⳝ", "Ⳝ"); ("ⳟ", "Ⳟ"); ("ⳡ", "Ⳡ"); ("ⳣ", "Ⳣ"); ("ⳬ", "Ⳬ");
    ("ⳮ", "Ⳮ"); ("ⳳ", "Ⳳ"); ("ⴀ", "Ⴀ"); ("ⴁ", "Ⴁ"); ("ⴂ", "Ⴂ"); ("ⴃ", "Ⴃ"); ("ⴄ", "Ⴄ"); ("ⴅ", "Ⴅ");
    ("ⴆ", "Ⴆ"); ("ⴇ", "Ⴇ"); ("ⴈ", "Ⴈ"); ("ⴉ", "Ⴉ"); ("ⴊ", "Ⴊ"); ("ⴋ", "Ⴋ"); ("ⴌ", "Ⴌ"); ("ⴍ", "Ⴍ");
    ("ⴎ", "Ⴎ"); ("ⴏ", "Ⴏ"); ("ⴐ", "Ⴐ"); ("ⴑ", "Ⴑ"); ("ⴒ", "Ⴒ"); ("ⴓ", "Ⴓ"); ("ⴔ", "Ⴔ"); ("ⴕ", "Ⴕ");
    ("ⴖ", "Ⴖ"); ("ⴗ", "Ⴗ"); ("ⴘ", "Ⴘ"); ("ⴙ", "Ⴙ"); ("ⴚ", "Ⴚ"); ("ⴛ", "Ⴛ"); ("ⴜ", "Ⴜ"); ("ⴝ", "Ⴝ");
    ("ⴞ", "Ⴞ"); ("ⴟ", "Ⴟ"); ("ⴠ", "Ⴠ"); ("ⴡ", "Ⴡ"); ("ⴢ", "Ⴢ"); ("ⴣ", "Ⴣ"); ("ⴤ", "Ⴤ"); ("ⴥ", "Ⴥ");
    ("ⴧ", "Ⴧ"); ("ⴭ", "Ⴭ"); ("ꙁ", "Ꙁ"); ("ꙃ", "Ꙃ"); ("ꙅ", "Ꙅ"); ("ꙇ", "Ꙇ"); ("ꙉ", "Ꙉ"); ("ꙋ", "Ꙋ");
    ("ꙍ", "Ꙍ"); ("ꙏ", "Ꙏ"); ("ꙑ", "Ꙑ"); ("ꙓ", "Ꙓ"); ("ꙕ", "Ꙕ"); ("ꙗ", "Ꙗ"); ("ꙙ", "Ꙙ"); ("ꙛ", "Ꙛ");
    ("ꙝ", "Ꙝ"); ("ꙟ", "Ꙟ"); ("ꙡ", "Ꙡ"); ("ꙣ", "Ꙣ"); ("ꙥ", "Ꙥ"); ("ꙧ", "Ꙧ"); ("ꙩ", "Ꙩ"); ("ꙫ", "Ꙫ");
    ("ꙭ", "Ꙭ"); ("ꚁ", "Ꚁ"); ("ꚃ", "Ꚃ"); ("ꚅ", "Ꚅ"); ("ꚇ", "Ꚇ"); ("ꚉ", "Ꚉ"); ("ꚋ", "Ꚋ"); ("ꚍ", "Ꚍ");
    ("ꚏ", "Ꚏ"); ("ꚑ", "Ꚑ"); ("ꚓ", "Ꚓ"); ("ꚕ", "Ꚕ"); ("ꚗ", "Ꚗ"); ("ꚙ", "Ꚙ"); ("ꚛ", "Ꚛ"); ("ꜣ", "Ꜣ");
    ("ꜥ", "Ꜥ"); ("ꜧ", "Ꜧ"); ("ꜩ", "Ꜩ"); ("ꜫ", "Ꜫ"); ("ꜭ", "Ꜭ"); ("ꜯ", "Ꜯ"); ("ꜳ", "Ꜳ"); ("ꜵ", "Ꜵ");
    ("ꜷ", "Ꜷ"); ("ꜹ", "Ꜹ"); ("ꜻ", "Ꜻ"); ("ꜽ", "Ꜽ"); ("ꜿ", "Ꜿ"); ("ꝁ", "Ꝁ"); ("ꝃ", "Ꝃ"); ("ꝅ", "Ꝅ");
    ("ꝇ", "Ꝇ"); ("ꝉ", "Ꝉ"); ("ꝋ", "Ꝋ"); ("ꝍ", "Ꝍ"); ("ꝏ", "Ꝏ"); ("ꝑ", "Ꝑ"); ("ꝓ", "Ꝓ"); ("ꝕ", "Ꝕ");
    ("ꝗ", "Ꝗ"); ("ꝙ", "Ꝙ"); ("ꝛ", "Ꝛ"); ("ꝝ", "Ꝝ"); ("ꝟ", "Ꝟ"); ("ꝡ", "Ꝡ"); ("ꝣ", "Ꝣ"); ("ꝥ", "Ꝥ");
    ("ꝧ", "Ꝧ"); ("ꝩ", "Ꝩ"); ("ꝫ", "Ꝫ"); ("ꝭ", "Ꝭ"); ("ꝯ", "Ꝯ"); ("ꝺ", "Ꝺ"); ("ꝼ", "Ꝼ"); ("ꝿ", "Ꝿ");
    ("ꞁ", "Ꞁ"); ("ꞃ", "Ꞃ"); ("ꞅ", "Ꞅ"); ("ꞇ", "Ꞇ"); ("ꞌ", "Ꞌ"); ("ꞑ", "Ꞑ"); ("ꞓ", "Ꞓ"); ("ꞔ", "Ꞔ");
    ("ꞗ", "Ꞗ"); ("ꞙ", "Ꞙ"); ("ꞛ", "Ꞛ"); ("ꞝ", "Ꞝ"); ("ꞟ", "Ꞟ"); ("ꞡ", "Ꞡ"); ("ꞣ", "Ꞣ"); ("ꞥ", "Ꞥ");
    ("ꞧ", "Ꞧ"); ("ꞩ", "Ꞩ"); ("ꞵ", "Ꞵ"); ("ꞷ", "Ꞷ"); ("ꞹ", "Ꞹ"); ("ꞻ", "Ꞻ"); ("ꞽ", "Ꞽ"); ("ꞿ", "Ꞿ");
    ("ꟁ", "Ꟁ"); ("ꟃ", "Ꟃ"); ("ꟈ", "Ꟈ"); ("ꟊ", "Ꟊ"); ("ꟑ", "Ꟑ"); ("ꟗ", "Ꟗ"); ("ꟙ", "Ꟙ"); ("ꟶ", "Ꟶ");
    ("ꭓ", "Ꭓ"); ("ꭰ", "Ꭰ"); ("ꭱ", "Ꭱ"); ("ꭲ", "Ꭲ"); ("ꭳ", "Ꭳ"); ("ꭴ", "Ꭴ"); ("ꭵ", "Ꭵ"); ("ꭶ", "Ꭶ");
    ("ꭷ", "Ꭷ"); ("ꭸ", "Ꭸ"); ("ꭹ", "Ꭹ"); ("ꭺ", "Ꭺ"); ("ꭻ", "Ꭻ"); ("ꭼ", "Ꭼ"); ("ꭽ", "Ꭽ"); ("ꭾ", "Ꭾ");
    ("ꭿ", "Ꭿ"); ("ꮀ", "Ꮀ"); ("ꮁ", "Ꮁ"); ("ꮂ", "Ꮂ"); ("ꮃ", "Ꮃ"); ("ꮄ", "Ꮄ"); ("ꮅ", "Ꮅ"); ("ꮆ", "Ꮆ");
    ("ꮇ", "Ꮇ"); ("ꮈ", "Ꮈ"); ("ꮉ", "Ꮉ"); ("ꮊ", "Ꮊ"); ("ꮋ", "Ꮋ"); ("ꮌ", "Ꮌ"); ("ꮍ", "Ꮍ"); ("ꮎ", "Ꮎ");
    ("ꮏ", "Ꮏ"); ("ꮐ", "Ꮐ"); ("ꮑ", "Ꮑ"); ("ꮒ", "Ꮒ"); ("ꮓ", "Ꮓ"); ("ꮔ", "Ꮔ"); ("ꮕ", "Ꮕ"); ("ꮖ", "Ꮖ");
    ("ꮗ", "Ꮗ"); ("ꮘ", "Ꮘ"); ("ꮙ", "Ꮙ"); ("ꮚ", "Ꮚ"); ("ꮛ", "Ꮛ"); ("ꮜ", "Ꮜ"); ("ꮝ", "Ꮝ"); ("ꮞ", "Ꮞ");
    ("ꮟ", "Ꮟ"); ("ꮠ", "Ꮠ"); ("ꮡ", "Ꮡ"); ("ꮢ", "Ꮢ"); ("ꮣ", "Ꮣ"); ("ꮤ", "Ꮤ"); ("ꮥ", "Ꮥ"); ("ꮦ", "Ꮦ");
    ("ꮧ", "Ꮧ"); ("ꮨ", "Ꮨ"); ("ꮩ", "Ꮩ"); ("ꮪ", "Ꮪ"); ("ꮫ", "Ꮫ"); ("ꮬ", "Ꮬ"); ("ꮭ", "Ꮭ"); ("ꮮ", "Ꮮ");
    ("ꮯ", "Ꮯ"); ("ꮰ", "Ꮰ"); ("ꮱ", "Ꮱ"); ("ꮲ", "Ꮲ"); ("ꮳ", "Ꮳ"); ("ꮴ", "Ꮴ"); ("ꮵ", "Ꮵ"); ("ꮶ", "Ꮶ");
    ("ꮷ", "Ꮷ"); ("ꮸ", "Ꮸ"); ("ꮹ", "Ꮹ"); ("ꮺ", "Ꮺ"); ("ꮻ", "Ꮻ"); ("ꮼ", "Ꮼ"); ("ꮽ", "Ꮽ"); ("ꮾ", "Ꮾ");
    ("ꮿ", "Ꮿ"); ("ﬀ", "FF"); ("ﬁ", "FI"); ("ﬂ", "FL"); ("ﬃ", "FFI"); ("ﬄ", "FFL"); ("ﬅ", "ST"); ("ﬆ", "ST");
    ("ﬓ", "ՄՆ"); ("ﬔ", "ՄԵ"); ("ﬕ", "ՄԻ"); ("ﬖ", "ՎՆ"); ("ﬗ", "ՄԽ"); ("ａ", "Ａ"); ("ｂ", "Ｂ"); ("ｃ", "Ｃ");
    ("ｄ", "Ｄ"); ("ｅ", "Ｅ"); ("ｆ", "Ｆ"); ("ｇ", "Ｇ"); ("ｈ", "Ｈ"); ("ｉ", "Ｉ"); ("ｊ", "Ｊ"); ("ｋ", "Ｋ");
    ("ｌ", "Ｌ"); ("ｍ", "Ｍ"); ("ｎ", "Ｎ"); ("ｏ", "Ｏ"); ("ｐ", "Ｐ"); ("ｑ", "Ｑ"); ("ｒ", "Ｒ"); ("ｓ", "Ｓ");
    ("ｔ", "Ｔ"); ("ｕ", "Ｕ"); ("ｖ", "Ｖ"); ("ｗ", "Ｗ"); ("ｘ", "Ｘ"); ("ｙ", "Ｙ"); ("ｚ", "Ｚ"); ("𐐨", "𐐀");
    ("𐐩", "𐐁"); ("𐐪", "𐐂"); ("𐐫", "𐐃"); ("𐐬", "𐐄"); ("𐐭", "𐐅"); ("𐐮", "𐐆"); ("𐐯", "𐐇"); ("𐐰", "𐐈");
    ("𐐱", "𐐉"); ("𐐲", "𐐊"); ("𐐳", "𐐋"); ("𐐴", "𐐌"); ("𐐵", "𐐍"); ("𐐶", "𐐎"); ("𐐷", "𐐏"); ("𐐸", "𐐐");
    ("𐐹", "𐐑"); ("𐐺", "𐐒"); ("𐐻", "𐐓"); ("𐐼", "𐐔"); ("𐐽", "𐐕"); ("𐐾", "𐐖"); ("𐐿", "𐐗"); ("𐑀", "𐐘");
    ("𐑁", "𐐙"); ("𐑂", "𐐚"); ("𐑃", "𐐛"); ("𐑄", "𐐜"); ("𐑅", "𐐝"); ("𐑆", "𐐞"); ("𐑇", "𐐟"); ("𐑈", "𐐠");
    ("𐑉", "𐐡"); ("𐑊", "𐐢"); ("𐑋", "𐐣"); ("𐑌", "𐐤"); ("𐑍", "𐐥"); ("𐑎", "𐐦"); ("𐑏", "𐐧"); ("𐓘", "𐒰");
    ("𐓙", "𐒱"); ("𐓚", "𐒲"); ("𐓛", "𐒳"); ("𐓜", "𐒴"); ("𐓝", "𐒵"); ("𐓞", "𐒶"); ("𐓟", "𐒷"); ("𐓠", "𐒸");
    ("𐓡", "𐒹"); ("𐓢", "𐒺"); ("𐓣", "𐒻"); ("𐓤", "𐒼"); ("𐓥", "𐒽"); ("𐓦", "𐒾"); ("𐓧", "𐒿"); ("𐓨", "𐓀");
    ("𐓩", "𐓁"); ("𐓪", "𐓂"); ("𐓫", "𐓃"); ("𐓬", "𐓄"); ("𐓭", "𐓅"); ("𐓮", "𐓆"); ("𐓯", "𐓇"); ("𐓰", "𐓈");
    ("𐓱", "𐓉"); ("𐓲", "𐓊"); ("𐓳", "𐓋"); ("𐓴", "𐓌"); ("𐓵", "𐓍"); ("𐓶", "𐓎"); ("𐓷", "𐓏"); ("𐓸", "𐓐");
    ("𐓹", "𐓑"); ("𐓺", "𐓒"); ("𐓻", "𐓓"); ("𐖗", "𐕰"); ("𐖘", "𐕱"); ("𐖙", "𐕲"); ("𐖚", "𐕳"); ("𐖛", "𐕴");
    ("𐖜", "𐕵"); ("𐖝", "𐕶"); ("𐖞", "𐕷"); ("𐖟", "𐕸"); ("𐖠", "𐕹"); ("𐖡", "𐕺"); ("𐖣", "𐕼"); ("𐖤", "𐕽");
    ("𐖥", "𐕾"); ("𐖦", "𐕿"); ("𐖧", "𐖀"); ("𐖨", "𐖁"); ("𐖩", "𐖂"); ("𐖪", "𐖃"); ("𐖫", "𐖄"); ("𐖬", "𐖅");
    ("𐖭", "𐖆"); ("𐖮", "𐖇"); ("𐖯", "𐖈"); ("𐖰", "𐖉"); ("𐖱", "𐖊"); ("𐖳", "𐖌"); ("𐖴", "𐖍"); ("𐖵", "𐖎");
    ("𐖶", "𐖏"); ("𐖷", "𐖐"); ("𐖸", "𐖑"); ("𐖹", "𐖒"); ("𐖻", "𐖔"); ("𐖼", "𐖕"); ("𐳀", "𐲀"); ("𐳁", "𐲁");
    ("𐳂", "𐲂"); ("𐳃", "𐲃"); ("𐳄", "𐲄"); ("𐳅", "𐲅"); ("𐳆", "𐲆"); ("𐳇", "𐲇"); ("𐳈", "𐲈"); ("𐳉", "𐲉");
    ("𐳊", "𐲊"); ("𐳋", "𐲋"); ("𐳌", "𐲌"); ("𐳍", "𐲍"); ("𐳎", "𐲎"); ("𐳏", "𐲏"); ("𐳐", "𐲐"); ("𐳑", "𐲑");
    ("𐳒", "𐲒"); ("𐳓", "𐲓"); ("𐳔", "𐲔"); ("𐳕", "𐲕"); ("𐳖", "𐲖"); ("𐳗", "𐲗"); ("𐳘", "𐲘"); ("𐳙", "𐲙");
    ("𐳚", "𐲚"); ("𐳛", "𐲛"); ("𐳜", "𐲜"); ("𐳝", "𐲝"); ("𐳞", "𐲞"); ("𐳟", "𐲟"); ("𐳠", "𐲠"); ("𐳡", "𐲡");
    ("𐳢", "𐲢"); ("𐳣", "𐲣"); ("𐳤", "𐲤"); ("𐳥", "𐲥"); ("𐳦", "𐲦"); ("𐳧", "𐲧"); ("𐳨", "𐲨"); ("𐳩", "𐲩");
    ("𐳪", "𐲪"); ("𐳫", "𐲫"); ("𐳬", "𐲬"); ("𐳭", "𐲭"); ("𐳮", "𐲮"); ("𐳯", "𐲯"); ("𐳰", "𐲰"); ("𐳱", "𐲱");
    ("𐳲", "𐲲"); ("𑣀", "𑢠"); ("𑣁", "𑢡"); ("𑣂", "𑢢"); ("𑣃", "𑢣"); ("𑣄", "𑢤"); ("𑣅", "𑢥"); ("𑣆", "𑢦");
    ("𑣇", "𑢧"); ("𑣈", "𑢨"); ("𑣉", "𑢩"); ("𑣊", "𑢪"); ("𑣋", "𑢫"); ("𑣌", "𑢬"); ("𑣍", "𑢭"); ("𑣎", "𑢮");
    ("𑣏", "𑢯"); ("𑣐", "𑢰"); ("𑣑", "𑢱"); ("𑣒", "𑢲"); ("𑣓", "𑢳"); ("𑣔", "𑢴"); ("𑣕", "𑢵"); ("𑣖", "𑢶");
    ("𑣗", "𑢷"); ("𑣘", "𑢸"); ("𑣙", "𑢹"); ("𑣚", "𑢺"); ("𑣛", "𑢻"); ("𑣜", "𑢼"); ("𑣝", "𑢽"); ("𑣞", "𑢾");
    ("𑣟", "𑢿"); ("𖹠", "𖹀"); ("𖹡", "𖹁"); ("𖹢", "𖹂"); ("𖹣", "𖹃"); ("𖹤", "𖹄"); ("𖹥", "𖹅"); ("𖹦", "𖹆");
    ("𖹧", "𖹇"); ("𖹨", "𖹈"); ("𖹩", "𖹉"); ("𖹪", "𖹊"); ("𖹫", "𖹋"); ("𖹬", "𖹌"); ("𖹭", "𖹍"); ("𖹮", "𖹎");
    ("𖹯", "𖹏"); ("𖹰", "𖹐"); ("𖹱", "𖹑"); ("𖹲", "𖹒"); ("𖹳", "𖹓"); ("𖹴", "𖹔"); ("𖹵", "𖹕"); ("𖹶", "𖹖");
    ("𖹷", "𖹗"); ("𖹸", "𖹘"); ("𖹹", "𖹙"); ("𖹺", "𖹚"); ("𖹻", "𖹛"); ("𖹼", "𖹜"); ("𖹽", "𖹝"); ("𖹾", "𖹞");
    ("𖹿", "𖹟"); ("𞤢", "𞤀"); ("𞤣", "𞤁"); ("𞤤", "𞤂"); ("𞤥", "𞤃"); ("𞤦", "𞤄"); ("𞤧", "𞤅"); ("𞤨", "𞤆");
    ("𞤩", "𞤇"); ("𞤪", "𞤈"); ("𞤫", "𞤉"); ("𞤬", "𞤊"); ("𞤭", "𞤋"); ("𞤮", "𞤌"); ("𞤯", "𞤍"); ("𞤰", "𞤎");
    ("𞤱", "𞤏"); ("𞤲", "𞤐"); ("𞤳", "𞤑"); ("𞤴", "𞤒"); ("𞤵", "𞤓"); ("𞤶", "𞤔"); ("𞤷", "𞤕"); ("𞤸", "𞤖");
    ("𞤹", "𞤗"); ("𞤺", "𞤘"); ("𞤻", "𞤙"); ("𞤼", "𞤚"); ("𞤽", "𞤛"); ("𞤾", "𞤜"); ("𞤿", "𞤝"); ("𞥀", "𞤞");
    ("𞥁", "𞤟"); ("𞥂", "𞤠"); ("𞥃", "𞤡")
  ].

(** The image of one code point, given by its encoding: a single byte is an
    ASCII character, a longer encoding is looked up in the table. *)
Definition upper_point (point : string) : string :=
  match point with
  | EmptyString => EmptyString
  | String c EmptyString => String (upper_ascii c) EmptyString
  | _ =>
      match find (fun entry => String.eqb (fst entry) point) upper_table with
      | Some entry => snd entry
      | None => point
      end
  end.

(** [point] holds the bytes read so far of the code point being read. *)
Fixpoint upper_from (point s : string) : string :=
  match s with
  | EmptyString => upper_point point
  | String c rest =>
      if is_continuation c then upper_from (point ++ String c EmptyString) rest
      else upper_point point ++ upper_from (String c EmptyString) rest
  end.

Definition upper (s : string) : string := upper_from EmptyString s.

(** [s.replace('_', ' ')]. *)
Fixpoint replace_underscore (s : string) : string :=
  match s with
  | EmptyString => EmptyString
  | String c rest =>
      String (if Ascii.eqb c "_"%char then " "%char else c)
             (replace_underscore rest)
  end.

(** ** Insertion-ordered dictionaries with text keys *)

Definition dict (V : Type) : Type := list (string * V).

Fixpoint dict_get {V : Type} (k : string) (d : dict V) : option V :=
  match d with
  | [] => None
  | (k', v) :: d' => if String.eqb k k' then Some v else dict_get k d'
  end.

(** [d[k] = v]: an existing key keeps its position, a new key goes last. *)
Fixpoint dict_set {V : Type} (k : string) (v : V) (d : dict V) : dict V :=
  match d with
  | [] => [(k, v)]
  | (k', v') :: d' =>
      if String.eqb k k' then (k, v) :: d' else (k', v') :: dict_set k v d'
  end.

(** [d.get(k, default)]. *)
Definition get_or {V : Type} (d : dict V) (k : string) (default : V) : V :=
  match dict_get k d with
  | Some v => v
  | None => default
  end.

Definition keys {V : Type} (d : dict V) : list string := map fst d.

Definition or_default {A : Type} (v : option A) (default : A) : A :=
  match v with
  | Some a => a
  | None => default
  end.

(** ** Completions *)

Inductive completion (A : Type) : Type :=
| Returned (a : A)
| Raised (e : string).

Arguments Returned {A} a.
Arguments Raised {A} e.

(** [v[:n]] where [v] is [None] or a text: slicing [None] is a TypeError. *)
Definition slice_opt (n : nat) (v : option string) : completion string :=
  match v with
  | Some s => Returned (py_take n s)
  | None => Raised "'NoneType' object is not subscriptable"
  end.

(** ** Project state (server.py:47-56) *)

Record ProjectState : Type := mkState {
  current_project : option string;
  requirements : option string;
  architecture : option string;
  tech_stack : option string;
  implementation_plan : option string;
  code_modules : dict string;
  testing_results : option string;
  deployment_plan : option string
}.

Definition project_state : ProjectState :=
  mkState None None None None None [] None None.

Definition set_current_project (v : option string) (st : ProjectState) :=
  mkState v (requirements st) (architecture st) (tech_stack st)
          (implementation_plan st) (code_modules st) (testing_results st)
          (deployment_plan st).

Definition set_requirements (v : option string) (st : ProjectState) :=
  mkState (current_project st) v (architecture st) (tech_stack st)
          (implementation_plan st) (code_modules st) (testing_results st)
          (deployment_plan st).

Definition set_architecture (v : option string) (st : ProjectState) :=
  mkState (current_project st) (requirements st) v (tech_stack st)
          (implementation_plan st) (code_modules st) (testing_results st)
          (deployment_plan st).

Definition set_tech_stack (v : option string) (st : ProjectState) :=
  mkState (current_project st) (requirements st) (architecture st) v
          (implementation_plan st) (code_modules st) (testing_results st)
          (deployment_plan st).

Definition set_implementation_plan (v : option string) (st : ProjectState) :=
  mkState (current_project st) (requirements st) (architecture st)
          (tech_stack st) v (code_modules st) (testing_results st)
          (deployment_plan st).

Definition set_code_modules (v : dict string) (st : ProjectState) :=
  mkState (current_project st) (requirements st) (architecture st)
          (tech_stack st) (implementation_plan st) v (testing_results st)
          (deployment_plan st).

Definition set_testing_results (v : option string) (st : ProjectState) :=
  mkState (current_project st) (requirements st) (architecture st)
          (tech_stack st) (implementation_plan st) (code_modules st) v
          (deployment_plan st).

Definition set_deployment_plan (v : option string) (st : ProjectState) :=
  mkState (current_project st) (requirements st) (architecture st)
          (tech_stack st) (implementation_plan st) (code_modules st)
          (testing_results st) v.

(** [reset_project] (server.py:1662-1678): the new state and the message. *)
Definition reset_project (st : ProjectState) : string * ProjectState :=
  let st := set_current_project None st in
  let st := set_requirements None st in
  let st := set_architecture None st in
  let st := set_tech_stack None st in
  let st := set_implementation_plan None st in
  let st := set_code_modules [] st in
  let st := set_testing_results None st in
  let st := set_deployment_plan None st in
  ("✅ Project state reset successfully. Ready for a new project!", st).

(** ** The environment of one tool call *)

Record StepEnv : Type := mkEnv {
  (** [gemini_model.generate_content(...)] and the [.text] of its reply. *)
  gemini_reply : completion string;
  (** [datetime.now().strftime('%Y-%m-%d %H:%M:%S')]. *)
  now : string;
  (** [tavily_client.search(query, max_results=5)] for the i-th query, by the
      number of entries under ["results"]. *)
  tavily_search : nat -> completion nat
}.

Definition rule80 : string := py_repeat "=" 80.

(** The report every specialist returns on success: banner, timestamp, the
    agent's header lines, the reply and the closing banner. *)
Definition report (title generated : string) (header : list string)
    (text footer : string) : string :=
  nl ++ rule80 ++ nl ++ title ++ nl ++ rule80 ++ nl
  ++ "📅 Generated: " ++ generated ++ nl
  ++ String.concat "" (map (fun line => line ++ nl) header)
  ++ nl ++ text ++ nl ++ nl
  ++ rule80 ++ nl ++ footer ++ nl ++ rule80 ++ nl.

Section Server.

(** The module-level flag set once at import time (server.py:25-39). *)
Variable GEMINI_AVAILABLE : bool.

(** ** The eight specialists

    Each takes the state and its environment and gives its completion and
    the state it leaves. *)

(** [product_analyst] (server.py:63-160). *)
Definition product_analyst (st : ProjectState) (env : StepEnv)
    (user_request additional_context : string)
    : completion string * ProjectState :=
  if negb GEMINI_AVAILABLE then
    (Returned "❌ Product Analyst requires Gemini AI", st)
  else
    match gemini_reply env with
    | Returned text =>
        let result :=
          report "🎯 PRODUCT ANALYST REPORT" (now env)
                 ["👤 Agent: Product Analyst AI"] text
                 "✅ Analysis Complete - Ready for Architecture Team" in
        let st := set_requirements (Some text) st in
        let st := set_current_project (Some user_request) st in
        (Returned result, st)
    | Raised e => (Returned ("❌ Product Analyst Error: " ++ e), st)
    end.

(** The queries of [research_engineer] (server.py:188-196). *)
Definition search_queries (topic : string) (focus_areas : list string)
    : list string :=
  app [ topic ++ " best practices 2024 2025";
        topic ++ " architecture patterns";
        topic ++ " technology stack recommendations" ]
      (map (fun area => topic ++ " " ++ area ++ " solutions")
           (firstn 2 focus_areas)).

(** [len(all_results)] after the search loop (server.py:198-204): a search
    that raises is skipped. *)
Fixpoint sources_analyzed (env : StepEnv) (i : nat) (queries : list string)
    : nat :=
  match queries with
  | [] => 0
  | _ :: queries' =>
      match tavily_search env i with
      | Returned k => k + sources_analyzed env (S i) queries'
      | Raised _ => sources_analyzed env (S i) queries'
      end
  end.

(** [research_engineer] (server.py:167-281). *)
Definition research_engineer (st : ProjectState) (env : StepEnv)
    (topic : string) (focus_areas : list string)
    : completion string * ProjectState :=
  if negb GEMINI_AVAILABLE then
    (Returned "❌ Research Engineer requires Gemini AI", st)
  else
    let queries := search_queries topic focus_areas in
    let all_results := sources_analyzed env 0 (firstn 4 queries) in
    match gemini_reply env with
    | Returned text =>
        let result :=
          report "🔍 RESEARCH ENGINEER REPORT" (now env)
                 [ "👤 Agent: Research Engineer AI";
                   "🔎 Searches Performed: " ++ str_nat (length queries);
                   "📊 Sources Analyzed: " ++ str_nat all_results ] text
                 "✅ Research Complete - Ready for Architecture Design" in
        (Returned result, st)
    | Raised e => (Returned ("❌ Research Engineer Error: " ++ e), st)
    end.

(** [software_architect] (server.py:288-419).  An absent or empty
    [requirements] argument is replaced by the state's, which only feeds the
    prompt. *)
Definition software_architect (st : ProjectState) (env : StepEnv)
    (requirements_arg research_findings : option string)
    : completion string * ProjectState :=
  if negb GEMINI_AVAILABLE then
    (Returned "❌ Software Architect requires Gemini AI", st)
  else
    match gemini_reply env with
    | Returned text =>
        let result :=
          report "🏗️ SOFTWARE ARCHITECT DESIGN DOCUMENT" (now env)
                 ["👤 Agent: Software Architect AI"] text
                 "✅ Architecture Complete - Ready for Implementation Planning" in
        let st := set_architecture (Some text) st in
        (Returned result, st)
    | Raised e => (Returned ("❌ Software Architect Error: " ++ e), st)
    end.

(** [technical_lead] (server.py:426-542). *)
Definition technical_lead (st : ProjectState) (env : StepEnv)
    (architecture_arg : option string)
    : completion string * ProjectState :=
  if negb GEMINI_AVAILABLE then
    (Returned "❌ Technical Lead requires Gemini AI", st)
  else
    match gemini_reply env with
    | Returned text =>
        let result :=
          report "📋 TECHNICAL LEAD IMPLEMENTATION PLAN" (now env)
                 ["👤 Agent: Technical Lead AI"] text
                 "✅ Implementation Plan Complete - Ready for Development" in
        let st := set_implementation_plan (Some text) st in
        (Returned result, st)
    | Raised e => (Returned ("❌ Technical Lead Error: " ++ e), st)
    end.

(** [senior_developer] (server.py:549-657).  The prompt slices the state's
    architecture before the [try], so a [None] architecture raises out of
    the tool. *)
Definition senior_developer (st : ProjectState) (env : StepEnv)
    (module_name specifications language : string)
    : completion string * ProjectState :=
  if negb GEMINI_AVAILABLE then
    (Returned "❌ Senior Developer requires Gemini AI", st)
  else
    match slice_opt 1000 (architecture st) with
    | Raised e => (Raised e, st)
    | Returned _ =>
        match gemini_reply env with
        | Returned text =>
            let result :=
              report "💻 SENIOR DEVELOPER - MODULE IMPLEMENTATION" (now env)
                     [ "👤 Agent: Senior Developer AI";
                       "📦 Module: " ++ module_name;
                       "🔤 Language: " ++ language ] text
                     "✅ Module Implementation Complete - Ready for Review & Testing" in
            let st :=
              set_code_modules (dict_set module_name text (code_modules st))
                               st in
            (Returned result, st)
        | Raised e => (Returned ("❌ Senior Developer Error: " ++ e), st)
        end
    end.

(** [qa_engineer] (server.py:664-791).  The code to test, taken from the
    state when the argument is absent or empty, is a text in either case and
    only feeds the prompt; the architecture slice that follows it raises on
    [None]. *)
Definition qa_engineer (st : ProjectState) (env : StepEnv)
    (module_name : string) (code : option string) (test_type : string)
    : completion string * ProjectState :=
  if negb GEMINI_AVAILABLE then
    (Returned "❌ QA Engineer requires Gemini AI", st)
  else
    match slice_opt 1000 (architecture st) with
    | Raised e => (Raised e, st)
    | Returned _ =>
        match gemini_reply env with
        | Returned text =>
            let result :=
              report "🧪 QA ENGINEER - TEST SUITE" (now env)
                     [ "👤 Agent: QA Engineer AI";
                       "📦 Module: " ++ module_name;
                       "🎯 Test Type: " ++ test_type ] text
                     "✅ Test Suite Complete - Ready for Execution" in
            (Returned result, st)
        | Raised e => (Returned ("❌ QA Engineer Error: " ++ e), st)
        end
    end.

(** [devops_engineer] (server.py:798-932). *)
Definition devops_engineer (st : ProjectState) (env : StepEnv)
    (environment deployment_type : string)
    : completion string * ProjectState :=
  if negb GEMINI_AVAILABLE then
    (Returned "❌ DevOps Engineer requires Gemini AI", st)
  else
    match slice_opt 2000 (architecture st) with
    | Raised e => (Raised e, st)
    | Returned _ =>
        match gemini_reply env with
        | Returned text =>
            let result :=
              report "🚀 DEVOPS ENGINEER - DEPLOYMENT CONFIGURATION" (now env)
                     [ "👤 Agent: DevOps Engineer AI";
                       "🌍 Environment: " ++ environment;
                       "☁️ Deployment Type: " ++ deployment_type ] text
                     "✅ Deployment Configuration Complete - Ready for Deployment" in
            let st := set_deployment_plan (Some text) st in
            (Returned result, st)
        | Raised e => (Returned ("❌ DevOps Engineer Error: " ++ e), st)
        end
    end.

(** [documentation_specialist] (server.py:939-1080): the context slices
    three state fields in turn before the [try]. *)
Definition documentation_specialist (st : ProjectState) (env : StepEnv)
    (doc_type : string) : completion string * ProjectState :=
  if negb GEMINI_AVAILABLE then
    (Returned "❌ Documentation Specialist requires Gemini AI", st)
  else
    match slice_opt 2000 (requirements st) with
    | Raised e => (Raised e, st)
    | Returned _ =>
    match slice_opt 2000 (architecture st) with
    | Raised e => (Raised e, st)
    | Returned _ =>
    match slice_opt 1000 (implementation_plan st) with
    | Raised e => (Raised e, st)
    | Returned _ =>
        match gemini_reply env with
        | Returned text =>
            let result :=
              report "📚 DOCUMENTATION SPECIALIST - PROJECT DOCUMENTATION"
                     (now env)
                     [ "👤 Agent: Documentation Specialist AI";
                       "📋 Documentation Type: " ++ doc_type ] text
                     "✅ Documentation Complete - Ready for Review" in
            (Returned result, st)
        | Raised e =>
            (Returned ("❌ Documentation Specialist Error: " ++ e), st)
        end
    end end end.

(** ** The plan (server.py:1147-1173, the dict decoded at 1196) *)

Record Parameters : Type := mkParameters {
  (** the text-valued entries of ["parameters"] *)
  str_params : dict string;
  (** the entry ["focus_areas"] *)
  focus_areas_param : option (list string)
}.

Record Step : Type := mkStep {
  step : option Z;
  agent : option string;
  parameters : Parameters;
  reason : option string;
  estimated_time : option string;
  depends_on : list Z
}.

Record Plan : Type := mkPlan {
  project_name : option string;
  complexity : option string;
  analysis : option string;
  team_workflow : list Step;
  key_modules : list string;
  success_criteria : list string;
  estimated_total_time : option string
}.

(** ** Dispatch (server.py:1261-1300) *)

Inductive Call : Type :=
| CallProductAnalyst (user_request additional_context : string)
| CallResearchEngineer (topic : string) (focus_areas : list string)
| CallSoftwareArchitect (requirements_arg research_findings : option string)
| CallTechnicalLead (architecture_arg : option string)
| CallSeniorDeveloper (module_name specifications language : string)
| CallQaEngineer (module_name : string) (code : option string)
                 (test_type : string)
| CallDevopsEngineer (environment deployment_type : string)
| CallDocumentationSpecialist (doc_type : string).

(** The [if]/[elif] chain on [agent_name] with the argument expressions of
    each branch; [None] is the final [else]. *)
Definition dispatch (agent_name : string) (parameters : Parameters)
    (user_request : string) : option Call :=
  let p := str_params parameters in
  if agent_name =? "product_analyst" then
    Some (CallProductAnalyst (get_or p "user_request" user_request)
                             (get_or p "additional_context" ""))
  else if agent_name =? "research_engineer" then
    Some (CallResearchEngineer (get_or p "topic" user_request)
                               (or_default (focus_areas_param parameters) []))
  else if agent_name =? "software_architect" then
    Some (CallSoftwareArchitect (dict_get "requirements" p)
                                (dict_get "research_findings" p))
  else if agent_name =? "technical_lead" then
    Some (CallTechnicalLead (dict_get "architecture" p))
  else if agent_name =? "senior_developer" then
    let module_name := get_or p "module_name" "main_module" in
    Some (CallSeniorDeveloper
            module_name
            (get_or p "specifications" "Implement according to architecture")
            (get_or p "language" "python"))
  else if agent_name =? "qa_engineer" then
    Some (CallQaEngineer (get_or p "module_name" "main_module")
                         (dict_get "code" p)
                         (get_or p "test_type" "comprehensive"))
  else if agent_name =? "devops_engineer" then
    Some (CallDevopsEngineer (get_or p "environment" "production")
                             (get_or p "deployment_type" "cloud"))
  else if agent_name =? "documentation_specialist" then
    Some (CallDocumentationSpecialist (get_or p "doc_type" "complete"))
  else None.

(** The call itself. *)
Definition invoke (c : Call) (st : ProjectState) (env : StepEnv)
    : completion string * ProjectState :=
  match c with
  | CallProductAnalyst u a => product_analyst st env u a
  | CallResearchEngineer t f => research_engineer st env t f
  | CallSoftwareArchitect r f => software_architect st env r f
  | CallTechnicalLead a => technical_lead st env a
  | CallSeniorDeveloper m s l => senior_developer st env m s l
  | CallQaEngineer m c t => qa_engineer st env m c t
  | CallDevopsEngineer e d => devops_engineer st env e d
  | CallDocumentationSpecialist d => documentation_specialist st env d
  end.

(** ** The workflow loop (server.py:1248-1313) *)

(** What one pass of the loop body did: the position of the step in
    ["team_workflow"], its number and agent name, the call the dispatch
    chose ([None] for an unknown agent) and how the [try] body completed.
    The list of attempts is a record of the run kept beside the values the
    source computes; nothing reads it back. *)
Record Attempt : Type := mkAttempt {
  position : nat;
  attempt_step : Z;
  attempt_agent : string;
  attempt_call : option Call;
  attempt_completion : completion string
}.

(** The loop's variables: the global state, the text accumulated in
    [plan_summary] (one entry per [+=]), [results], [workflow_outputs]. *)
Record Exec : Type := mkExec {
  exec_state : ProjectState;
  plan_summary : list string;
  results : dict string;
  workflow_outputs : list string;
  attempts : list Attempt
}.

Definition dash80 : string := py_repeat "─" 80.

Definition step_banner (step_num : Z) (agent_name : string) : string :=
  nl ++ dash80 ++ nl ++ "▶️  STEP " ++ str_int step_num ++ ": "
  ++ replace_underscore (upper agent_name) ++ nl ++ dash80 ++ nl.

(** [result[:800] + "..." if len(result) > 800 else result]. *)
Definition result_preview (result : string) : string :=
  if (800 <? py_len result)%nat then py_take 800 result ++ "..." else result.

(** [error_msg] of the [except] branch. *)
Definition error_message (agent_name e : string) : string :=
  "❌ Error executing " ++ agent_name ++ ": " ++ e.

(** The body of the [try] up to the assignment of [result]: the worker's
    completion, or the text of the [else] branch. *)
Definition run_agent (agent_name : string) (parameters : Parameters)
    (user_request : string) (st : ProjectState) (env : StepEnv)
    : option Call * (completion string * ProjectState) :=
  match dispatch agent_name parameters user_request with
  | Some call => (Some call, invoke call st env)
  | None => (None, (Returned ("❌ Unknown agent: " ++ agent_name), st))
  end.

(** One iteration, for the step at position [i]. *)
Definition execute_step (user_request : string) (env : StepEnv) (i : nat)
    (acc : Exec) (step_info : Step) : Exec :=
  let agent_name := or_default (agent step_info) "" in
  let parameters := parameters step_info in
  let step_num := or_default (step step_info) 0%Z in
  let summary := app (plan_summary acc) [step_banner step_num agent_name] in
  let '(call, (outcome, st)) :=
    run_agent agent_name parameters user_request (exec_state acc) env in
  let attempt := mkAttempt i step_num agent_name call outcome in
  match outcome with
  | Returned result =>
      mkExec st
             (app summary [result_preview result ++ nl])
             (dict_set agent_name result (results acc))
             (app (workflow_outputs acc) [result])
             (app (attempts acc) [attempt])
  | Raised e =>
      let error_msg := error_message agent_name e in
      mkExec st
             (app summary [error_msg ++ nl])
             (dict_set agent_name error_msg (results acc))
             (workflow_outputs acc)
             (app (attempts acc) [attempt])
  end.

(** [for step_info in plan.get('team_workflow', [])], from position [i]. *)
Fixpoint execute_workflow (user_request : string) (envs : nat -> StepEnv)
    (i : nat) (acc : Exec) (steps : list Step) : Exec :=
  match steps with
  | [] => acc
  | step_info :: rest =>
      execute_workflow user_request envs (S i)
        (execute_step user_request (envs i) i acc step_info) rest
  end.

(** ** The plan shown before execution (server.py:1204-1239) *)

Definition plan_header (plan : Plan) (started : string) : string :=
  nl ++ rule80 ++ nl
  ++ "🎯 ORCHESTRATOR - AI SOFTWARE ENGINEERING TEAM" ++ nl
  ++ rule80 ++ nl
  ++ "📅 Project Start: " ++ started ++ nl
  ++ "🏢 Project: " ++ or_default (project_name plan) "Unnamed Project" ++ nl
  ++ "📊 Complexity: " ++ upper (or_default (complexity plan) "Unknown") ++ nl
  ++ "⏱️ Estimated Time: "
  ++ or_default (estimated_total_time plan) "Unknown" ++ nl
  ++ nl
  ++ "📋 PROJECT ANALYSIS:" ++ nl
  ++ or_default (analysis plan) "No analysis provided" ++ nl
  ++ nl
  ++ "✅ SUCCESS CRITERIA:" ++ nl
  ++ py_join nl (map (fun criteria => "  • " ++ criteria)
                     (success_criteria plan)) ++ nl
  ++ nl
  ++ "🔧 TEAM WORKFLOW (" ++ str_nat (length (team_workflow plan))
  ++ " steps):" ++ nl.

Definition step_overview (step_info : Step) : list string :=
  let step_num := or_default (step step_info) 0%Z in
  let agent := or_default (agent step_info) "unknown" in
  let reason := or_default (reason step_info) "No reason provided" in
  let time := or_default (estimated_time step_info) "Unknown" in
  let depends := depends_on step_info in
  app [ nl ++ "  Step " ++ str_int step_num ++ ": "
        ++ replace_underscore (upper agent);
        nl ++ "    ⏱️  Time: " ++ time;
        nl ++ "    💡 Reason: " ++ reason ]
      (app (match depends with
            | [] => []
            | _ => [ nl ++ "    🔗 Depends on steps: "
                     ++ py_join ", " (map str_int depends) ]
            end)
           [ nl ]).

Definition key_modules_overview (plan : Plan) : list string :=
  match key_modules plan with
  | [] => []
  | modules =>
      (nl ++ "📦 KEY MODULES TO IMPLEMENT:" ++ nl)
      :: map (fun module => "  • " ++ module ++ nl) modules
  end.

Definition plan_overview (plan : Plan) (started : string) : list string :=
  app [ plan_header plan started ]
      (app (flat_map step_overview (team_workflow plan))
           (key_modules_overview plan)).

(** ** The delivery summary and the closing lines (server.py:1359-1381) *)

(** The [try] around the summary call: its text, or a notice with the
    message of what it raised. *)
Definition delivery_summary (reply : completion string) : string :=
  match reply with
  | Returned text =>
      nl ++ nl ++ rule80 ++ nl ++ "🎯 PROJECT DELIVERY SUMMARY" ++ nl
      ++ rule80 ++ nl ++ nl ++ text ++ nl
  | Raised e => nl ++ nl ++ "❌ Error generating summary: " ++ e
  end.

(** The closing lines, from [len(results)], [len(workflow_outputs)] and the
    clock. *)
Definition closing_lines (members artifacts : nat) (completed : string)
    : list string :=
  [ nl ++ nl ++ rule80 ++ nl ++ "✅ PROJECT COMPLETE" ++ nl ++ rule80 ++ nl;
    "📅 Completed: " ++ completed ++ nl;
    "👥 Team Members Involved: " ++ str_nat members ++ nl;
    "📦 Artifacts Generated: " ++ str_nat artifacts ++ nl;
    nl ++ "💡 All detailed outputs are available above. Scroll up to see complete deliverables from each team member." ++ nl ].

(** ** The orchestrator (server.py:1087-1381) *)

(** How the planning [try] (server.py:1182-1201) ends: an exception from
    the call, from [.text] or from [json.loads]; a reply in which the search
    for a brace-delimited span finds nothing; or the decoded plan. *)
Inductive Planning : Type :=
| PlanningRaised (e : string)
| PlanningNoJson (analysis_text : string)
| PlanningOk (plan : Plan).

(** Everything one orchestrator call reads from outside, in the order it
    reads it; [step_env i] serves the tool called for the step at
    position [i]. *)
Record World : Type := mkWorld {
  planning : Planning;
  start_time : string;
  step_env : nat -> StepEnv;
  summary_reply : completion string;
  end_time : string
}.

(** What a call leaves behind: the text it returns and the global state,
    together with the locals [results] and [workflow_outputs] and the
    attempts made, as they stand when it returns. *)
Record Run : Type := mkRun {
  returned : string;
  final_state : ProjectState;
  run_results : dict string;
  run_outputs : list string;
  run_attempts : list Attempt
}.

(** The reset at the start of a run (server.py:1114-1120). *)
Definition start_project (user_request : string) (st : ProjectState)
    : ProjectState :=
  let st := set_current_project (Some user_request) st in
  let st := set_requirements None st in
  let st := set_architecture None st in
  let st := set_implementation_plan None st in
  let st := set_code_modules [] st in
  let st := set_deployment_plan None st in
  st.

Definition executing_banner : string :=
  nl ++ nl ++ rule80 ++ nl ++ "🚀 EXECUTING TEAM WORKFLOW" ++ nl ++ rule80 ++ nl.

(** Step 3 for a decoded plan with [auto_execute] set: the loop, entered
    with empty [results] and [workflow_outputs]. *)
Definition execute_plan (user_request : string) (w : World) (plan : Plan)
    (shown : list string) (st : ProjectState) : Exec :=
  let summary := app shown [ executing_banner ] in
  execute_workflow user_request (step_env w) 0
    (mkExec st summary [] [] []) (team_workflow plan).

Definition orchestrator (st : ProjectState) (w : World)
    (user_request : string) (auto_execute : bool) (execution_mode : string)
    : Run :=
  if negb GEMINI_AVAILABLE then
    mkRun "❌ Orchestrator requires Gemini AI for intelligent coordination"
          st [] [] []
  else
    let st := start_project user_request st in
    match planning w with
    | PlanningRaised e =>
        mkRun ("❌ Orchestrator Analysis Error: " ++ e) st [] [] []
    | PlanningNoJson analysis_text =>
        mkRun ("❌ Could not parse orchestrator analysis: " ++ analysis_text)
              st [] [] []
    | PlanningOk plan =>
        let shown := plan_overview plan (start_time w) in
        if negb auto_execute then
          mkRun (String.concat ""
                   (app shown [ nl ++ nl ++ "💡 Set auto_execute=True to execute this plan automatically." ]))
                st [] [] []
        else
          let ex := execute_plan user_request w plan shown st in
          let summary :=
            app (plan_summary ex)
                (delivery_summary (summary_reply w)
                 :: closing_lines (length (results ex))
                                  (length (workflow_outputs ex))
                                  (end_time w)) in
          mkRun (String.concat "" summary) (exec_state ex) (results ex)
                (workflow_outputs ex) (attempts ex)
    end.

End Server.

(** ** Reading a run *)

Definition agent_name_of (step_info : Step) : string :=
  or_default (agent step_info) "".

Definition step_num_of (step_info : Step) : Z :=
  or_default (step step_info) 0%Z.

(** What [results] receives for a completion, and what [plan_summary]
    receives. *)
Definition recorded_text (agent_name : string) (c : completion string)
    : string :=
  match c with
  | Returned result => result
  | Raised e => error_message agent_name e
  end.

Definition status_text (agent_name : string) (c : completion string)
    : string :=
  match c with
  | Returned result => result_preview result ++ nl
  | Raised e => error_message agent_name e ++ nl
  end.

Definition recorded (a : Attempt) : string :=
  recorded_text (attempt_agent a) (attempt_completion a).

(** The two entries one attempt adds to [plan_summary]. *)
Definition step_report (a : Attempt) : list string :=
  [ step_banner (attempt_step a) (attempt_agent a);
    status_text (attempt_agent a) (attempt_completion a) ].

(** The results of the attempts whose [try] body completed. *)
Definition returned_texts (atts : list Attempt) : list string :=
  flat_map (fun a => match attempt_completion a with
                     | Returned result => [result]
                     | Raised _ => []
                     end) atts.

(** The last attempt made under an agent name. *)
Definition last_attempt_of (agent_name : string) (atts : list Attempt)
    : option Attempt :=
  find (fun a => agent_name =? attempt_agent a) (rev atts).

(** [results] rebuilt from the attempts, in order. *)
Definition ledger_of (atts : list Attempt) (d : dict string) : dict string :=
  fold_left (fun d a => dict_set (attempt_agent a) (recorded a) d) atts d.

(** The text a specialist returns from its own [except] branch. *)
Definition error_return (c : Call) (e : string) : string :=
  match c with
  | CallProductAnalyst _ _ => "❌ Product Analyst Error: " ++ e
  | CallResearchEngineer _ _ => "❌ Research Engineer Error: " ++ e
  | CallSoftwareArchitect _ _ => "❌ Software Architect Error: " ++ e
  | CallTechnicalLead _ => "❌ Technical Lead Error: " ++ e
  | CallSeniorDeveloper _ _ _ => "❌ Senior Developer Error: " ++ e
  | CallQaEngineer _ _ _ => "❌ QA Engineer Error: " ++ e
  | CallDevopsEngineer _ _ => "❌ DevOps Engineer Error: " ++ e
  | CallDocumentationSpecialist _ => "❌ Documentation Specialist Error: " ++ e
  end.

(** A step's worker fails in state [st]: the tool raises, or the text
    generation raises inside the tool and the tool returns its error text.
    The index is the completion the loop body sees. *)
Inductive worker_fails (ga : bool) (user_request : string) (env : StepEnv)
    (st : ProjectState) (step_info : Step) : completion string -> Prop :=
| fails_raising call e :
    dispatch (agent_name_of step_info) (parameters step_info) user_request
      = Some call ->
    fst (invoke ga call st env) = Raised e ->
    worker_fails ga user_request env st step_info (Raised e)
| fails_returning call e :
    dispatch (agent_name_of step_info) (parameters step_info) user_request
      = Some call ->
    gemini_reply env = Raised e ->
    fst (invoke ga call st env) = Returned (error_return call e) ->
    worker_fails ga user_request env st step_info
                 (Returned (error_return call e)).

(** The states the server can be in: the tools are callable one by one, the
    orchestrator and the reset are tools too; the status, summary and export
    tools only read. *)
Inductive reachable (ga : bool) : ProjectState -> Prop :=
| reach_start : reachable ga project_state
| reach_tool st call env :
    reachable ga st -> reachable ga (snd (invoke ga call st env))
| reach_orchestrator st w user_request auto_execute execution_mode :
    reachable ga st ->
    reachable ga (final_state (orchestrator ga st w user_request auto_execute
                                            execution_mode))
| reach_reset st :
    reachable ga st -> reachable ga (snd (reset_project st)).

(** The state a run starts its steps from, written out. *)
Definition started_state (user_request : string) : ProjectState :=
  mkState (Some user_request) None None None None [] None None.

(** The attempt the loop body makes for a step at position [i] in state
    [st], and the state it leaves. *)
Definition attempt_of (ga : bool) (user_request : string) (env : StepEnv)
    (i : nat) (st : ProjectState) (step_info : Step) : Attempt :=
  let r := run_agent ga (agent_name_of step_info) (parameters step_info)
                     user_request st env in
  mkAttempt i (step_num_of step_info) (agent_name_of step_info)
            (fst r) (fst (snd r)).

Definition state_after (ga : bool) (user_request : string) (env : StepEnv)
    (st : ProjectState) (step_info : Step) : ProjectState :=
  snd (snd (run_agent ga (agent_name_of step_info) (parameters step_info)
                      user_request st env)).

(** An attempt is the one of a given step: same number and agent name, the
    call is the dispatch of the step's own parameters, and without a call
    the result is the unknown-agent text. *)
Definition attempt_matches (user_request : string) (a : Attempt)
    (step_info : Step) : Prop :=
  attempt_step a = step_num_of step_info /\
  attempt_agent a = agent_name_of step_info /\
  attempt_call a
  = dispatch (agent_name_of step_info) (parameters step_info) user_request /\
  (attempt_call a = None ->
   attempt_completion a
   = Returned ("❌ Unknown agent: " ++ agent_name_of step_info)).



(** ** Sample plans and environments *)

Definition replying (text : string) : StepEnv :=
  mkEnv (Returned text) "2025-01-01 09:00:00" (fun _ => Returned 0).

Definition failing (e : string) : StepEnv :=
  mkEnv (Raised e) "2025-01-01 09:00:00" (fun _ => Returned 0).

Definition no_parameters : Parameters := mkParameters [] None.

Definition plain_step (n : Z) (agent_name : string) (deps : list Z) : Step :=
  mkStep (Some n) (Some agent_name) no_parameters None None deps.

Definition plan_of (steps : list Step) : Plan :=
  mkPlan (Some "Chat") (Some "simple") None steps [] [] None.

Definition world_of (p : Planning) (envs : nat -> StepEnv) : World :=
  mkWorld p "2025-01-01 08:59:00" envs (Returned "Delivered.")
          "2025-01-01 09:05:00".

(** A first run that designs the architecture and implements one module;
    [earlier_state] is the state it leaves. *)
Definition earlier_plan : Plan :=
  plan_of [ plain_step 1 "software_architect" [];
            plain_step 2 "senior_developer" [1%Z] ].

Definition earlier_world : World :=
  world_of (PlanningOk earlier_plan) (fun _ => replying "draft").

Definition earlier_state : ProjectState :=
  final_state (orchestrator true project_state earlier_world
                            "Build a chat app" true "full").

(** Two steps for the same agent, and two steps listed against their
    numbers. *)
Definition plan_same_agent : Plan :=
  plan_of [ plain_step 1 "product_analyst" [];
            plain_step 2 "product_analyst" [] ].

Definition plan_listed_backwards : Plan :=
  plan_of [ plain_step 2 "research_engineer" [];
            plain_step 1 "product_analyst" [] ].

(** A plan whose only step implements a module before any architecture
    exists: the tool raises. *)
Definition plan_developer_only : Plan :=
  plan_of [ plain_step 1 "senior_developer" [] ].







(** ** Reading the tools *)

(** [str(e)] of the TypeError raised by slicing [None]. *)
Definition none_type_error : string :=
  "'NoneType' object is not subscriptable".

(** The state fields a tool reads by slicing before its [try]: one of them
    at [None] makes the tool raise. *)
Definition is_none {A : Type} (v : option A) : bool :=
  match v with
  | Some _ => false
  | None => true
  end.

Definition missing_context (c : Call) (st : ProjectState) : bool :=
  match c with
  | CallSeniorDeveloper _ _ _ | CallQaEngineer _ _ _
  | CallDevopsEngineer _ _ => is_none (architecture st)
  | CallDocumentationSpecialist _ =>
      is_none (requirements st) || is_none (architecture st)
      || is_none (implementation_plan st)
  | _ => false
  end.

(** What each tool stores of a reply [text]. *)
Definition tool_write (c : Call) (text : string) (st : ProjectState)
    : ProjectState :=
  match c with
  | CallProductAnalyst user_request _ =>
      set_current_project (Some user_request)
                          (set_requirements (Some text) st)
  | CallSoftwareArchitect _ _ => set_architecture (Some text) st
  | CallTechnicalLead _ => set_implementation_plan (Some text) st
  | CallSeniorDeveloper module_name _ _ =>
      set_code_modules (dict_set module_name text (code_modules st)) st
  | CallDevopsEngineer _ _ => set_deployment_plan (Some text) st
  | CallResearchEngineer _ _ | CallQaEngineer _ _ _
  | CallDocumentationSpecialist _ => st
  end.

(** The reply of the last step, among those at positions [i], [i+1], ...
    of [steps], that names the agent [name] and whose text generation
    returned; [found] when there is none. *)
Fixpoint last_reply (name : string) (envs : nat -> StepEnv) (i : nat)
    (steps : list Step) (found : option string) : option string :=
  match steps with
  | [] => found
  | step_info :: rest =>
      last_reply name envs (S i) rest
        (if agent_name_of step_info =? name then
           match gemini_reply (envs i) with
           | Returned text => Some text
           | Raised _ => found
           end
         else found)
  end.

(** The ["user_request"] argument of the last product analyst step whose
    text generation returned. *)
Fixpoint last_project (user_request : string) (envs : nat -> StepEnv)
    (i : nat) (steps : list Step) (found : option string) : option string :=
  match steps with
  | [] => found
  | step_info :: rest =>
      last_project user_request envs (S i) rest
        (if agent_name_of step_info =? "product_analyst" then
           match gemini_reply (envs i) with
           | Returned _ =>
               Some (get_or (str_params (parameters step_info))
                            "user_request" user_request)
           | Raised _ => found
           end
         else found)
  end.

(** The entries a search adds to [all_results]; none when it raises. *)
Definition search_hits (env : StepEnv) (i : nat) : nat :=
  match tavily_search env i with
  | Returned k => k
  | Raised _ => 0
  end.

(** A state with an architecture, and a tool environment whose fifth search
    differs from that of [replying]. *)
Definition designed_state : ProjectState :=
  mkState (Some "Build a chat app") None (Some "draft") None None
          [("auth", "v1"); ("chat", "v1")] None None.

Definition plan_design_then_build : Plan :=
  plan_of [ plain_step 1 "senior_developer" [];
            plain_step 2 "software_architect" [];
            plain_step 3 "devops_engineer" [2%Z] ].

(** ** The status and summary tools (server.py:1388-1422, 1681-1714;
    fastapi_server.py:62-73) *)

(** The truth value of an optional text: [None] and the empty text are
    false. *)
Definition truthy (v : option string) : bool :=
  match v with
  | Some s => negb (s =? "")
  | None => false
  end.

(** An optional text inside an f-string. *)
Definition str_opt (v : option string) : string :=
  match v with
  | Some s => s
  | None => "None"
  end.

(** The ["current_project"] entry of [team_status]; the keys of
    [project_state] are always present, so the defaults given to [.get] do
    not show. *)
Record ProjectStatus : Type := mkProjectStatus {
  status_name : option string;
  has_requirements : bool;
  has_architecture : bool;
  has_implementation_plan : bool;
  code_modules_count : nat;
  has_deployment_plan : bool
}.

Record Services : Type := mkServices {
  service_tavily_search : string;
  service_gemini_ai : string;
  service_orchestrator : string
}.

Record TeamStatus : Type := mkTeamStatus {
  server_version : string;
  team_size : nat;
  services : Services;
  team_members : list string;
  status_current_project : ProjectStatus;
  usage_tip : string
}.

Definition project_status (st : ProjectState) : ProjectStatus :=
  mkProjectStatus (current_project st)
                  (negb (is_none (requirements st)))
                  (negb (is_none (architecture st)))
                  (negb (is_none (implementation_plan st)))
                  (length (code_modules st))
                  (negb (is_none (deployment_plan st))).

(** [team_status]; [tavily_api_key] and [gemini_available] are the two
    module-level values it reads. *)
Definition team_status (tavily_api_key : string) (gemini_available : bool)
    (st : ProjectState) : TeamStatus :=
  mkTeamStatus
    "2.0.0 - AI Software Engineering Team"
    8
    (mkServices
       (if negb (tavily_api_key =? "") then "✅ Connected"
        else "❌ Not configured")
       (if gemini_available then "✅ Connected" else "❌ Not available")
       (if gemini_available then "✅ Available" else "❌ Requires Gemini"))
    [ "🎯 product_analyst - Requirements & Product Specs";
      "🔍 research_engineer - Technology Research";
      "🏗️ software_architect - System Architecture";
      "📋 technical_lead - Implementation Planning";
      "💻 senior_developer - Code Implementation";
      "🧪 qa_engineer - Testing & Quality Assurance";
      "🚀 devops_engineer - Deployment & Infrastructure";
      "📚 documentation_specialist - Documentation" ]
    (project_status st)
    "Call orchestrator(your_request) to start building an application with the full team!".

(** [get_project_status] of the REST interface. *)
Record RestProjectStatus : Type := mkRestProjectStatus {
  rest_current_project : option string;
  rest_has_requirements : bool;
  rest_has_architecture : bool;
  rest_has_implementation_plan : bool;
  rest_code_modules_count : nat;
  rest_has_deployment_plan : bool;
  rest_available_modules : list string
}.

Definition get_project_status (st : ProjectState) : RestProjectStatus :=
  mkRestProjectStatus (current_project st)
                      (negb (is_none (requirements st)))
                      (negb (is_none (architecture st)))
                      (negb (is_none (implementation_plan st)))
                      (length (code_modules st))
                      (negb (is_none (deployment_plan st)))
                      (keys (code_modules st)).

Definition check_mark (v : option string) : string :=
  if truthy v then "✓" else "✗".

Definition no_active_project : string :=
  "ℹ️ No active project. Start one with orchestrator(your_request)!".

(** [get_project_summary]. *)
Definition get_project_summary (st : ProjectState) : string :=
  if negb (truthy (current_project st)) then no_active_project
  else
    let summary :=
      py_join nl
        [ "";
          "🏗️ **CURRENT PROJECT SUMMARY**";
          py_repeat "=" 60;
          "";
          "📋 Project: " ++ str_opt (current_project st);
          "";
          "✅ Completed Phases:";
          "  • Requirements Analysis: " ++ check_mark (requirements st);
          "  • System Architecture: " ++ check_mark (architecture st);
          "  • Implementation Plan: " ++ check_mark (implementation_plan st);
          "  • Code Modules: " ++ str_nat (length (code_modules st)) ++ " implemented";
          "  • Deployment Plan: " ++ check_mark (deployment_plan st);
          "";
          "📦 Available Artifacts:";
          "" ] in
    let summary :=
      match code_modules st with
      | [] => summary
      | _ :: _ =>
          summary ++ nl ++ "  Implemented Modules:" ++ nl
          ++ String.concat ""
               (map (fun module_name => "    • " ++ module_name ++ nl)
                    (keys (code_modules st)))
      end in
    summary ++ nl
    ++ "💡 Use individual team member tools to continue development!".

(** ** The export (server.py:1425-1659) *)

(** [s.lower()], as far as the tests below can tell.  ASCII capitals are
    lowered; the Kelvin sign (bytes 226 132 170) becomes [k] and the dotted
    capital I (bytes 196 176) becomes [i] followed by a combining dot (bytes
    204 135), the only characters outside ASCII whose lowering has an ASCII
    letter in it.  Every other character outside ASCII is lowered by Python
    to characters outside ASCII and is left as it is here, which cannot
    change whether an ASCII text occurs in the result. *)
Definition lower_ascii (c : ascii) : ascii :=
  let n := nat_of_ascii c in
  if ((65 <=? n) && (n <=? 90))%nat then ascii_of_nat (n + 32) else c.

Fixpoint lower (s : string) : string :=
  match s with
  | EmptyString => EmptyString
  | String "226" (String "132" (String "170" rest)) =>
      String "k" (lower rest)
  | String "196" (String "176" rest) =>
      String "i" (String "204" (String "135" (lower rest)))
  | String c rest => String (lower_ascii c) (lower rest)
  end.

(** [needle in s]. *)
Fixpoint contains (needle s : string) : bool :=
  match s with
  | EmptyString => String.prefix needle EmptyString
  | String _ rest => String.prefix needle s || contains needle rest
  end.

(** The extension and the folder chosen for a module (server.py:1465-1482),
    as the pair [(file_ext, folder)]. *)
Definition module_target (module_name module_content : string)
    : string * string :=
  if contains "import React" module_content
     || contains "jsx" (lower module_name) then
    (".jsx", "src/components")
  else if contains "from flask" module_content
          || contains "app.py" module_name then
    (".py", "src")
  else if contains "package.json" module_name then
    (".json", "")
  else if contains "dockerfile" (lower module_name) then
    ("", "config")
  else if contains "test" (lower module_name) then
    (if contains "python" (lower module_content) then ".py" else ".js",
     "tests")
  else
    (".py", "src").

(** [str(file_path.relative_to(base_path))] for a file name that is a
    single path component, on a POSIX system: the folder, a slash and the
    file name.  A module name with a slash in it is regrouped by [pathlib]
    and is outside what this gives. *)
Definition relative_path (folder file_name : string) : string :=
  if folder =? "" then file_name else folder ++ "/" ++ file_name.

Definition module_path (module_name module_content : string) : string :=
  let '(file_ext, folder) := module_target module_name module_content in
  relative_path folder (module_name ++ file_ext).

(** The files written for the modules, in the order of the mapping: the
    path and the text. *)
Definition module_files (st : ProjectState) : list (string * string) :=
  map (fun '(module_name, module_content) =>
         (module_path module_name module_content, module_content))
      (code_modules st).

(** The documents written for the fields that hold a text
    (server.py:1497-1519). *)
Definition doc_file (path title : string) (v : option string)
    : list (string * string) :=
  if truthy v then [(path, "# " ++ title ++ nl ++ nl ++ str_opt v)] else [].

Definition doc_files (st : ProjectState) : list (string * string) :=
  (doc_file "docs/requirements.md" "Project Requirements" (requirements st)
   ++ doc_file "docs/architecture.md" "System Architecture" (architecture st)
   ++ doc_file "docs/implementation_plan.md" "Implementation Plan"
               (implementation_plan st)
   ++ doc_file "docs/deployment.md" "Deployment Guide" (deployment_plan st)
  )%list.

(** [sorted(files)] for texts: insertion into the order of code points,
    which is the order of the UTF-8 bytes. *)
Fixpoint insert_sorted (x : string) (l : list string) : list string :=
  match l with
  | [] => [x]
  | y :: l' => if String.leb x y then x :: l else y :: insert_sorted x l'
  end.

Definition sorted (l : list string) : list string :=
  fold_right insert_sorted [] l.

(** [len([f for f in files_created if f.startswith(p)])]. *)
Definition count_under (p : string) (files : list string) : nat :=
  length (filter (String.prefix p) files).

Definition folders_created : list string :=
  ["src"; "tests"; "docs"; "config"; "scripts"].

Definition readme_content (st : ProjectState) (output_directory : string)
    (files_created : list string) (generated : string) : string :=
  py_join nl
    [ "# " ++ str_opt (current_project st);
      "";
      "## Project Overview";
      "This project was generated by the AI Software Engineering Team.";
      "";
      "## Project Structure";
      "```";
      output_directory ++ "/";
      "├── src/                 # Source code";
      "├── tests/              # Test files";
      "├── docs/               # Documentation";
      "├── config/             # Configuration files";
      "├── scripts/            # Build and deployment scripts";
      "└── README.md           # This file";
      "```";
      "";
      "## Generated Files";
      py_join nl (map (fun file => "- " ++ file) files_created);
      "";
      "## Getting Started";
      "1. Review the documentation in the `docs/` folder";
      "2. Check the implementation plan for development steps";
      "3. Follow the deployment guide for production setup";
      "";
      "## Team Members Involved";
      "- 🎯 Product Analyst";
      "- 🔍 Research Engineer";
      "- 🏗️ Software Architect";
      "- 📋 Technical Lead";
      "- 💻 Senior Developer";
      "- 🧪 QA Engineer";
      "- 🚀 DevOps Engineer";
      "- 📚 Documentation Specialist";
      "";
      "---";
      "Generated on: " ++ generated;
      "" ].

Definition gitignore_content : string :=
  py_join nl
    [ "# Dependencies";
      "node_modules/";
      "__pycache__/";
      "*.pyc";
      "*.pyo";
      "*.pyd";
      ".Python";
      "env/";
      "venv/";
      ".venv/";
      "";
      "# IDE";
      ".vscode/";
      ".idea/";
      "*.swp";
      "*.swo";
      "*~";
      "";
      "# OS";
      ".DS_Store";
      "Thumbs.db";
      "";
      "# Logs";
      "*.log";
      "logs/";
      "";
      "# Environment variables";
      ".env";
      ".env.local";
      ".env.production";
      "";
      "# Build outputs";
      "dist/";
      "build/";
      "*.egg-info/";
      "";
      "# Database";
      "*.db";
      "*.sqlite";
      "*.sqlite3";
      "";
      "# Temporary files";
      "*.tmp";
      "*.temp";
      "" ].

Definition export_summary (st : ProjectState) (output_directory : string)
    (files_created : list string) (exported : string) : string :=
  py_join nl
    [ "";
      rule80;
      "📁 PROJECT EXPORT COMPLETE";
      rule80;
      "📅 Export Date: " ++ exported;
      "📂 Output Directory: " ++ output_directory;
      "📊 Project: " ++ str_opt (current_project st);
      "";
      "✅ EXPORT SUMMARY:";
      "  • Folders Created: " ++ str_nat (length folders_created);
      "  • Files Exported: " ++ str_nat (length files_created);
      "  • Code Modules: " ++ str_nat (length (code_modules st));
      "  • Documentation Files: " ++ str_nat (count_under "docs/" files_created);
      "";
      "📁 FOLDER STRUCTURE:";
      output_directory ++ "/";
      "├── src/                 # Source code (" ++ str_nat (count_under "src/" files_created) ++ " files)";
      "├── tests/              # Test files (" ++ str_nat (count_under "tests/" files_created) ++ " files)";
      "├── docs/               # Documentation (" ++ str_nat (count_under "docs/" files_created) ++ " files)";
      "├── config/             # Configuration (" ++ str_nat (count_under "config/" files_created) ++ " files)";
      "├── scripts/            # Scripts (" ++ str_nat (count_under "scripts/" files_created) ++ " files)";
      "├── README.md           # Project overview";
      "└── .gitignore          # Git ignore rules";
      "";
      "📋 EXPORTED FILES:";
      py_join nl (map (fun file => "  • " ++ file) (sorted files_created));
      "";
      "🚀 NEXT STEPS:";
      "1. Navigate to the '" ++ output_directory ++ "' folder";
      "2. Review README.md for project overview";
      "3. Check docs/ folder for detailed documentation";
      "4. Follow implementation plan for development";
      "5. Use deployment guide for production setup";
      "";
      "💡 TIP: You can now work with these files in your preferred IDE!";
      rule80;
      "" ].

(** What the export finds outside: whether moving an existing directory
    away and creating the folders (server.py:1441-1458) went through,
    whether creating the k-th file and writing it did, and the two clock
    readings. *)
Record ExportEnv : Type := mkExportEnv {
  prepared : completion unit;
  written : nat -> completion unit;
  readme_time : string;
  export_time : string
}.

(** The text the export returns and the files it wrote, in order. *)
Record Exported : Type := mkExported {
  export_returned : string;
  export_written : list (string * string)
}.

(** The writes, one after the other, up to the first that raises. *)
Fixpoint write_all (written : nat -> completion unit) (k : nat)
    (files : list (string * string))
    : list (string * string) * option string :=
  match files with
  | [] => ([], None)
  | file :: rest =>
      match written k with
      | Raised e => ([], Some e)
      | Returned _ =>
          let '(done, failure) := write_all written (S k) rest in
          (file :: done, failure)
      end
  end.

(** The files of a complete export: modules, documents, the README that
    lists them, and the ignore file. *)
Definition export_plan (st : ProjectState) (env : ExportEnv)
    (output_directory : string) : list (string * string) :=
  let listed := (module_files st ++ doc_files st)%list in
  (listed
   ++ [ ("README.md",
         readme_content st output_directory (map fst listed)
                        (readme_time env));
        (".gitignore", gitignore_content) ])%list.

Definition export_project_files (st : ProjectState) (env : ExportEnv)
    (output_directory : string) (include_docs : bool) : Exported :=
  if negb (truthy (current_project st)) then
    mkExported "❌ No active project to export. Run orchestrator() first to generate a project." []
  else
    match prepared env with
    | Raised e => mkExported ("❌ Export failed: " ++ e) []
    | Returned _ =>
        let '(done, failure) :=
          write_all (written env) 0 (export_plan st env output_directory) in
        match failure with
        | Some e => mkExported ("❌ Export failed: " ++ e) done
        | None =>
            mkExported (export_summary st output_directory (map fst done)
                                       (export_time env))
                       done
        end
    end.

(** Sample states and environments for the status tools and the export. *)
Definition disk_ok : ExportEnv :=
  mkExportEnv (Returned tt) (fun _ => Returned tt) "2025-01-02 10:00:00"
              "2025-01-02 10:00:01".

Definition delivered_state : ProjectState :=
  mkState (Some "Build a chat app") (Some "Users can chat.") (Some "draft")
          None None
          [ ("auth", "from flask import Flask");
            ("ChatWindow", "import React from 'react'");
            ("test_auth", "python unit tests") ]
          None None.

(** ** Reading paths *)

Fixpoint has_slash (s : string) : bool :=
  match s with
  | EmptyString => false
  | String c rest => Ascii.eqb c "/" || has_slash rest
  end.

(** The module names of a state are single path components. *)
Definition plain_names (st : ProjectState) : Prop :=
  Forall (fun module_name => has_slash module_name = false)
         (keys (code_modules st)).

(** The text after the last slash of a path, and the text before it. *)
Fixpoint basename (p : string) : string :=
  match p with
  | EmptyString => EmptyString
  | String c rest =>
      if has_slash rest then basename rest
      else if Ascii.eqb c "/" then rest else p
  end.

Fixpoint dirname (p : string) : string :=
  match p with
  | EmptyString => EmptyString
  | String c rest =>
      if has_slash rest then String c (dirname rest) else EmptyString
  end.

(** The modules written outside any folder. *)
Definition top_level_modules (st : ProjectState) : nat :=
  length (filter (fun m => snd (module_target (fst m) (snd m)) =? "")
                 (code_modules st)).

(** An environment in which the write of the fourth file raises. *)
Definition disk_full_at_fourth : ExportEnv :=
  mkExportEnv (Returned tt)
              (fun k => match k with
                        | 3 => Raised "[Errno 28] No space left on device"
                        | _ => Returned tt
                        end)
              "2025-01-02 10:00:00" "2025-01-02 10:00:01".

(** A field after a tool that stores its reply: the reply when the text
    generation returned, the old value otherwise. *)
Definition on_reply (env : StepEnv) (old : option string) : option string :=
  match gemini_reply env with
  | Returned text => Some text
  | Raised _ => old
  end.

(** The paths the export writes besides the module files. *)
Definition fixed_paths : list string :=
  [ "docs/requirements.md"; "docs/architecture.md";
    "docs/implementation_plan.md"; "docs/deployment.md"; "README.md";
    ".gitignore" ].

(** ** Properties of the dictionaries *)

Lemma dict_get_set {V : Type} (k k' : string) (v : V) (d : dict V) :
  dict_get k (dict_set k' v d) = if k =? k' then Some v else dict_get k d.
Proof.
  induction d as [|[k0 v0] d IH]; simpl.
  - destruct (k =? k'); reflexivity.
  - destruct (k' =? k0) eqn:E0; simpl.
    + apply String.eqb_eq in E0; subst k0.
      destruct (k =? k'); reflexivity.
    + destruct (k =? k0) eqn:E1.
      * apply String.eqb_eq in E1; subst k0.
        destruct (k =? k') eqn:E2; [|reflexivity].
        apply String.eqb_eq in E2; subst k'.
        rewrite String.eqb_refl in E0; discriminate.
      * exact IH.
Qed.

Lemma keys_dict_set_in {V : Type} (k k' : string) (v : V) (d : dict V) :
  In k (keys (dict_set k' v d)) <-> k = k' \/ In k (keys d).
Proof.
  induction d as [|[k0 v0] d IH]; simpl.
  - intuition.
  - destruct (k' =? k0) eqn:E0; simpl.
    + apply String.eqb_eq in E0; subst k0. intuition.
    + unfold keys in IH. rewrite IH. intuition.
Qed.

Lemma keys_dict_set_nodup {V : Type} (k : string) (v : V) (d : dict V) :
  NoDup (keys d) -> NoDup (keys (dict_set k v d)).
Proof.
  induction d as [|[k0 v0] d IH]; simpl; intros H.
  - constructor; [intros []|constructor].
  - inversion H as [|? ? Hnot Hd]; subst.
    destruct (k =? k0) eqn:E0; simpl.
    + apply String.eqb_eq in E0; subst k0. constructor; assumption.
    + constructor; [|apply IH; exact Hd].
      intros Hin. apply (keys_dict_set_in k0 k v d) in Hin.
      destruct Hin as [->|Hin]; [|exact (Hnot Hin)].
      rewrite String.eqb_refl in E0; discriminate.
Qed.

Lemma dict_set_length {V : Type} (k : string) (v : V) (d : dict V) :
  length d <= length (dict_set k v d) <= S (length d).
Proof.
  induction d as [|[k0 v0] d IH]; simpl; [lia|].
  destruct (k =? k0); simpl; lia.
Qed.

(** ** Properties of the ledger *)

Lemma ledger_of_snoc (atts : list Attempt) (a : Attempt) (d : dict string) :
  ledger_of (atts ++ [a]) d
  = dict_set (attempt_agent a) (recorded a) (ledger_of atts d).
Proof. unfold ledger_of. rewrite fold_left_app. reflexivity. Qed.

Lemma last_attempt_of_snoc (k : string) (atts : list Attempt) (a : Attempt) :
  last_attempt_of k (atts ++ [a])
  = if k =? attempt_agent a then Some a else last_attempt_of k atts.
Proof. unfold last_attempt_of. rewrite rev_app_distr. reflexivity. Qed.

Lemma ledger_lookup (k : string) (atts : list Attempt) :
  dict_get k (ledger_of atts [])
  = option_map recorded (last_attempt_of k atts).
Proof.
  induction atts as [|a atts IH] using rev_ind.
  - reflexivity.
  - rewrite ledger_of_snoc, last_attempt_of_snoc, dict_get_set.
    destruct (k =? attempt_agent a); [reflexivity|exact IH].
Qed.

Lemma ledger_keys_nodup (atts : list Attempt) :
  NoDup (keys (ledger_of atts [])).
Proof.
  induction atts as [|a atts IH] using rev_ind.
  - constructor.
  - rewrite ledger_of_snoc. apply keys_dict_set_nodup, IH.
Qed.

Lemma ledger_keys_in (k : string) (atts : list Attempt) :
  In k (keys (ledger_of atts [])) <-> In k (map attempt_agent atts).
Proof.
  induction atts as [|a atts IH] using rev_ind.
  - simpl. tauto.
  - rewrite ledger_of_snoc, keys_dict_set_in, map_app, in_app_iff, IH.
    simpl. intuition.
Qed.

Lemma ledger_length (atts : list Attempt) :
  length (ledger_of atts []) <= length atts.
Proof.
  induction atts as [|a atts IH] using rev_ind.
  - simpl. lia.
  - rewrite ledger_of_snoc, length_app. simpl.
    pose proof (dict_set_length (attempt_agent a) (recorded a)
                                (ledger_of atts [])).
    lia.
Qed.

Lemma returned_texts_snoc (atts : list Attempt) (a : Attempt) :
  returned_texts (atts ++ [a])
  = (returned_texts atts
     ++ match attempt_completion a with
        | Returned result => [result]
        | Raised _ => []
        end)%list.
Proof.
  unfold returned_texts. rewrite flat_map_app. simpl.
  rewrite app_nil_r. reflexivity.
Qed.

(** ** Properties of the workflow loop *)

Lemma execute_step_eq ga ur env i acc s :
  execute_step ga ur env i acc s
  = mkExec (state_after ga ur env (exec_state acc) s)
           (plan_summary acc
            ++ step_report (attempt_of ga ur env i (exec_state acc) s))
           (dict_set (agent_name_of s)
                     (recorded (attempt_of ga ur env i (exec_state acc) s))
                     (results acc))
           (workflow_outputs acc
            ++ returned_texts [attempt_of ga ur env i (exec_state acc) s])
           (attempts acc ++ [attempt_of ga ur env i (exec_state acc) s]).
Proof.
  unfold execute_step, attempt_of, state_after, step_report, recorded,
    returned_texts, agent_name_of, step_num_of.
  destruct (run_agent ga (or_default (agent s) "") (parameters s) ur
                      (exec_state acc) env) as [call [outcome st]].
  destruct outcome; simpl; rewrite <- ?app_assoc, ?app_nil_r; reflexivity.
Qed.

Lemma attempt_of_matches ga ur env i st s :
  attempt_matches ur (attempt_of ga ur env i st s) s.
Proof.
  unfold attempt_matches, attempt_of, run_agent. simpl.
  destruct (dispatch (agent_name_of s) (parameters s) ur); simpl;
    repeat split; congruence.
Qed.

Lemma execute_workflow_app ga ur envs pre post : forall i acc,
  execute_workflow ga ur envs i acc (pre ++ post)
  = execute_workflow ga ur envs (i + length pre)
      (execute_workflow ga ur envs i acc pre) post.
Proof.
  induction pre as [|s pre IH]; intros i acc; simpl.
  - rewrite Nat.add_0_r. reflexivity.
  - rewrite IH. f_equal. lia.
Qed.

(** What the loop adds to its variables, in terms of the attempts made. *)
Lemma execute_workflow_spec ga ur envs steps : forall i acc,
  exists new : list Attempt,
    let ex := execute_workflow ga ur envs i acc steps in
    attempts ex = (attempts acc ++ new)%list /\
    map position new = seq i (length steps) /\
    Forall2 (attempt_matches ur) new steps /\
    plan_summary ex = (plan_summary acc ++ flat_map step_report new)%list /\
    results ex = ledger_of new (results acc) /\
    workflow_outputs ex = (workflow_outputs acc ++ returned_texts new)%list.
Proof.
  induction steps as [|s steps IH]; intros i acc.
  - exists []. simpl. rewrite !app_nil_r. repeat split. constructor.
  - specialize (IH (S i) (execute_step ga ur (envs i) i acc s)).
    cbn [execute_workflow].
    set (a := attempt_of ga ur (envs i) i (exec_state acc) s).
    destruct IH as (new & Ha & Hp & Hm & Hs & Hr & Ho).
    exists (a :: new). cbv zeta.
    rewrite Ha, Hs, Hr, Ho, execute_step_eq.
    cbn [attempts plan_summary results workflow_outputs].
    fold a. rewrite <- !app_assoc.
    repeat split.
    + cbn [map seq length]. rewrite Hp. reflexivity.
    + constructor; [apply attempt_of_matches|exact Hm].
    + unfold returned_texts. cbn [flat_map]. rewrite app_nil_r.
      reflexivity.
Qed.

Lemma Forall2_map_eq {A B C : Type} (f : A -> C) (g : B -> C)
    (R : A -> B -> Prop) (l : list A) (l' : list B) :
  (forall a b, R a b -> f a = g b) ->
  Forall2 R l l' -> map f l = map g l'.
Proof.
  intros H HF. induction HF; simpl; [reflexivity|].
  f_equal; [apply H; assumption|assumption].
Qed.

(** The loop entered with empty [results], [workflow_outputs] and
    attempts. *)
Lemma execute_workflow_fresh ga ur envs st shown steps :
  let ex := execute_workflow ga ur envs 0 (mkExec st shown [] [] []) steps in
  map position (attempts ex) = seq 0 (length steps) /\
  Forall2 (attempt_matches ur) (attempts ex) steps /\
  plan_summary ex = (shown ++ flat_map step_report (attempts ex))%list /\
  results ex = ledger_of (attempts ex) [] /\
  workflow_outputs ex = returned_texts (attempts ex).
Proof.
  destruct (execute_workflow_spec ga ur envs steps 0
              (mkExec st shown [] [] []))
    as (new & Ha & Hp & Hm & Hs & Hr & Ho).
  simpl in *. rewrite Ha. repeat split; assumption.
Qed.

(** ** Properties of the specialists *)

Ltac unfold_tools :=
  unfold invoke, product_analyst, research_engineer, software_architect,
    technical_lead, senior_developer, qa_engineer, devops_engineer,
    documentation_specialist.

(** Case analysis on what a tool reads: the flag, the three state fields it
    may slice and the reply of the text generation. *)
Ltac tool_cases ga st env :=
  destruct ga; cbn [negb];
  repeat match goal with
         | |- context [slice_opt _ (?field st)] =>
             destruct (field st); cbn [slice_opt]
         end;
  try destruct (gemini_reply env).

(** No tool writes ["tech_stack"] or ["testing_results"]. *)
Lemma invoke_frame ga c st env :
  tech_stack (snd (invoke ga c st env)) = tech_stack st /\
  testing_results (snd (invoke ga c st env)) = testing_results st.
Proof.
  destruct c; unfold_tools; tool_cases ga st env; split; reflexivity.
Qed.

(** A tool that raises has not written the state. *)
Lemma invoke_raised_state ga c st env e :
  fst (invoke ga c st env) = Raised e -> snd (invoke ga c st env) = st.
Proof.
  destruct c; unfold_tools; tool_cases ga st env; intros H;
    try reflexivity; cbv in H; discriminate H.
Qed.

(** When the text generation raises, a tool either has raised before
    reaching it or returns its error text; the state is untouched. *)
Lemma invoke_generation_failure c st env e :
  gemini_reply env = Raised e ->
  invoke true c st env = (Returned (error_return c e), st) \/
  invoke true c st env
  = (Raised "'NoneType' object is not subscriptable", st).
Proof.
  intros H. destruct c; unfold_tools; cbn [negb]; rewrite H;
    repeat match goal with
           | |- context [slice_opt _ (?field st)] =>
               destruct (field st); cbn [slice_opt]
           end;
    (left; reflexivity) || (right; reflexivity).
Qed.

Lemma state_after_frame ga ur env st s :
  tech_stack (state_after ga ur env st s) = tech_stack st /\
  testing_results (state_after ga ur env st s) = testing_results st.
Proof.
  unfold state_after, run_agent.
  destruct (dispatch (agent_name_of s) (parameters s) ur) as [c|]; simpl.
  - apply invoke_frame.
  - split; reflexivity.
Qed.

Lemma execute_workflow_frame ga ur envs steps : forall i acc,
  tech_stack (exec_state (execute_workflow ga ur envs i acc steps))
  = tech_stack (exec_state acc) /\
  testing_results (exec_state (execute_workflow ga ur envs i acc steps))
  = testing_results (exec_state acc).
Proof.
  induction steps as [|s steps IH]; intros i acc; simpl.
  - split; reflexivity.
  - destruct (IH (S i) (execute_step ga ur (envs i) i acc s)) as [H1 H2].
    rewrite H1, H2, execute_step_eq. simpl. apply state_after_frame.
Qed.

Lemma orchestrator_frame ga st w ur ae em :
  tech_stack (final_state (orchestrator ga st w ur ae em)) = tech_stack st /\
  testing_results (final_state (orchestrator ga st w ur ae em))
  = testing_results st.
Proof.
  unfold orchestrator. destruct ga; simpl; [|split; reflexivity].
  destruct (planning w) as [e|t|plan]; simpl; try (split; reflexivity).
  destruct ae; simpl; [|split; reflexivity].
  unfold execute_plan.
  destruct (execute_workflow_frame true ur (step_env w) (team_workflow plan) 0
              (mkExec (start_project ur st)
                      (plan_overview plan (start_time w) ++ [executing_banner])
                      [] [] [])) as [H1 H2].
  rewrite H1, H2. split; reflexivity.
Qed.

(** In every reachable state the two fields nothing writes are empty. *)
Lemma reachable_unwritten ga st :
  reachable ga st -> tech_stack st = None /\ testing_results st = None.
Proof.
  induction 1 as [|st c env _ [IH1 IH2]|st w ur ae em _ [IH1 IH2]|st _ _].
  - split; reflexivity.
  - destruct (invoke_frame ga c st env) as [H1 H2].
    rewrite H1, H2. split; assumption.
  - destruct (orchestrator_frame ga st w ur ae em) as [H1 H2].
    rewrite H1, H2. split; assumption.
  - split; reflexivity.
Qed.

Lemma start_project_fields ur st :
  start_project ur st
  = mkState (Some ur) None None (tech_stack st) None []
            (testing_results st) None.
Proof. reflexivity. Qed.

Lemma start_project_reachable ga ur st :
  reachable ga st -> start_project ur st = started_state ur.
Proof.
  intros H. destruct (reachable_unwritten ga st H) as [H1 H2].
  rewrite start_project_fields, H1, H2. reflexivity.
Qed.

(** ** A run written out *)

(** The text returned for a one-step plan whose tool raises and whose
    summary generation raises as well, line by line; the results then hold
    one entry and the outputs none. *)
Example run_with_failures_text :
  returned
    (orchestrator true project_state
       (mkWorld (PlanningOk plan_developer_only) "2025-01-01 08:59:00"
                (fun _ => replying "code") (Raised "quota exceeded")
                "2025-01-01 09:05:00")
       "Build a todo app" true "full")
  = py_join nl
      [ "";
        rule80;
        "🎯 ORCHESTRATOR - AI SOFTWARE ENGINEERING TEAM";
        rule80;
        "📅 Project Start: 2025-01-01 08:59:00";
        "🏢 Project: Chat";
        "📊 Complexity: SIMPLE";
        "⏱️ Estimated Time: Unknown";
        "";
        "📋 PROJECT ANALYSIS:";
        "No analysis provided";
        "";
        "✅ SUCCESS CRITERIA:";
        "";
        "";
        "🔧 TEAM WORKFLOW (1 steps):";
        "";
        "  Step 1: SENIOR DEVELOPER";
        "    ⏱️  Time: Unknown";
        "    💡 Reason: No reason provided";
        "";
        "";
        rule80;
        "🚀 EXECUTING TEAM WORKFLOW";
        rule80;
        "";
        dash80;
        "▶️  STEP 1: SENIOR DEVELOPER";
        dash80;
        "❌ Error executing senior_developer: 'NoneType' object is not subscriptable";
        "";
        "";
        "❌ Error generating summary: quota exceeded";
        "";
        rule80;
        "✅ PROJECT COMPLETE";
        rule80;
        "📅 Completed: 2025-01-01 09:05:00";
        "👥 Team Members Involved: 1";
        "📦 Artifacts Generated: 0";
        "";
        "💡 All detailed outputs are available above. Scroll up to see complete deliverables from each team member.";
        "" ].
Proof. vm_compute. reflexivity. Qed.

(** The state a successful run leaves: the architect's reply is the
    architecture, the developer's reply the module. *)
Example earlier_state_fields :
  earlier_state
  = mkState (Some "Build a chat app") None (Some "draft") None None
            [("main_module", "draft")] None None.
Proof. reflexivity. Qed.

(** ** The reset operations *)

(** C9.  The reset is idempotent: from every state, [reset_project] run
    twice in a row leaves the same empty state (and gives the same message)
    as [reset_project] run once. *)
Theorem reset_project_idempotent (st : ProjectState) :
  reset_project (snd (reset_project st)) = reset_project st /\
  snd (reset_project st) = project_state.
Proof. split; reflexivity. Qed.

(** C5, as the claim states it, fails: a plan-only call on the state left
    by an earlier run does not leave every field empty, the project name
    being set to the new request. *)
Lemma run_start_sets_current_project :
  current_project (start_project "Build a todo app" earlier_state)
  = Some "Build a todo app" /\
  final_state (orchestrator true earlier_state
                 (world_of (PlanningOk plan_same_agent)
                           (fun _ => replying "spec"))
                 "Build a todo app" false "full")
  <> project_state.
Proof. split; [reflexivity|discriminate]. Qed.

(** C5, amended.  In every state the server can reach, the reset at the
    start of a run sets the project name to the request and leaves every
    other field empty, the module mapping included; a run therefore behaves
    as if started on the initial state, nothing of an earlier run being
    merged; and the explicit reset empties all eight fields. *)
Theorem run_start_reset (st : ProjectState) (w : World)
    (user_request : string) (auto_execute : bool) (execution_mode : string) :
  reachable true st ->
  start_project user_request st
  = mkState (Some user_request) None None None None [] None None /\
  orchestrator true st w user_request auto_execute execution_mode
  = orchestrator true project_state w user_request auto_execute
                 execution_mode /\
  snd (reset_project st) = project_state.
Proof.
  intros H. pose proof (start_project_reachable true user_request st H) as E.
  split; [exact E|]. split; [|reflexivity].
  unfold orchestrator. cbn [negb]. rewrite E. reflexivity.
Qed.

Lemma run_start_reset_witness :
  reachable true earlier_state /\
  code_modules earlier_state = [("main_module", "draft")] /\
  code_modules (start_project "Build a todo app" earlier_state) = [] /\
  start_project "Build a todo app" earlier_state
  = mkState (Some "Build a todo app") None None None None [] None None.
Proof.
  assert (R : reachable true earlier_state)
    by apply reach_orchestrator, reach_start.
  split; [exact R|]. split; [reflexivity|]. split; [reflexivity|].
  apply (run_start_reset earlier_state earlier_world "Build a todo app"
                         true "full" R).
Defined.

(** ** Properties of text *)

(** Each entry of [upper_table] is for one code point outside ASCII, and
    [upper] maps it to its image. *)
Lemma upper_table_entries :
  forallb (fun entry =>
             (1 <? String.length (fst entry))%nat
             && (py_len (fst entry) =? 1)%nat
             && String.eqb (upper (fst entry)) (snd entry))
          upper_table
  = true.
Proof. vm_compute. reflexivity. Qed.

Example upper_written_out :
  upper "moderate" = "MODERATE" /\
  upper "product_analyst" = "PRODUCT_ANALYST" /\
  upper "élevée" = "ÉLEVÉE" /\
  upper "straße" = "STRASSE" /\
  upper "中等 n°2" = "中等 N°2".
Proof. vm_compute. repeat split. Qed.

Lemma append_assoc (a b c : string) : (a ++ b) ++ c = a ++ b ++ c.
Proof.
  induction a as [|x a IH]; simpl; [reflexivity|].
  rewrite IH. reflexivity.
Qed.

Lemma append_empty (a : string) : a ++ "" = a.
Proof.
  induction a as [|x a IH]; simpl; [reflexivity|].
  rewrite IH. reflexivity.
Qed.

Lemma concat_cons (x : string) (l : list string) :
  String.concat "" (x :: l) = x ++ String.concat "" l.
Proof. destruct l; simpl; [rewrite append_empty|]; reflexivity. Qed.

Lemma concat_app (l1 l2 : list string) :
  String.concat "" (l1 ++ l2) = String.concat "" l1 ++ String.concat "" l2.
Proof.
  induction l1 as [|x l1 IH]; [reflexivity|].
  rewrite <- app_comm_cons, !concat_cons, IH, append_assoc. reflexivity.
Qed.

Lemma concat_flat_map {A : Type} (f : A -> list string) (l : list A) :
  String.concat "" (flat_map f l)
  = String.concat "" (map (fun a => String.concat "" (f a)) l).
Proof.
  induction l as [|a l IH]; [reflexivity|].
  cbn [flat_map map]. rewrite concat_app, concat_cons, IH. reflexivity.
Qed.

(** The header of the plan display, line by line. *)
Lemma plan_header_lines (plan : Plan) (started : string) :
  plan_header plan started
  = py_join nl
      [ "";
        rule80;
        "🎯 ORCHESTRATOR - AI SOFTWARE ENGINEERING TEAM";
        rule80;
        "📅 Project Start: " ++ started;
        "🏢 Project: " ++ or_default (project_name plan) "Unnamed Project";
        "📊 Complexity: " ++ upper (or_default (complexity plan) "Unknown");
        "⏱️ Estimated Time: "
        ++ or_default (estimated_total_time plan) "Unknown";
        "";
        "📋 PROJECT ANALYSIS:";
        or_default (analysis plan) "No analysis provided";
        "";
        "✅ SUCCESS CRITERIA:";
        py_join nl (map (fun criteria => "  • " ++ criteria)
                        (success_criteria plan));
        "";
        "🔧 TEAM WORKFLOW (" ++ str_nat (length (team_workflow plan))
        ++ " steps):";
        "" ].
Proof.
  unfold plan_header, py_join. cbn [String.concat].
  rewrite !append_assoc. reflexivity.
Qed.

(** ** Planning failures and plan-only calls *)

(** C6, as the claim states it, fails: when the planner's reply cannot be
    used, the state is not what it was before the call, the reset having
    run first. *)
Lemma planning_failure_changes_state :
  architecture earlier_state = Some "draft" /\
  architecture
    (final_state (orchestrator true earlier_state
                    (world_of (PlanningNoJson "I cannot help with that.")
                              (fun _ => replying "spec"))
                    "Build a todo app" true "full"))
  = None /\
  final_state (orchestrator true earlier_state
                 (world_of
                    (PlanningRaised
                       "Expecting property name enclosed in double quotes: line 1 column 2 (char 1)")
                           (fun _ => replying "spec"))
                 "Build a todo app" true "full")
  <> earlier_state.
Proof. repeat split; discriminate. Qed.

(** C6, amended.  When the planner raises, or its reply holds no JSON
    object, the call returns at once with the diagnostic naming the cause,
    no tool having been called; the state is the one the reset at the start
    of the run produced: the project name is the request, requirements,
    architecture, implementation plan, modules and deployment plan are
    empty, the two remaining fields are as before. *)
Theorem planning_failure_aborts (st : ProjectState) (started ended : string)
    (envs : nat -> StepEnv) (reply : completion string)
    (user_request : string) (auto_execute : bool) (execution_mode : string) :
  (forall e,
     orchestrator true st
       (mkWorld (PlanningRaised e) started envs reply ended)
       user_request auto_execute execution_mode
     = mkRun ("❌ Orchestrator Analysis Error: " ++ e)
             (start_project user_request st) [] [] []) /\
  (forall analysis_text,
     orchestrator true st
       (mkWorld (PlanningNoJson analysis_text) started envs reply ended)
       user_request auto_execute execution_mode
     = mkRun ("❌ Could not parse orchestrator analysis: " ++ analysis_text)
             (start_project user_request st) [] [] []) /\
  start_project user_request st
  = mkState (Some user_request) None None (tech_stack st) None []
            (testing_results st) None.
Proof. repeat split. Qed.

(** C10, as the claim states it, does not hold of every call.  Where the
    text generation is not available the call returns before the reset: the
    state is untouched, so that [current_project] is not the request, and
    what is returned is no plan summary.  Where the planner's reply cannot
    be used the call returns the diagnostic, not a plan summary. *)
Lemma plan_summary_needs_a_plan :
  (let run := orchestrator false project_state earlier_world
                "Build a todo app" false "full" in
   returned run
   = "❌ Orchestrator requires Gemini AI for intelligent coordination" /\
   final_state run = project_state /\
   current_project (final_state run) = None) /\
  returned (orchestrator true project_state
              (world_of (PlanningNoJson "I cannot help with that.")
                        (fun _ => replying "spec"))
              "Build a todo app" false "full")
  = "❌ Could not parse orchestrator analysis: I cannot help with that." /\
  returned (orchestrator true project_state
              (world_of (PlanningRaised "429 Resource has been exhausted")
                        (fun _ => replying "spec"))
              "Build a todo app" false "full")
  = "❌ Orchestrator Analysis Error: 429 Resource has been exhausted".
Proof. repeat split. Qed.

(** C10, amended.  A call with [auto_execute] unset calls no tool, whatever
    the request.  Without the text generation it returns the notice that
    the orchestrator requires it and leaves the state untouched.  With it,
    the state is the one the reset produced, whatever the planner did: the
    project name is the request, requirements, architecture, implementation
    plan, modules and deployment plan are empty, the two remaining fields
    are as before.  The text returned is then the diagnostic when the
    planning call raised or its reply held no JSON object; for a decoded
    plan it is the plan summary followed by the hint: the header lines
    (start time, project name, complexity in capitals, estimated time,
    analysis, success criteria, number of steps), one entry per step in
    list order (number, agent name in capitals with spaces for underscores,
    time, reason, and the steps it depends on if there are any), and the
    key modules if there are any. *)
Theorem plan_only_call (gemini_available : bool) (st : ProjectState)
    (w : World) (user_request execution_mode : string) :
  let run := orchestrator gemini_available st w user_request false
                          execution_mode in
  run_attempts run = [] /\
  final_state run
  = (if gemini_available
     then mkState (Some user_request) None None (tech_stack st) None []
                  (testing_results st) None
     else st) /\
  returned run
  = if gemini_available then
      match planning w with
      | PlanningRaised e => "❌ Orchestrator Analysis Error: " ++ e
      | PlanningNoJson analysis_text =>
          "❌ Could not parse orchestrator analysis: " ++ analysis_text
      | PlanningOk plan =>
          py_join nl
            [ "";
              rule80;
              "🎯 ORCHESTRATOR - AI SOFTWARE ENGINEERING TEAM";
              rule80;
              "📅 Project Start: " ++ start_time w;
              "🏢 Project: "
              ++ or_default (project_name plan) "Unnamed Project";
              "📊 Complexity: "
              ++ upper (or_default (complexity plan) "Unknown");
              "⏱️ Estimated Time: "
              ++ or_default (estimated_total_time plan) "Unknown";
              "";
              "📋 PROJECT ANALYSIS:";
              or_default (analysis plan) "No analysis provided";
              "";
              "✅ SUCCESS CRITERIA:";
              py_join nl (map (fun criteria => "  • " ++ criteria)
                              (success_criteria plan));
              "";
              "🔧 TEAM WORKFLOW (" ++ str_nat (length (team_workflow plan))
              ++ " steps):";
              "" ]
          ++ String.concat ""
               (map (fun step_info =>
                       nl ++ "  Step "
                       ++ str_int (or_default (step step_info) 0%Z) ++ ": "
                       ++ replace_underscore
                            (upper (or_default (agent step_info) "unknown"))
                       ++ nl ++ "    ⏱️  Time: "
                       ++ or_default (estimated_time step_info) "Unknown"
                       ++ nl ++ "    💡 Reason: "
                       ++ or_default (reason step_info) "No reason provided"
                       ++ match depends_on step_info with
                          | [] => ""
                          | depends =>
                              nl ++ "    🔗 Depends on steps: "
                              ++ py_join ", " (map str_int depends)
                          end
                       ++ nl)
                    (team_workflow plan))
          ++ match key_modules plan with
             | [] => ""
             | modules =>
                 nl ++ "📦 KEY MODULES TO IMPLEMENT:" ++ nl
                 ++ String.concat ""
                      (map (fun module => "  • " ++ module ++ nl) modules)
             end
          ++ nl ++ nl
          ++ "💡 Set auto_execute=True to execute this plan automatically."
      end
    else "❌ Orchestrator requires Gemini AI for intelligent coordination".
Proof.
  intros run. subst run. unfold orchestrator.
  destruct gemini_available; cbn [negb]; [|repeat split].
  destruct (planning w) as [e|analysis_text|plan]; [repeat split..|].
  split; [reflexivity|]. split; [reflexivity|].
  cbn [returned negb].
  unfold plan_overview.
  rewrite !concat_app, concat_flat_map, plan_header_lines.
  cbn [String.concat].
  rewrite !append_assoc.
  f_equal. f_equal.
  - f_equal. apply map_ext. intros step_info. unfold step_overview.
    destruct (depends_on step_info); cbn [app String.concat];
      rewrite ?append_assoc; reflexivity.
  - f_equal. unfold key_modules_overview.
    destruct (key_modules plan) as [|module modules]; [reflexivity|].
    rewrite concat_cons, !append_assoc. reflexivity.
Qed.

(** ** A full run *)

(** A run with the text generation available, a decoded plan and
    [auto_execute] set, in terms of the attempts it makes. *)
Lemma orchestrator_executes (st : ProjectState) (plan : Plan)
    (started ended : string) (envs : nat -> StepEnv)
    (reply : completion string) (user_request execution_mode : string) :
  let run := orchestrator true st
               (mkWorld (PlanningOk plan) started envs reply ended)
               user_request true execution_mode in
  let atts := run_attempts run in
  map position atts = seq 0 (length (team_workflow plan)) /\
  Forall2 (attempt_matches user_request) atts (team_workflow plan) /\
  run_results run = ledger_of atts [] /\
  run_outputs run = returned_texts atts /\
  returned run
  = String.concat ""
      ((plan_overview plan started ++ [executing_banner])
       ++ flat_map step_report atts
       ++ delivery_summary reply
          :: closing_lines (length (run_results run))
                           (length (run_outputs run)) ended).
Proof.
  unfold orchestrator, execute_plan.
  cbn [negb planning start_time step_env summary_reply end_time
       run_attempts run_results run_outputs returned].
  destruct (execute_workflow_fresh true user_request envs
              (start_project user_request st)
              (plan_overview plan started ++ [executing_banner])
              (team_workflow plan)) as (Hp & Hm & Hs & Hr & Ho).
  cbv zeta in *. repeat split; try assumption.
  rewrite Hs, <- app_assoc. reflexivity.
Qed.

(** C1, as the claim states it, fails: two steps for one agent share one
    entry of the results, the second overwriting the first; steps are run
    in the order listed, here step 2 before step 1; and a step whose tool
    raises leaves no entry in the outputs. *)
Lemma steps_share_entries_and_keep_list_order :
  (let run := orchestrator true project_state
                (world_of (PlanningOk plan_same_agent)
                          (fun i => replying (str_nat i)))
                "Build a todo app" true "full" in
   length (team_workflow plan_same_agent) = 2 /\
   map attempt_step (run_attempts run) = [1%Z; 2%Z] /\
   keys (run_results run) = ["product_analyst"] /\
   dict_get "product_analyst" (run_results run)
   = Some (report "🎯 PRODUCT ANALYST REPORT" "2025-01-01 09:00:00"
                  ["👤 Agent: Product Analyst AI"] "1"
                  "✅ Analysis Complete - Ready for Architecture Team")) /\
  map attempt_step
      (run_attempts
         (orchestrator true project_state
            (world_of (PlanningOk plan_listed_backwards)
                      (fun _ => replying "spec"))
            "Build a todo app" true "full"))
  = [2%Z; 1%Z] /\
  (let run := orchestrator true project_state
                (world_of (PlanningOk plan_developer_only)
                          (fun _ => replying "code"))
                "Build a todo app" true "full" in
   length (team_workflow plan_developer_only) = 1 /\
   run_outputs run = []).
Proof. repeat split. Qed.

(** C1, amended.  For every plan the run makes one pass over the steps in
    the order the plan lists them, attempting each step once whatever the
    others did: the attempts are at positions 0, 1, ... and carry the
    numbers and agent names of the steps in list order.  The results are
    kept per agent name: each name in the plan has one entry, which holds
    what the last step under that name produced; the outputs are the
    results of the steps whose tool did not raise, in order. *)
Theorem one_pass_in_plan_order (st : ProjectState) (plan : Plan)
    (started ended : string) (envs : nat -> StepEnv)
    (reply : completion string) (user_request execution_mode : string) :
  let run := orchestrator true st
               (mkWorld (PlanningOk plan) started envs reply ended)
               user_request true execution_mode in
  let atts := run_attempts run in
  map position atts = seq 0 (length (team_workflow plan)) /\
  map attempt_step atts = map step_num_of (team_workflow plan) /\
  map attempt_agent atts = map agent_name_of (team_workflow plan) /\
  NoDup (keys (run_results run)) /\
  (forall k, In k (keys (run_results run))
             <-> In k (map agent_name_of (team_workflow plan))) /\
  (forall k, dict_get k (run_results run)
             = option_map recorded (last_attempt_of k atts)) /\
  run_outputs run = returned_texts atts.
Proof.
  intros run atts.
  destruct (orchestrator_executes st plan started ended envs reply
              user_request execution_mode) as (Hp & Hm & Hr & Ho & _).
  fold run in Hp, Hm, Hr, Ho. fold atts in Hp, Hm, Hr, Ho.
  assert (Ha : map attempt_agent atts
               = map agent_name_of (team_workflow plan)).
  { apply Forall2_map_eq with (R := attempt_matches user_request);
      [|exact Hm].
    intros a b H. apply H. }
  repeat split; try assumption.
  - apply Forall2_map_eq with (R := attempt_matches user_request);
      [|exact Hm].
    intros a b H. apply H.
  - rewrite Hr. apply ledger_keys_nodup.
  - rewrite Hr, <- Ha. apply ledger_keys_in.
  - rewrite Hr, <- Ha. apply ledger_keys_in.
  - intros k. rewrite Hr. apply ledger_lookup.
Qed.

(** ** The report *)


(** ** Plans are not validated *)





(** ** Determinism *)

(** The text accumulated for the report does not feed back into the loop. *)
Lemma execute_workflow_summary_free ga ur envs steps : forall i acc acc',
  exec_state acc = exec_state acc' ->
  results acc = results acc' ->
  workflow_outputs acc = workflow_outputs acc' ->
  attempts acc = attempts acc' ->
  let ex := execute_workflow ga ur envs i acc steps in
  let ex' := execute_workflow ga ur envs i acc' steps in
  exec_state ex = exec_state ex' /\
  results ex = results ex' /\
  workflow_outputs ex = workflow_outputs ex' /\
  attempts ex = attempts ex'.
Proof.
  induction steps as [|s steps IH]; intros i acc acc' Hs Hr Ho Ha.
  - simpl. repeat split; assumption.
  - cbn [execute_workflow]. apply IH; rewrite !execute_step_eq;
      cbn [exec_state results workflow_outputs attempts];
      rewrite Hs, ?Hr, ?Ho, ?Ha; reflexivity.
Qed.

(** C8.  Two runs of the same plan for the same request, served the same
    tool environments, give the same results, the same outputs in the same
    order, the same attempts and the same final state, whatever the clock
    readings, the summary replies and the (reachable) states they start
    from. *)
Theorem runs_are_deterministic (st1 st2 : ProjectState) (plan : Plan)
    (envs : nat -> StepEnv) (user_request : string)
    (started1 started2 ended1 ended2 mode1 mode2 : string)
    (reply1 reply2 : completion string) :
  reachable true st1 ->
  reachable true st2 ->
  let run1 := orchestrator true st1
                (mkWorld (PlanningOk plan) started1 envs reply1 ended1)
                user_request true mode1 in
  let run2 := orchestrator true st2
                (mkWorld (PlanningOk plan) started2 envs reply2 ended2)
                user_request true mode2 in
  run_results run1 = run_results run2 /\
  run_outputs run1 = run_outputs run2 /\
  run_attempts run1 = run_attempts run2 /\
  final_state run1 = final_state run2.
Proof.
  intros H1 H2. unfold orchestrator, execute_plan.
  cbn [negb planning start_time step_env summary_reply end_time
       run_attempts run_results run_outputs final_state].
  rewrite (start_project_reachable true user_request st1 H1),
          (start_project_reachable true user_request st2 H2).
  cbv zeta.
  destruct (execute_workflow_summary_free true user_request envs
              (team_workflow plan) 0
              (mkExec (started_state user_request)
                      (plan_overview plan started1 ++ [executing_banner])
                      [] [] [])
              (mkExec (started_state user_request)
                      (plan_overview plan started2 ++ [executing_banner])
                      [] [] [])
              eq_refl eq_refl eq_refl eq_refl) as (Hs & Hr & Ho & Ha).
  repeat split; assumption.
Qed.

Lemma runs_are_deterministic_witness :
  reachable true project_state /\
  reachable true earlier_state /\
  final_state
    (orchestrator true project_state
       (mkWorld (PlanningOk earlier_plan) "2025-01-01 08:59:00"
                (fun _ => replying "draft") (Returned "Delivered.")
                "2025-01-01 09:05:00")
       "Build a chat app" true "full")
  = final_state
      (orchestrator true earlier_state
         (mkWorld (PlanningOk earlier_plan) "2025-03-01 10:00:00"
                  (fun _ => replying "draft") (Raised "quota exceeded")
                  "2025-03-01 10:20:00")
         "Build a chat app" true "custom").
Proof.
  assert (R1 : reachable true project_state) by apply reach_start.
  assert (R2 : reachable true earlier_state)
    by apply reach_orchestrator, reach_start.
  split; [exact R1|]. split; [exact R2|].
  apply (runs_are_deterministic project_state earlier_state earlier_plan
           (fun _ => replying "draft") "Build a chat app"
           "2025-01-01 08:59:00" "2025-03-01 10:00:00"
           "2025-01-01 09:05:00" "2025-03-01 10:20:00" "full" "custom"
           (Returned "Delivered.") (Raised "quota exceeded") R1 R2).
Defined.

(** ** Failures of single steps *)

Lemma worker_fails_completion ga ur env i st s c :
  worker_fails ga ur env st s c ->
  attempt_completion (attempt_of ga ur env i st s) = c.
Proof.
  intros [call e Hd Hi|call e Hd _ Hi];
    unfold attempt_of, run_agent; rewrite Hd; exact Hi.
Qed.

Lemma worker_fails_state ur env st s c :
  worker_fails true ur env st s c -> state_after true ur env st s = st.
Proof.
  intros [call e Hd Hi|call e Hd Hg Hi];
    unfold state_after, run_agent; rewrite Hd; cbn [snd].
  - apply invoke_raised_state with (e := e). exact Hi.
  - destruct (invoke_generation_failure call st env e Hg) as [E|E];
      rewrite E; reflexivity.
Qed.

Lemma execute_workflow_split ga ur envs acc pre s post :
  execute_workflow ga ur envs 0 acc (pre ++ s :: post)
  = execute_workflow ga ur envs (S (length pre))
      (execute_step ga ur (envs (length pre)) (length pre)
                    (execute_workflow ga ur envs 0 acc pre) s)
      post.
Proof. rewrite execute_workflow_app. reflexivity. Qed.

(** C2.  For every plan and every step in it whose worker fails, be it
    that the tool raises or that it returns its own error text: right after
    the step the results hold the failure under the step's agent name, the
    state is as before the step, the failure text is part of the report, and
    the loop goes on with the steps that follow, so that every position of
    the plan is attempted exactly once, in order. *)
Theorem step_failure_is_recorded_and_run_continues
    (user_request : string) (envs : nat -> StepEnv) (st : ProjectState)
    (shown : list string) (pre : list Step) (s : Step) (post : list Step)
    (c : completion string) :
  let start := mkExec st shown [] [] [] in
  let before := execute_workflow true user_request envs 0 start pre in
  let i := length pre in
  let after := execute_step true user_request (envs i) i before s in
  let final :=
    execute_workflow true user_request envs 0 start (pre ++ s :: post) in
  worker_fails true user_request (envs i) (exec_state before) s c ->
  dict_get (agent_name_of s) (results after)
  = Some (recorded_text (agent_name_of s) c) /\
  exec_state after = exec_state before /\
  In (status_text (agent_name_of s) c) (plan_summary final) /\
  final = execute_workflow true user_request envs (S i) after post /\
  map position (attempts final) = seq 0 (length (pre ++ s :: post)) /\
  map attempt_agent (attempts final)
  = map agent_name_of (pre ++ s :: post).
Proof.
  intros start before i after final Hf.
  assert (Hc := worker_fails_completion true user_request (envs i) i
                  (exec_state before) s c Hf).
  assert (Hfinal : final
                   = execute_workflow true user_request envs (S i) after post)
    by apply execute_workflow_split.
  assert (Hafter := execute_step_eq true user_request (envs i) i before s).
  fold after in Hafter.
  destruct (execute_workflow_fresh true user_request envs st shown
              (pre ++ s :: post)) as (Hp & Hm & _).
  fold start in Hp, Hm. fold final in Hp, Hm.
  split; [|split; [|split; [|split; [exact Hfinal|split; [exact Hp|]]]]].
  - rewrite Hafter. cbn [results]. rewrite dict_get_set, String.eqb_refl.
    unfold recorded. rewrite Hc. reflexivity.
  - rewrite Hafter. cbn [exec_state]. apply worker_fails_state with (c := c).
    exact Hf.
  - destruct (execute_workflow_spec true user_request envs post (S i) after)
      as (new & _ & _ & _ & Hs & _).
    cbv zeta in Hs. rewrite <- Hfinal in Hs. rewrite Hs, Hafter.
    cbn [plan_summary]. apply in_or_app. left. apply in_or_app. right.
    unfold step_report. rewrite Hc. right. left. reflexivity.
  - apply Forall2_map_eq with (R := attempt_matches user_request);
      [|exact Hm].
    intros a b H. apply H.
Qed.

Lemma step_failure_witness :
  let s := plain_step 1 "senior_developer" [] in
  let post := [plain_step 2 "product_analyst" []] in
  let start := mkExec (started_state "Build a todo app") [] [] [] [] in
  let c := Raised "'NoneType' object is not subscriptable" in
  worker_fails true "Build a todo app" (replying "code")
               (started_state "Build a todo app") s c /\
  dict_get "senior_developer"
           (results (execute_step true "Build a todo app" (replying "code")
                                  0 start s))
  = Some "❌ Error executing senior_developer: 'NoneType' object is not subscriptable" /\
  map position
      (attempts (execute_workflow true "Build a todo app"
                   (fun _ => replying "code") 0 start (s :: post)))
  = [0; 1].
Proof.
  intros s post start c.
  assert (F : worker_fails true "Build a todo app" (replying "code")
                (started_state "Build a todo app") s c).
  { apply fails_raising
      with (call := CallSeniorDeveloper "main_module"
                      "Implement according to architecture" "python");
      reflexivity. }
  split; [exact F|].
  pose proof (step_failure_is_recorded_and_run_continues
                "Build a todo app" (fun _ => replying "code")
                (started_state "Build a todo app") [] [] s post c F)
    as (Hr & _ & _ & _ & Hp & _).
  split; [exact Hr|exact Hp].
Defined.

(** ** Dependent steps *)






(** ** The tools one by one *)

Ltac slice_cases st :=
  repeat match goal with
         | |- context [slice_opt _ (?field st)] =>
             destruct (field st); cbn [slice_opt is_none orb]
         end.

Lemma invoke_state (c : Call) (st : ProjectState) (env : StepEnv) :
  snd (invoke true c st env)
  = if missing_context c st then st
    else match gemini_reply env with
         | Returned text => tool_write c text st
         | Raised _ => st
         end.
Proof.
  destruct c; unfold_tools; unfold missing_context; cbn [negb];
    slice_cases st; destruct (gemini_reply env); reflexivity.
Qed.

Lemma invoke_raises (c : Call) (st : ProjectState) (env : StepEnv)
    (e : string) :
  fst (invoke true c st env) = Raised e
  <-> missing_context c st = true /\ e = none_type_error.
Proof.
  destruct c; unfold_tools; unfold missing_context, none_type_error;
    cbn [negb]; slice_cases st; destruct (gemini_reply env); cbn [fst];
    split; try (intros [H1 H2]; subst); intros;
    try discriminate; try reflexivity;
    try (split; [reflexivity|congruence]).
Qed.

(** X1.  With the text generation available, a tool changes the state in
    one case only: none of the state fields it slices is [None] and the
    generation returns; it then stores the reply in its own field (the
    analyst also the project name, the developer under the module name) and
    nothing else, while the research engineer, the QA engineer and the
    documentation specialist store nothing at all. *)
Theorem tools_write_only_on_success (c : Call) (st : ProjectState)
    (env : StepEnv) :
  snd (invoke true c st env)
  = if missing_context c st then st
    else match gemini_reply env with
         | Returned text => tool_write c text st
         | Raised _ => st
         end.
Proof. exact (invoke_state c st env). Qed.

(** X2.  With the text generation available, a tool raises exactly when a
    state field it slices is [None]: the architecture for the developer,
    the QA engineer and the DevOps engineer; requirements, architecture or
    implementation plan for the documentation specialist; never for the
    other four.  What it raises is the TypeError of the slice. *)
Theorem tools_raise_on_missing_context (c : Call) (st : ProjectState)
    (env : StepEnv) (e : string) :
  fst (invoke true c st env) = Raised e
  <-> missing_context c st = true /\ e = none_type_error.
Proof. exact (invoke_raises c st env e). Qed.

(** Without the text generation every tool returns its notice and leaves
    the state alone. *)
Lemma invoke_without_gemini (c : Call) (st : ProjectState) (env : StepEnv) :
  exists notice, invoke false c st env = (Returned notice, st).
Proof. destruct c; eexists; reflexivity. Qed.

(** X3.  When the flag [GEMINI_AVAILABLE] is unset, no sequence of tool
    calls, orchestrator calls and resets ever moves the state away from the
    initial one. *)
Theorem without_gemini_nothing_changes (st : ProjectState) :
  reachable false st -> st = project_state.
Proof.
  induction 1 as [|st c env _ IH|st w ur ae em _ IH|st _ _].
  - reflexivity.
  - destruct (invoke_without_gemini c st env) as [notice E].
    rewrite E. exact IH.
  - exact IH.
  - reflexivity.
Qed.

Lemma without_gemini_witness :
  let st := final_state
              (orchestrator false
                 (snd (invoke false (CallProductAnalyst "Build a chat app" "")
                              project_state (replying "spec")))
                 earlier_world "Build a chat app" true "full") in
  reachable false st /\ st = project_state.
Proof.
  intros st.
  assert (R : reachable false st)
    by apply reach_orchestrator, reach_tool, reach_start.
  split; [exact R|exact (without_gemini_nothing_changes st R)].
Defined.

(** ** How a run fills the state *)

Ltac dispatch_cases name :=
  unfold dispatch;
  repeat match goal with
         | |- context [name =? ?k] =>
             destruct (String.eqb_spec name k) as [->|]
         end.

Lemma state_after_eq ur env st s :
  state_after true ur env st s
  = match dispatch (agent_name_of s) (parameters s) ur with
    | Some c => snd (invoke true c st env)
    | None => st
    end.
Proof.
  unfold state_after, run_agent.
  destruct (dispatch (agent_name_of s) (parameters s) ur); reflexivity.
Qed.

(** The fields one step of the loop leaves, by the agent it names. *)
Lemma state_after_fields ur env st s :
  let name := agent_name_of s in
  let st' := state_after true ur env st s in
  requirements st'
  = (if name =? "product_analyst" then on_reply env (requirements st)
     else requirements st) /\
  architecture st'
  = (if name =? "software_architect" then on_reply env (architecture st)
     else architecture st) /\
  implementation_plan st'
  = (if name =? "technical_lead" then on_reply env (implementation_plan st)
     else implementation_plan st) /\
  current_project st'
  = (if name =? "product_analyst" then
       match gemini_reply env with
       | Returned _ =>
           Some (get_or (str_params (parameters s)) "user_request" ur)
       | Raised _ => current_project st
       end
     else current_project st) /\
  code_modules st'
  = (if (name =? "senior_developer") && negb (is_none (architecture st)) then
       match gemini_reply env with
       | Returned text =>
           dict_set (get_or (str_params (parameters s)) "module_name"
                            "main_module") text (code_modules st)
       | Raised _ => code_modules st
       end
     else code_modules st) /\
  deployment_plan st'
  = (if (name =? "devops_engineer") && negb (is_none (architecture st)) then
       on_reply env (deployment_plan st)
     else deployment_plan st).
Proof.
  cbv zeta. rewrite state_after_eq. unfold on_reply.
  generalize (agent_name_of s) as name. intros name.
  destruct st as [cp rq ar ts ip cm tr dp].
  dispatch_cases name; rewrite ?invoke_state;
    unfold missing_context, tool_write;
    cbn [requirements architecture implementation_plan];
    destruct rq, ar, ip, (gemini_reply env); repeat split; reflexivity.
Qed.

Lemma execute_workflow_fields ur envs steps : forall i acc,
  let final := exec_state (execute_workflow true ur envs i acc steps) in
  requirements final
  = last_reply "product_analyst" envs i steps (requirements (exec_state acc))
  /\
  architecture final
  = last_reply "software_architect" envs i steps
               (architecture (exec_state acc)) /\
  implementation_plan final
  = last_reply "technical_lead" envs i steps
               (implementation_plan (exec_state acc)) /\
  current_project final
  = last_project ur envs i steps (current_project (exec_state acc)).
Proof.
  induction steps as [|s steps IH]; intros i acc.
  - repeat split.
  - cbn [execute_workflow last_reply last_project].
    specialize (IH (S i) (execute_step true ur (envs i) i acc s)).
    cbv zeta in IH. rewrite execute_step_eq in IH at 2 4 6 8.
    cbn [exec_state] in IH.
    destruct (state_after_fields ur (envs i) (exec_state acc) s)
      as (Hr & Ha & Hi & Hc & _).
    cbv zeta in Hr, Ha, Hi, Hc. unfold on_reply in Hr, Ha, Hi.
    rewrite Hr, Ha, Hi, Hc in IH. exact IH.
Qed.

(** X4.  After a run, requirements, architecture and implementation plan
    each hold the reply of the last step of the plan that names the product
    analyst, the software architect or the technical lead and whose text
    generation returned, and are [None] when the plan has no such step:
    neither the parameters of a step nor the outcome of any other step
    enter them. *)
Theorem run_state_is_last_successful_reply (st : ProjectState) (plan : Plan)
    (started ended : string) (envs : nat -> StepEnv)
    (reply : completion string) (user_request execution_mode : string) :
  let run := orchestrator true st
               (mkWorld (PlanningOk plan) started envs reply ended)
               user_request true execution_mode in
  requirements (final_state run)
  = last_reply "product_analyst" envs 0 (team_workflow plan) None /\
  architecture (final_state run)
  = last_reply "software_architect" envs 0 (team_workflow plan) None /\
  implementation_plan (final_state run)
  = last_reply "technical_lead" envs 0 (team_workflow plan) None.
Proof.
  unfold orchestrator, execute_plan.
  cbn [negb planning start_time step_env final_state].
  destruct (execute_workflow_fields user_request envs (team_workflow plan) 0
              (mkExec (start_project user_request st)
                      (plan_overview plan started ++ [executing_banner])
                      [] [] [])) as (Hr & Ha & Hi & _).
  repeat split; assumption.
Qed.

(** X5.  After a run the project name is the ["user_request"] argument of
    the last product analyst step whose text generation returned (the
    request itself where the step gives none), and the request passed to
    the orchestrator when no such step exists: a plan can rename the
    project. *)
Theorem run_project_name_is_last_analyst_request (st : ProjectState)
    (plan : Plan) (started ended : string) (envs : nat -> StepEnv)
    (reply : completion string) (user_request execution_mode : string) :
  current_project
    (final_state (orchestrator true st
                    (mkWorld (PlanningOk plan) started envs reply ended)
                    user_request true execution_mode))
  = last_project user_request envs 0 (team_workflow plan)
                 (Some user_request).
Proof.
  unfold orchestrator, execute_plan.
  cbn [negb planning start_time step_env final_state].
  destruct (execute_workflow_fields user_request envs (team_workflow plan) 0
              (mkExec (start_project user_request st)
                      (plan_overview plan started ++ [executing_banner])
                      [] [] [])) as (_ & _ & _ & Hc).
  exact Hc.
Qed.

(** ** Steps that need an architecture *)

Lemma dispatch_architecture_readers (p : Parameters) (ur : string) :
  dispatch "senior_developer" p ur
  = Some (CallSeniorDeveloper
            (get_or (str_params p) "module_name" "main_module")
            (get_or (str_params p) "specifications"
                    "Implement according to architecture")
            (get_or (str_params p) "language" "python")) /\
  dispatch "qa_engineer" p ur
  = Some (CallQaEngineer (get_or (str_params p) "module_name" "main_module")
                         (dict_get "code" (str_params p))
                         (get_or (str_params p) "test_type" "comprehensive"))
  /\
  dispatch "devops_engineer" p ur
  = Some (CallDevopsEngineer
            (get_or (str_params p) "environment" "production")
            (get_or (str_params p) "deployment_type" "cloud")).
Proof. repeat split. Qed.

Lemma attempt_needs_architecture ur env i st s :
  In (agent_name_of s) ["senior_developer"; "qa_engineer"; "devops_engineer"]
  ->
  (attempt_completion (attempt_of true ur env i st s)
   = Raised none_type_error
   <-> architecture st = None).
Proof.
  unfold attempt_of, run_agent. cbn [attempt_completion].
  destruct (dispatch_architecture_readers (parameters s) ur)
    as (D1 & D2 & D3).
  intros [H|[H|[H|[]]]]; rewrite <- H; rewrite ?D1, ?D2, ?D3; cbn [fst snd];
    rewrite invoke_raises; unfold missing_context;
    destruct (architecture st); cbn [is_none];
    intuition (try discriminate; try reflexivity).
Qed.

Lemma attempt_at_position ga ur envs st shown pre s post :
  nth_error
    (attempts (execute_workflow ga ur envs 0 (mkExec st shown [] [] [])
                                (pre ++ s :: post)))
    (length pre)
  = Some (attempt_of ga ur (envs (length pre)) (length pre)
            (exec_state (execute_workflow ga ur envs 0
                           (mkExec st shown [] [] []) pre))
            s).
Proof.
  rewrite execute_workflow_split.
  destruct (execute_workflow_spec ga ur envs post (S (length pre))
              (execute_step ga ur (envs (length pre)) (length pre)
                 (execute_workflow ga ur envs 0 (mkExec st shown [] [] [])
                                   pre) s))
    as (new & Ha & _).
  cbv zeta in Ha. rewrite Ha, execute_step_eq. cbn [attempts].
  destruct (execute_workflow_fresh ga ur envs st shown pre) as (Hp & _).
  assert (L : length (attempts (execute_workflow ga ur envs 0
                                  (mkExec st shown [] [] []) pre))
              = length pre).
  { apply (f_equal (@length nat)) in Hp.
    rewrite length_map, length_seq in Hp. exact Hp. }
  rewrite <- app_assoc, nth_error_app2 by (rewrite L; lia).
  rewrite L, Nat.sub_diag. reflexivity.
Qed.

(** X6.  In a run, a step that names the senior developer, the QA engineer
    or the DevOps engineer raises the TypeError of the architecture slice
    exactly when no software architect step listed before it had its text
    generation return; the [depends_on] entries of the plan have no part in
    it. *)
Theorem step_needs_an_earlier_architect (st : ProjectState) (plan : Plan)
    (started ended : string) (envs : nat -> StepEnv)
    (reply : completion string) (user_request execution_mode : string)
    (pre : list Step) (s : Step) (post : list Step) :
  team_workflow plan = (pre ++ s :: post)%list ->
  In (agent_name_of s) ["senior_developer"; "qa_engineer"; "devops_engineer"]
  ->
  let run := orchestrator true st
               (mkWorld (PlanningOk plan) started envs reply ended)
               user_request true execution_mode in
  (nth_error (map attempt_completion (run_attempts run)) (length pre)
   = Some (Raised none_type_error)
   <-> last_reply "software_architect" envs 0 pre None = None).
Proof.
  intros Hplan Hs. unfold orchestrator, execute_plan.
  cbn [negb planning start_time step_env run_attempts]. rewrite Hplan.
  rewrite nth_error_map, attempt_at_position. cbn [option_map].
  destruct (execute_workflow_fields user_request envs pre 0
              (mkExec (start_project user_request st)
                      (plan_overview plan started ++ [executing_banner])
                      [] [] [])) as (_ & Ha & _).
  cbv zeta in Ha.
  change (architecture
            (exec_state
               (mkExec (start_project user_request st)
                       (plan_overview plan started ++ [executing_banner])
                       [] [] [])))
    with (@None string) in Ha.
  rewrite <- Ha.
  rewrite <- (attempt_needs_architecture user_request
                (envs (length pre)) (length pre) _ s Hs).
  split; intros H; [injection H as H|rewrite H]; auto.
Qed.

Lemma step_needs_an_earlier_architect_witness :
  let run := orchestrator true project_state
               (world_of (PlanningOk plan_design_then_build)
                         (fun _ => replying "draft"))
               "Build a chat app" true "full" in
  team_workflow plan_design_then_build
  = ([] ++ plain_step 1 "senior_developer" []
        :: [ plain_step 2 "software_architect" [];
             plain_step 3 "devops_engineer" [2%Z] ])%list /\
  In (agent_name_of (plain_step 1 "senior_developer" []))
     ["senior_developer"; "qa_engineer"; "devops_engineer"] /\
  nth_error (map attempt_completion (run_attempts run)) 0
  = Some (Raised none_type_error).
Proof.
  intros run.
  assert (P : team_workflow plan_design_then_build
              = ([] ++ plain_step 1 "senior_developer" []
                    :: [ plain_step 2 "software_architect" [];
                         plain_step 3 "devops_engineer" [2%Z] ])%list)
    by reflexivity.
  assert (A : In (agent_name_of (plain_step 1 "senior_developer" []))
                 ["senior_developer"; "qa_engineer"; "devops_engineer"])
    by (left; reflexivity).
  split; [exact P|]. split; [exact A|].
  apply (step_needs_an_earlier_architect project_state plan_design_then_build
           "2025-01-01 08:59:00" "2025-01-01 09:05:00"
           (fun _ => replying "draft") (Returned "Delivered.")
           "Build a chat app" "full" [] _ _ P A).
  reflexivity.
Defined.

Lemma last_reply_found name envs steps : forall i text,
  last_reply name envs i steps (Some text) <> None.
Proof.
  induction steps as [|s steps IH]; intros i text; cbn [last_reply].
  - discriminate.
  - destruct (agent_name_of s =? name); [|apply IH].
    destruct (gemini_reply (envs i)); apply IH.
Qed.

Lemma execute_workflow_without_architecture ur envs steps : forall i acc,
  architecture (exec_state acc) = None ->
  last_reply "software_architect" envs i steps None = None ->
  let final := exec_state (execute_workflow true ur envs i acc steps) in
  code_modules final = code_modules (exec_state acc) /\
  deployment_plan final = deployment_plan (exec_state acc).
Proof.
  induction steps as [|s steps IH]; intros i acc Harch Hlast.
  - split; reflexivity.
  - cbn [execute_workflow last_reply] in *.
    destruct (state_after_fields ur (envs i) (exec_state acc) s)
      as (_ & Ha & _ & _ & Hm & Hd).
    cbv zeta in Ha, Hm, Hd. unfold on_reply in Ha, Hd.
    rewrite Harch in Ha, Hm, Hd. cbn [is_none negb] in Hm, Hd.
    rewrite andb_false_r in Hm, Hd.
    assert (Hnext : architecture
                      (exec_state (execute_step true ur (envs i) i acc s))
                    = None).
    { rewrite execute_step_eq. cbn [exec_state]. rewrite Ha.
      destruct (agent_name_of s =? "software_architect"); [|reflexivity].
      destruct (gemini_reply (envs i)) as [text|e]; [|reflexivity].
      exfalso. exact (last_reply_found _ _ _ _ _ Hlast). }
    assert (Hrest : last_reply "software_architect" envs (S i) steps None
                    = None).
    { destruct (agent_name_of s =? "software_architect"); [|exact Hlast].
      destruct (gemini_reply (envs i)) as [text|e]; [|exact Hlast].
      exfalso. exact (last_reply_found _ _ _ _ _ Hlast). }
    destruct (IH (S i) _ Hnext Hrest) as [H1 H2]. cbv zeta in H1, H2.
    rewrite H1, H2, execute_step_eq. cbn [exec_state].
    split; assumption.
Qed.

(** X7.  A run in which no software architect step has its text
    generation return stores no module and no deployment plan, whatever
    developer and DevOps steps the plan lists. *)
Theorem no_architect_no_modules (st : ProjectState) (plan : Plan)
    (started ended : string) (envs : nat -> StepEnv)
    (reply : completion string) (user_request execution_mode : string) :
  last_reply "software_architect" envs 0 (team_workflow plan) None = None ->
  let run := orchestrator true st
               (mkWorld (PlanningOk plan) started envs reply ended)
               user_request true execution_mode in
  code_modules (final_state run) = [] /\
  deployment_plan (final_state run) = None.
Proof.
  intros H. unfold orchestrator, execute_plan.
  cbn [negb planning start_time step_env final_state].
  apply (execute_workflow_without_architecture user_request envs
           (team_workflow plan) 0
           (mkExec (start_project user_request st)
                   (plan_overview plan started ++ [executing_banner])
                   [] [] []));
    [reflexivity|exact H].
Qed.

Lemma no_architect_no_modules_witness :
  let envs i := match i with
                | 1 => failing "429 quota exceeded"
                | _ => replying "draft"
                end in
  let run := orchestrator true earlier_state
               (world_of (PlanningOk plan_design_then_build) envs)
               "Build a chat app" true "full" in
  last_reply "software_architect" envs 0
             (team_workflow plan_design_then_build) None = None /\
  code_modules (final_state run) = [] /\
  deployment_plan (final_state run) = None.
Proof.
  intros envs run.
  assert (H : last_reply "software_architect" envs 0
                (team_workflow plan_design_then_build) None = None)
    by reflexivity.
  split; [exact H|].
  exact (no_architect_no_modules earlier_state plan_design_then_build
           "2025-01-01 08:59:00" "2025-01-01 09:05:00" envs
           (Returned "Delivered.") "Build a chat app" "full" H).
Defined.

(** ** Storing modules *)

Lemma keys_dict_set {V : Type} (k : string) (v : V) (d : dict V) :
  keys (dict_set k v d)
  = if existsb (String.eqb k) (keys d) then keys d else (keys d ++ [k])%list.
Proof.
  unfold keys. induction d as [|[k0 v0] d IH]; cbn [dict_set map fst existsb].
  - reflexivity.
  - destruct (k =? k0) eqn:E; cbn [map fst orb].
    + apply String.eqb_eq in E. subst k0. reflexivity.
    + rewrite IH.
      destruct (existsb (String.eqb k) (map fst d)); reflexivity.
Qed.

(** X8.  When the state has an architecture and the text generation
    returns, the senior developer stores the reply under the module name:
    looking that name up gives the reply, every other name gives what it
    gave before, a name already stored keeps its place in the order and a
    new one goes last; no other field changes. *)
Theorem developer_stores_the_module (st : ProjectState) (env : StepEnv)
    (module_name specifications language design text : string) :
  architecture st = Some design ->
  gemini_reply env = Returned text ->
  let st' := snd (senior_developer true st env module_name specifications
                                   language) in
  (forall k, dict_get k (code_modules st')
             = if k =? module_name then Some text
               else dict_get k (code_modules st)) /\
  keys (code_modules st')
  = (if existsb (String.eqb module_name) (keys (code_modules st))
     then keys (code_modules st)
     else (keys (code_modules st) ++ [module_name])%list) /\
  st' = set_code_modules (code_modules st') st.
Proof.
  intros Ha Hg. unfold senior_developer. cbn [negb].
  rewrite Ha, Hg. cbn [slice_opt snd code_modules set_code_modules].
  split; [|split].
  - intros k. apply dict_get_set.
  - apply keys_dict_set.
  - reflexivity.
Qed.

Lemma developer_stores_the_module_witness :
  let st' := snd (senior_developer true designed_state (replying "v2")
                                   "auth" "Login and sessions" "python") in
  architecture designed_state = Some "draft" /\
  gemini_reply (replying "v2") = Returned "v2" /\
  keys (code_modules st') = ["auth"; "chat"] /\
  dict_get "auth" (code_modules st') = Some "v2" /\
  dict_get "chat" (code_modules st') = Some "v1".
Proof.
  intros st'.
  destruct (developer_stores_the_module designed_state (replying "v2")
              "auth" "Login and sessions" "python" "draft" "v2"
              eq_refl eq_refl) as (Hget & Hkeys & _).
  fold st' in Hget, Hkeys.
  split; [reflexivity|]. split; [reflexivity|].
  split; [exact Hkeys|]. split; [exact (Hget "auth")|exact (Hget "chat")].
Defined.

(** ** The research engineer's searches *)

Lemma search_queries_length (topic : string) (focus_areas : list string) :
  length (search_queries topic focus_areas)
  = 3 + Nat.min 2 (length focus_areas).
Proof.
  unfold search_queries.
  rewrite length_app, length_map, length_firstn. reflexivity.
Qed.

Lemma sources_analyzed_first_four (env : StepEnv) (topic : string)
    (focus_areas : list string) :
  sources_analyzed env 0 (firstn 4 (search_queries topic focus_areas))
  = search_hits env 0 + search_hits env 1 + search_hits env 2
    + match focus_areas with
      | [] => 0
      | _ :: _ => search_hits env 3
      end.
Proof.
  unfold search_hits.
  destruct focus_areas as [|a [|b rest]]; cbn [search_queries firstn map app
    sources_analyzed];
    destruct (tavily_search env 0), (tavily_search env 1),
      (tavily_search env 2), (tavily_search env 3); lia.
Qed.

(** X9.  The research engineer builds three queries plus one for each of
    the first two focus areas and reports that number as the searches
    performed, but searches only the first four: the sources it reports are
    the hits of searches 0 to 2, plus those of search 3 when there is a
    focus area.  A search that raises counts for nothing and does not stop
    the tool; a fifth query is never searched. *)
Theorem research_engineer_searches (st : ProjectState)
    (generated text topic : string) (searches : nat -> completion nat)
    (focus_areas : list string) :
  let env := mkEnv (Returned text) generated searches in
  research_engineer true st env topic focus_areas
  = (Returned
       (report "🔍 RESEARCH ENGINEER REPORT" generated
               [ "👤 Agent: Research Engineer AI";
                 "🔎 Searches Performed: "
                 ++ str_nat (3 + Nat.min 2 (length focus_areas));
                 "📊 Sources Analyzed: "
                 ++ str_nat (search_hits env 0 + search_hits env 1
                             + search_hits env 2
                             + match focus_areas with
                               | [] => 0
                               | _ :: _ => search_hits env 3
                               end) ]
               text
               "✅ Research Complete - Ready for Architecture Design"),
     st).
Proof.
  intros env. unfold research_engineer. cbn [negb gemini_reply env now].
  rewrite search_queries_length, sources_analyzed_first_four.
  reflexivity.
Qed.

(** ** The preview of a result *)

Lemma py_len_append (s1 s2 : string) :
  py_len (s1 ++ s2) = py_len s1 + py_len s2.
Proof.
  induction s1 as [|c s1 IH]; simpl; [reflexivity|].
  destruct (is_continuation c); rewrite IH; reflexivity.
Qed.

Lemma py_len_take (n : nat) (s : string) :
  py_len (py_take n s) = Nat.min n (py_len s).
Proof.
  revert n. induction s as [|c s IH]; intros n; simpl.
  - rewrite Nat.min_0_r. reflexivity.
  - destruct (is_continuation c) eqn:E; simpl.
    + rewrite E. apply IH.
    + destruct n as [|n]; simpl; [reflexivity|].
      rewrite E, IH. reflexivity.
Qed.

(** X10.  The preview of a result shown in the report is the result itself
    when it has at most 800 code points, and otherwise its first 800 code
    points followed by three dots, 803 code points in all: a preview never
    has more than 803 code points. *)
Theorem result_preview_is_bounded (result : string) :
  py_len (result_preview result) <= 803 /\
  (py_len result <= 800 /\ result_preview result = result \/
   800 < py_len result /\
   result_preview result = py_take 800 result ++ "..." /\
   py_len (py_take 800 result) = 800 /\
   py_len (result_preview result) = 803).
Proof.
  unfold result_preview.
  destruct (800 <? py_len result)%nat eqn:E.
  - apply Nat.ltb_lt in E.
    assert (T : py_len (py_take 800 result) = 800).
    { rewrite py_len_take. apply Nat.min_l, Nat.lt_le_incl, E. }
    assert (L : py_len (py_take 800 result ++ "...") = 803).
    { rewrite py_len_append, T. reflexivity. }
    split; [lia|]. right. repeat split; assumption.
  - apply Nat.ltb_ge in E.
    split; [lia|]. left. split; [exact E|reflexivity].
Qed.

(** ** The status tools after a reset and after a run *)

Lemma plan_only_final_state st w ur em :
  final_state (orchestrator true st w ur false em) = start_project ur st.
Proof.
  unfold orchestrator. cbn [negb]. destruct (planning w); reflexivity.
Qed.

(** X11.  After [reset_project] the summary tool answers that there is no
    active project and the export refuses, writing nothing.  After an
    orchestrator call with [auto_execute] unset, whatever the planner did
    (a failed planning included), the summary names the request as the
    current project with no phase completed and no module, unless the
    request is the empty text, which counts as no project. *)
Theorem project_is_active_once_a_run_started (st : ProjectState) (w : World)
    (env : ExportEnv) (user_request execution_mode output_directory : string)
    (include_docs : bool) :
  get_project_summary (snd (reset_project st)) = no_active_project /\
  export_project_files (snd (reset_project st)) env output_directory
                       include_docs
  = mkExported "❌ No active project to export. Run orchestrator() first to generate a project." [] /\
  get_project_summary
    (final_state (orchestrator true st w user_request false execution_mode))
  = if user_request =? "" then no_active_project
    else
      py_join nl
        [ "";
          "🏗️ **CURRENT PROJECT SUMMARY**";
          py_repeat "=" 60;
          "";
          "📋 Project: " ++ user_request;
          "";
          "✅ Completed Phases:";
          "  • Requirements Analysis: ✗";
          "  • System Architecture: ✗";
          "  • Implementation Plan: ✗";
          "  • Code Modules: 0 implemented";
          "  • Deployment Plan: ✗";
          "";
          "📦 Available Artifacts:";
          "";
          "💡 Use individual team member tools to continue development!" ].
Proof.
  split; [reflexivity|]. split; [reflexivity|].
  rewrite plan_only_final_state.
  unfold get_project_summary.
  cbn [start_project set_current_project set_requirements set_architecture
       set_implementation_plan set_code_modules set_deployment_plan
       current_project requirements architecture implementation_plan
       code_modules deployment_plan truthy].
  destruct (user_request =? ""); cbn [negb]; [reflexivity|].
  unfold py_join. cbn [String.concat check_mark truthy str_opt length].
  rewrite !append_assoc. reflexivity.
Qed.

(** X12.  After a run, [team_status] and the REST status agree on every
    flag, and each flag tells what the run did: requirements, architecture
    and implementation plan are reported present exactly when a step of the
    product analyst, the software architect or the technical lead had its
    text generation return; the name reported is the project name the last
    such analyst step was given; the module count is the number of module
    names the REST status lists. *)
Theorem status_after_run (tavily_api_key : string) (st : ProjectState)
    (plan : Plan) (started ended : string) (envs : nat -> StepEnv)
    (reply : completion string) (user_request execution_mode : string) :
  let st' := final_state
               (orchestrator true st
                  (mkWorld (PlanningOk plan) started envs reply ended)
                  user_request true execution_mode) in
  let shown := status_current_project (team_status tavily_api_key true st') in
  let rest := get_project_status st' in
  let replied name :=
    negb (is_none (last_reply name envs 0 (team_workflow plan) None)) in
  (has_requirements shown = replied "product_analyst" /\
   has_architecture shown = replied "software_architect" /\
   has_implementation_plan shown = replied "technical_lead" /\
   status_name shown
   = last_project user_request envs 0 (team_workflow plan)
                  (Some user_request)) /\
  (rest_current_project rest = status_name shown /\
   rest_has_requirements rest = has_requirements shown /\
   rest_has_architecture rest = has_architecture shown /\
   rest_has_implementation_plan rest = has_implementation_plan shown /\
   rest_has_deployment_plan rest = has_deployment_plan shown /\
   rest_code_modules_count rest = code_modules_count shown /\
   rest_code_modules_count rest = length (rest_available_modules rest)).
Proof.
  intros st' shown rest replied.
  assert (F := execute_workflow_fields user_request envs (team_workflow plan)
                 0 (mkExec (start_project user_request st)
                           (plan_overview plan started ++ [executing_banner])
                           [] [] [])).
  cbv zeta in F. destruct F as (Hr & Ha & Hi & Hc).
  unfold shown, rest, replied, team_status, get_project_status,
    project_status.
  cbn [status_current_project has_requirements has_architecture
       has_implementation_plan status_name rest_current_project
       rest_has_requirements rest_has_architecture
       rest_has_implementation_plan rest_has_deployment_plan
       rest_code_modules_count rest_available_modules has_deployment_plan
       code_modules_count].
  unfold st', orchestrator, execute_plan.
  cbn [negb planning start_time step_env final_state].
  rewrite Hr, Ha, Hi, Hc.
  repeat split. unfold keys. rewrite length_map. reflexivity.
Qed.

(** ** The export *)


Lemma write_all_failing (w : nat -> completion unit) (e : string)
    (files : list (string * string)) : forall k0 k,
  (forall j, k0 <= j < k0 + k -> w j = Returned tt) ->
  w (k0 + k) = Raised e ->
  k < length files ->
  write_all w k0 files = (firstn k files, Some e).
Proof.
  induction files as [|f files IH]; intros k0 k Hok Hfail Hlen;
    cbn [write_all length] in *; [lia|].
  destruct k as [|k].
  - rewrite Nat.add_0_r in Hfail. rewrite Hfail. reflexivity.
  - rewrite (Hok k0) by lia.
    rewrite (IH (S k0) k); [reflexivity| | |lia].
    + intros j Hj. apply Hok. lia.
    + rewrite <- Hfail. f_equal. lia.
Qed.

Lemma write_all_prefix (w : nat -> completion unit)
    (files : list (string * string)) : forall k,
  exists rest, files = (fst (write_all w k files) ++ rest)%list.
Proof.
  induction files as [|f files IH]; intros k; cbn [write_all].
  - exists []. reflexivity.
  - destruct (w k) as [u|e]; [|exists (f :: files); reflexivity].
    destruct (IH (S k)) as [rest E].
    destruct (write_all w (S k) files) as [done failure].
    exists rest. cbn [fst] in *. rewrite E at 1. reflexivity.
Qed.

(** X13.  With an active project whose module names have no slash, when
    the folders could be prepared and the write of the file at position [k]
    of the export is the first to raise, the export returns the failure text with the message raised and
    has written exactly the [k] files before it: nothing after the failure
    is attempted and no summary is returned. *)
Theorem export_stops_at_first_failure (st : ProjectState) (env : ExportEnv)
    (output_directory : string) (include_docs : bool) (k : nat)
    (e : string) :
  plain_names st ->
  truthy (current_project st) = true ->
  prepared env = Returned tt ->
  (forall j, j < k -> written env j = Returned tt) ->
  written env k = Raised e ->
  k < length (export_plan st env output_directory) ->
  export_project_files st env output_directory include_docs
  = mkExported ("❌ Export failed: " ++ e)
               (firstn k (export_plan st env output_directory)).
Proof.
  intros _ Hactive Hprep Hok Hfail Hlen. unfold export_project_files.
  rewrite Hactive, Hprep. cbn [negb].
  rewrite (write_all_failing (written env) e _ 0 k);
    [reflexivity| |exact Hfail|exact Hlen].
  intros j Hj. apply Hok. lia.
Qed.

Lemma export_stops_at_first_failure_witness :
  plain_names delivered_state /\
  truthy (current_project delivered_state) = true /\
  prepared disk_full_at_fourth = Returned tt /\
  (forall j, j < 3 -> written disk_full_at_fourth j = Returned tt) /\
  written disk_full_at_fourth 3
  = Raised "[Errno 28] No space left on device" /\
  3 < length (export_plan delivered_state disk_full_at_fourth "out") /\
  export_returned (export_project_files delivered_state disk_full_at_fourth
                                        "out" true)
  = "❌ Export failed: [Errno 28] No space left on device" /\
  map fst (export_written
             (export_project_files delivered_state disk_full_at_fourth
                                   "out" true))
  = ["src/auth.py"; "src/components/ChatWindow.jsx"; "tests/test_auth.py"].
Proof.
  assert (Hok : forall j, j < 3 -> written disk_full_at_fourth j = Returned tt).
  { intros j Hj. destruct j as [|[|[|j]]]; [reflexivity..|lia]. }
  assert (Hlen : 3 < length (export_plan delivered_state disk_full_at_fourth
                                         "out"))
    by (vm_compute; lia).
  assert (P : plain_names delivered_state) by (repeat constructor).
  split; [exact P|].
  split; [reflexivity|]. split; [reflexivity|]. split; [exact Hok|].
  split; [reflexivity|]. split; [exact Hlen|].
  rewrite (export_stops_at_first_failure delivered_state disk_full_at_fourth
             "out" true 3 "[Errno 28] No space left on device"
             P eq_refl eq_refl Hok eq_refl Hlen).
  split; reflexivity.
Defined.



(** ** The paths of an export *)

Lemma has_slash_append (a b : string) :
  has_slash (a ++ b) = has_slash a || has_slash b.
Proof.
  induction a as [|c a IH]; simpl; [reflexivity|].
  rewrite IH, orb_assoc. reflexivity.
Qed.

Lemma prefix_append (p : string) : forall s,
  String.prefix p s = true -> exists rest, s = p ++ rest.
Proof.
  induction p as [|a p IH]; intros s H.
  - exists s. reflexivity.
  - destruct s as [|b s]; simpl in H; [discriminate|].
    destruct (ascii_dec a b) as [->|]; [|discriminate].
    destruct (IH s H) as [rest ->]. exists rest. reflexivity.
Qed.

Lemma prefix_needs_slash (p s : string) :
  has_slash p = true -> has_slash s = false -> String.prefix p s = false.
Proof.
  intros Hp Hs. destruct (String.prefix p s) eqn:E; [|reflexivity].
  destruct (prefix_append p s E) as [rest ->].
  rewrite has_slash_append, Hp in Hs. discriminate.
Qed.

Lemma path_parts_joined (b : string) : forall d,
  has_slash b = false ->
  basename (d ++ "/" ++ b) = b /\ dirname (d ++ "/" ++ b) = d.
Proof.
  intros d Hb. change ("/" ++ b) with (String "/"%char b).
  induction d as [|c d [IH1 IH2]].
  - simpl. rewrite Hb. split; reflexivity.
  - cbn [append basename dirname].
    assert (S : has_slash (d ++ String "/"%char b) = true).
    { rewrite has_slash_append. simpl. apply orb_true_r. }
    rewrite S, IH1, IH2. split; reflexivity.
Qed.

Lemma path_parts_plain (b : string) :
  has_slash b = false -> basename b = b /\ dirname b = "".
Proof.
  destruct b as [|c b]; simpl; intros H; [split; reflexivity|].
  apply orb_false_iff in H. destruct H as [Hc Hb].
  rewrite Hb, Hc. split; reflexivity.
Qed.

Lemma module_target_cases (n c : string) :
  In (module_target n c)
     [ (".jsx", "src/components"); (".py", "src"); (".json", "");
       ("", "config"); (".py", "tests"); (".js", "tests") ].
Proof.
  unfold module_target.
  repeat match goal with
         | |- context [if ?b then _ else _] => destruct b
         end; simpl; tauto.
Qed.

(** The folder and the file name of a module's path, for a plain name. *)
Lemma module_path_parts (n c : string) :
  has_slash n = false ->
  dirname (module_path n c) = snd (module_target n c) /\
  basename (module_path n c) = n ++ fst (module_target n c).
Proof.
  intros Hn. unfold module_path.
  pose proof (module_target_cases n c) as H.
  destruct (module_target n c) as [ext folder]. cbn [fst snd].
  assert (J : forall f e, has_slash e = false ->
                dirname (f ++ "/" ++ n ++ e) = f /\
                basename (f ++ "/" ++ n ++ e) = n ++ e).
  { intros f e He.
    destruct (path_parts_joined (n ++ e) f) as [H1 H2];
      [rewrite has_slash_append, Hn, He; reflexivity|].
    split; assumption. }
  simpl in H.
  destruct H as [H|[H|[H|[H|[H|[H|[]]]]]]]; inversion H; subst;
    unfold relative_path; cbn [String.eqb Ascii.eqb Bool.eqb];
    try (apply J; reflexivity).
  destruct (path_parts_plain (n ++ ".json")) as [H1 H2];
    [rewrite has_slash_append, Hn; reflexivity|].
  split; assumption.
Qed.

Lemma list_ascii_append (a b : string) :
  list_ascii_of_string (a ++ b)
  = (list_ascii_of_string a ++ list_ascii_of_string b)%list.
Proof.
  induction a as [|c a IH]; simpl; [reflexivity|].
  rewrite IH. reflexivity.
Qed.

Lemma append_same_tail (a b e : string) : a ++ e = b ++ e -> a = b.
Proof.
  intros H. apply (f_equal list_ascii_of_string) in H.
  rewrite !list_ascii_append in H. apply app_inv_tail in H.
  rewrite <- (string_of_list_ascii_of_string a),
          <- (string_of_list_ascii_of_string b), H.
  reflexivity.
Qed.

(** Two texts ending in different characters differ. *)
Lemma append_last_differs (a b e1 e2 : string) (x y : ascii) :
  x <> y -> a ++ e1 ++ String x "" <> b ++ e2 ++ String y "".
Proof.
  intros Hxy H. apply (f_equal list_ascii_of_string) in H.
  rewrite !list_ascii_append in H. simpl in H.
  apply (f_equal (@rev ascii)) in H.
  rewrite !rev_app_distr in H. simpl in H. congruence.
Qed.

Lemma module_path_injective (n1 c1 n2 c2 : string) :
  has_slash n1 = false -> has_slash n2 = false ->
  module_path n1 c1 = module_path n2 c2 -> n1 = n2.
Proof.
  intros H1 H2 E.
  destruct (module_path_parts n1 c1 H1) as [D1 B1].
  destruct (module_path_parts n2 c2 H2) as [D2 B2].
  rewrite E in D1, B1. rewrite D2 in D1. rewrite B2 in B1. clear D2 B2 E.
  pose proof (module_target_cases n1 c1) as T1.
  pose proof (module_target_cases n2 c2) as T2.
  destruct (module_target n1 c1) as [e1 f1].
  destruct (module_target n2 c2) as [e2 f2].
  cbn [fst snd] in *. simpl in T1, T2.
  destruct T1 as [T|[T|[T|[T|[T|[T|[]]]]]]]; inversion T; subst;
    destruct T2 as [T'|[T'|[T'|[T'|[T'|[T'|[]]]]]]]; inversion T'; subst;
    try discriminate D1;
    try (symmetry; eapply append_same_tail; exact B1).
  - exfalso.
    apply (append_last_differs n2 n1 ".j" ".p" "s" "y");
      [discriminate|exact B1].
  - exfalso.
    apply (append_last_differs n2 n1 ".p" ".j" "y" "s");
      [discriminate|exact B1].
Qed.

Lemma tool_write_modules_nodup c text st :
  NoDup (keys (code_modules st)) ->
  NoDup (keys (code_modules (tool_write c text st))).
Proof.
  intros H. destruct c; cbn [tool_write code_modules set_current_project
    set_requirements set_architecture set_implementation_plan
    set_code_modules set_deployment_plan]; try exact H.
  apply keys_dict_set_nodup, H.
Qed.

Lemma invoke_modules_nodup ga c st env :
  NoDup (keys (code_modules st)) ->
  NoDup (keys (code_modules (snd (invoke ga c st env)))).
Proof.
  intros H. destruct ga.
  - rewrite invoke_state. destruct (missing_context c st); [exact H|].
    destruct (gemini_reply env); [|exact H].
    apply tool_write_modules_nodup, H.
  - destruct (invoke_without_gemini c st env) as [notice E].
    rewrite E. exact H.
Qed.

Lemma execute_workflow_modules_nodup ur envs steps : forall i acc,
  NoDup (keys (code_modules (exec_state acc))) ->
  NoDup (keys (code_modules
                 (exec_state (execute_workflow true ur envs i acc steps)))).
Proof.
  induction steps as [|s steps IH]; intros i acc H; cbn [execute_workflow].
  - exact H.
  - apply IH. rewrite execute_step_eq. cbn [exec_state].
    rewrite state_after_eq.
    destruct (dispatch (agent_name_of s) (parameters s) ur); [|exact H].
    apply invoke_modules_nodup, H.
Qed.

(** In every reachable state each module name is stored once. *)
Lemma reachable_modules_nodup ga st :
  reachable ga st -> NoDup (keys (code_modules st)).
Proof.
  induction 1 as [|st c env _ IH|st w ur ae em _ IH|st _ _].
  - constructor.
  - apply invoke_modules_nodup, IH.
  - unfold orchestrator. destruct ga; cbn [negb]; [|exact IH].
    destruct (planning w) as [e|t|plan]; cbn [final_state];
      try constructor.
    destruct ae; cbn [negb final_state]; [|constructor].
    apply execute_workflow_modules_nodup. constructor.
  - constructor.
Qed.

Lemma NoDup_map_by_key {V : Type} (g : string * V -> string)
    (l : list (string * V)) :
  NoDup (map fst l) ->
  (forall a b, In a l -> In b l -> g a = g b -> fst a = fst b) ->
  NoDup (map g l).
Proof.
  induction l as [|x l IH]; intros Hk Hg; cbn [map]; [constructor|].
  inversion Hk as [|? ? Hnot Hrest]; subst.
  constructor.
  - intros Hin. apply in_map_iff in Hin. destruct Hin as (y & Ey & Hy).
    apply Hnot. rewrite <- (Hg y x); [| right; exact Hy | left; reflexivity
                                      | exact Ey].
    apply in_map, Hy.
  - apply IH; [exact Hrest|].
    intros a b Ha Hb. apply Hg; right; assumption.
Qed.

Lemma module_paths_nodup (st : ProjectState) :
  NoDup (keys (code_modules st)) -> plain_names st ->
  NoDup (map fst (module_files st)).
Proof.
  intros Hk Hp. unfold module_files. rewrite map_map.
  apply NoDup_map_by_key; [exact Hk|].
  intros [n1 c1] [n2 c2] H1 H2 E. cbn [fst] in *.
  unfold plain_names in Hp. rewrite Forall_forall in Hp.
  apply (module_path_injective n1 c1 n2 c2); [| |exact E].
  - apply Hp. apply (in_map fst) in H1. exact H1.
  - apply Hp. apply (in_map fst) in H2. exact H2.
Qed.

Lemma doc_paths_fixed (st : ProjectState) :
  NoDup (map fst (doc_files st) ++ ["README.md"; ".gitignore"])%list /\
  incl (map fst (doc_files st) ++ ["README.md"; ".gitignore"])%list
       fixed_paths.
Proof.
  unfold doc_files, doc_file, fixed_paths.
  destruct (truthy (requirements st)), (truthy (architecture st)),
    (truthy (implementation_plan st)), (truthy (deployment_plan st));
    cbn [app map fst]; split;
    try (repeat constructor; cbn [In]; intuition discriminate);
    intros p Hp; cbn [In] in *; intuition.
Qed.

Lemma module_path_not_fixed (n c : string) :
  has_slash n = false -> ~ In (module_path n c) fixed_paths.
Proof.
  intros Hn Hin.
  destruct (module_path_parts n c Hn) as [D B].
  pose proof (module_target_cases n c) as T.
  destruct (module_target n c) as [e f]. cbn [fst snd] in *.
  unfold fixed_paths in Hin. cbn [In] in Hin. simpl in T.
  destruct T as [T|[T|[T|[T|[T|[T|[]]]]]]]; injection T as He Hf;
    rewrite <- He in B; rewrite <- Hf in D; clear He Hf;
    destruct Hin as [H|[H|[H|[H|[H|[H|[]]]]]]]; rewrite <- H in D, B;
    vm_compute in D; try discriminate D; simpl in B.
  - apply (append_last_differs "README.m" n "" ".jso" "d" "n");
      [discriminate|exact B].
  - apply (append_last_differs ".gitignor" n "" ".jso" "e" "n");
      [discriminate|exact B].
Qed.

Lemma export_plan_paths_nodup (st : ProjectState) (env : ExportEnv)
    (output_directory : string) :
  NoDup (keys (code_modules st)) -> plain_names st ->
  NoDup (map fst (export_plan st env output_directory)).
Proof.
  intros Hk Hp. unfold export_plan.
  rewrite !map_app, <- app_assoc. cbn [map fst].
  destruct (doc_paths_fixed st) as [Hnd Hincl].
  apply NoDup_app; [apply module_paths_nodup; assumption|exact Hnd|].
  intros p Hm Hf. apply Hincl in Hf.
  unfold module_files in Hm. rewrite map_map in Hm.
  apply in_map_iff in Hm. destruct Hm as ([n c] & E & Hin).
  cbn [fst] in E. subst p.
  apply (module_path_not_fixed n c); [|exact Hf].
  unfold plain_names in Hp. rewrite Forall_forall in Hp.
  apply Hp. apply (in_map fst) in Hin. exact Hin.
Qed.

(** X15.  In every state the server can reach whose module names have no
    slash, the export never writes a path twice: different modules go to
    different files, and no module file takes the place of a document, of
    the README or of the ignore file. *)
Theorem exported_paths_are_distinct (ga : bool) (st : ProjectState)
    (env : ExportEnv) (output_directory : string) (include_docs : bool) :
  reachable ga st ->
  plain_names st ->
  NoDup (map fst (export_written
                    (export_project_files st env output_directory
                                          include_docs))).
Proof.
  intros Hr Hp.
  pose proof (export_plan_paths_nodup st env output_directory
                (reachable_modules_nodup ga st Hr) Hp) as Hplan.
  unfold export_project_files.
  destruct (negb (truthy (current_project st))); [constructor|].
  destruct (prepared env); [|constructor].
  destruct (write_all_prefix (written env)
              (export_plan st env output_directory) 0) as [rest E].
  destruct (write_all (written env) 0 (export_plan st env output_directory))
    as [done failure].
  cbn [fst] in E. rewrite E, map_app in Hplan.
  apply NoDup_app_remove_r in Hplan.
  destruct failure; exact Hplan.
Qed.

Lemma exported_paths_are_distinct_witness :
  reachable true earlier_state /\
  plain_names earlier_state /\
  map fst (export_written
             (export_project_files earlier_state disk_ok "out" true))
  = ["src/main_module.py"; "docs/architecture.md"; "README.md"; ".gitignore"]
  /\
  NoDup (map fst (export_written
                    (export_project_files earlier_state disk_ok "out" true))).
Proof.
  assert (R : reachable true earlier_state)
    by apply reach_orchestrator, reach_start.
  assert (P : plain_names earlier_state)
    by (repeat constructor).
  split; [exact R|]. split; [exact P|]. split; [reflexivity|].
  exact (exported_paths_are_distinct true earlier_state disk_ok "out" true
           R P).
Defined.

(** ** The counts of the export summary *)

Lemma count_under_app (p : string) (l1 l2 : list string) :
  count_under p (l1 ++ l2) = count_under p l1 + count_under p l2.
Proof. unfold count_under. rewrite filter_app, length_app. reflexivity. Qed.

Lemma count_under_cons (p x : string) (l : list string) :
  count_under p (x :: l)
  = (if String.prefix p x then 1 else 0) + count_under p l.
Proof.
  unfold count_under. cbn [filter].
  destruct (String.prefix p x); reflexivity.
Qed.

(** Under which folder the path of a module with a plain name lies. *)
Lemma module_path_under (n c : string) :
  has_slash n = false ->
  let folder := snd (module_target n c) in
  let path := module_path n c in
  String.prefix "docs/" path = false /\
  String.prefix "scripts/" path = false /\
  (if String.prefix "src/" path then 1 else 0)
  + (if String.prefix "tests/" path then 1 else 0)
  + (if String.prefix "config/" path then 1 else 0)
  + (if folder =? "" then 1 else 0) = 1.
Proof.
  intros Hn. cbv zeta. unfold module_path.
  pose proof (module_target_cases n c) as T.
  destruct (module_target n c) as [e f]. cbn [snd]. simpl in T.
  assert (J : forall p, has_slash p = true ->
                String.prefix p (n ++ ".json") = false).
  { intros p Hp. apply prefix_needs_slash; [exact Hp|].
    rewrite has_slash_append, Hn. reflexivity. }
  assert (E : forall s, String.prefix "" s = true)
    by (intros [|x s]; reflexivity).
  destruct T as [T|[T|[T|[T|[T|[T|[]]]]]]]; injection T as He Hf;
    rewrite <- He, <- Hf; unfold relative_path;
    cbn [String.eqb Ascii.eqb Bool.eqb];
    rewrite ?J by reflexivity; simpl; rewrite ?E; repeat split.
Qed.

Lemma module_counts (l : dict string) :
  Forall (fun module_name => has_slash module_name = false) (keys l) ->
  let paths := map (fun '(n, c) => module_path n c) l in
  count_under "docs/" paths = 0 /\
  count_under "scripts/" paths = 0 /\
  count_under "src/" paths + count_under "tests/" paths
  + count_under "config/" paths
  + length (filter (fun m => snd (module_target (fst m) (snd m)) =? "") l)
  = length l.
Proof.
  induction l as [|[n c] l IH]; intros Hp; cbv zeta.
  - repeat split.
  - inversion Hp as [|? ? Hn Hrest]; subst.
    destruct (IH Hrest) as (I1 & I2 & I3). cbv zeta in I1, I2, I3.
    destruct (module_path_under n c Hn) as (M1 & M2 & M3).
    cbv zeta in M1, M2, M3.
    cbn [map filter fst snd length]. rewrite !count_under_cons.
    rewrite M1, M2, I1, I2. split; [reflexivity|]. split; [reflexivity|].
    destruct (snd (module_target n c) =? ""); cbn [length]; lia.
Qed.

Lemma doc_counts (st : ProjectState) :
  let paths := (map fst (doc_files st) ++ ["README.md"; ".gitignore"])%list in
  count_under "docs/" paths = length (doc_files st) /\
  count_under "scripts/" paths = 0 /\
  count_under "src/" paths = 0 /\
  count_under "tests/" paths = 0 /\
  count_under "config/" paths = 0.
Proof.
  unfold doc_files, doc_file.
  destruct (truthy (requirements st)), (truthy (architecture st)),
    (truthy (implementation_plan st)), (truthy (deployment_plan st));
    repeat split.
Qed.

(** X16.  For a state whose module names have no slash, the numbers in the
    summary of a complete export add up: the documentation count is the
    number of documents written, the scripts count is always zero, and
    every module is counted under exactly one of source, tests and
    configuration, except the modules written outside any folder (the
    package.json ones), which no folder line counts. *)
Theorem export_summary_counts (st : ProjectState) (env : ExportEnv)
    (output_directory : string) :
  plain_names st ->
  let files_created := map fst (export_plan st env output_directory) in
  count_under "docs/" files_created = length (doc_files st) /\
  count_under "scripts/" files_created = 0 /\
  count_under "src/" files_created + count_under "tests/" files_created
  + count_under "config/" files_created + top_level_modules st
  = length (code_modules st) /\
  length files_created
  = length (code_modules st) + length (doc_files st) + 2.
Proof.
  intros Hp. cbv zeta. unfold export_plan, top_level_modules.
  rewrite !map_app, <- app_assoc. cbn [map fst].
  assert (EM : map fst (module_files st)
               = map (fun '(n, c) => module_path n c) (code_modules st)).
  { unfold module_files. rewrite map_map. apply map_ext.
    intros [n c]. reflexivity. }
  rewrite EM.
  destruct (module_counts (code_modules st) Hp) as (M1 & M2 & M3).
  destruct (doc_counts st) as (D1 & D2 & D3 & D4 & D5).
  cbv zeta in M1, M2, M3, D1, D2, D3, D4, D5.
  rewrite !(count_under_app _ (map (fun '(n, c) => module_path n c)
                                   (code_modules st))).
  rewrite M1, M2, D1, D2, D3, D4, D5.
  repeat split; try lia.
  rewrite !length_app, !length_map. simpl. lia.
Qed.

Lemma export_summary_counts_witness :
  let files_created := map fst (export_plan delivered_state disk_ok "out") in
  plain_names delivered_state /\
  count_under "docs/" files_created = 2 /\
  count_under "scripts/" files_created = 0 /\
  count_under "src/" files_created + count_under "tests/" files_created
  + count_under "config/" files_created + 0
  = 3.
Proof.
  intros files_created.
  assert (P : plain_names delivered_state) by (repeat constructor).
  split; [exact P|].
  destruct (export_summary_counts delivered_state disk_ok "out" P)
    as (H1 & H2 & H3 & _).
  split; [exact H1|]. split; [exact H2|exact H3].
Defined.

(** ** The documentation step *)

Lemma attempt_needs_three_fields ur env i st s :
  agent_name_of s = "documentation_specialist" ->
  (attempt_completion (attempt_of true ur env i st s)
   = Raised none_type_error
   <-> requirements st = None \/ architecture st = None
       \/ implementation_plan st = None).
Proof.
  unfold attempt_of, run_agent. cbn [attempt_completion].
  intros H. rewrite H.
  change (dispatch "documentation_specialist" (parameters s) ur)
    with (Some (CallDocumentationSpecialist
                  (get_or (str_params (parameters s)) "doc_type"
                          "complete"))).
  cbn [fst snd]. rewrite invoke_raises. unfold missing_context.
  destruct (requirements st), (architecture st), (implementation_plan st);
    cbn [is_none orb];
    intuition (try discriminate; try reflexivity).
Qed.

(** X17.  In a run, a documentation step raises the TypeError of a slice
    exactly when, among the steps listed before it, the product analyst,
    the software architect or the technical lead has no step whose text
    generation returned: the documentation can only be written after all
    three have succeeded in the same run. *)
Theorem documentation_needs_three_earlier_steps (st : ProjectState)
    (plan : Plan) (started ended : string) (envs : nat -> StepEnv)
    (reply : completion string) (user_request execution_mode : string)
    (pre : list Step) (s : Step) (post : list Step) :
  team_workflow plan = (pre ++ s :: post)%list ->
  agent_name_of s = "documentation_specialist" ->
  let run := orchestrator true st
               (mkWorld (PlanningOk plan) started envs reply ended)
               user_request true execution_mode in
  (nth_error (map attempt_completion (run_attempts run)) (length pre)
   = Some (Raised none_type_error)
   <-> last_reply "product_analyst" envs 0 pre None = None \/
       last_reply "software_architect" envs 0 pre None = None \/
       last_reply "technical_lead" envs 0 pre None = None).
Proof.
  intros Hplan Hs. unfold orchestrator, execute_plan.
  cbn [negb planning start_time step_env run_attempts]. rewrite Hplan.
  rewrite nth_error_map, attempt_at_position. cbn [option_map].
  destruct (execute_workflow_fields user_request envs pre 0
              (mkExec (start_project user_request st)
                      (plan_overview plan started ++ [executing_banner])
                      [] [] [])) as (Hr & Ha & Hi & _).
  cbv zeta in Hr, Ha, Hi.
  change (requirements
            (exec_state
               (mkExec (start_project user_request st)
                       (plan_overview plan started ++ [executing_banner])
                       [] [] [])))
    with (@None string) in Hr.
  change (architecture
            (exec_state
               (mkExec (start_project user_request st)
                       (plan_overview plan started ++ [executing_banner])
                       [] [] [])))
    with (@None string) in Ha.
  change (implementation_plan
            (exec_state
               (mkExec (start_project user_request st)
                       (plan_overview plan started ++ [executing_banner])
                       [] [] [])))
    with (@None string) in Hi.
  rewrite <- Hr, <- Ha, <- Hi.
  rewrite <- (attempt_needs_three_fields user_request
                (envs (length pre)) (length pre) _ s Hs).
  split; intros H; [injection H as H|rewrite H]; auto.
Qed.

Lemma documentation_needs_three_earlier_steps_witness :
  let pre := [ plain_step 1 "product_analyst" [];
               plain_step 2 "software_architect" [1%Z] ] in
  let s := plain_step 3 "documentation_specialist" [1%Z; 2%Z] in
  let plan := plan_of (pre ++ [s]) in
  let run := orchestrator true project_state
               (world_of (PlanningOk plan) (fun _ => replying "text"))
               "Build a chat app" true "planning" in
  team_workflow plan = (pre ++ s :: [])%list /\
  agent_name_of s = "documentation_specialist" /\
  last_reply "technical_lead" (fun _ => replying "text") 0 pre None = None /\
  nth_error (map attempt_completion (run_attempts run)) 2
  = Some (Raised none_type_error).
Proof.
  intros pre s plan run.
  assert (P : team_workflow plan = (pre ++ s :: [])%list) by reflexivity.
  assert (A : agent_name_of s = "documentation_specialist") by reflexivity.
  split; [exact P|]. split; [exact A|]. split; [reflexivity|].
  apply (documentation_needs_three_earlier_steps project_state plan
           "2025-01-01 08:59:00" "2025-01-01 09:05:00"
           (fun _ => replying "text") (Returned "Delivered.")
           "Build a chat app" "planning" pre s [] P A).
  right. right. reflexivity.
Defined.
